(** * Daily spending planner: the allowance / carryover ledger

    A shallow embedding of the [calculations] memo of
    [src/pages/home.tsx] (together with [totalSavings], which it reads),
    and the properties of the ledger it returns; then of the rest of
    the page: the handlers that edit the state, [savingsByCategory],
    the state the planner starts with, the CSV export, and the
    [calculations] of the earlier planner without expenses.

    Modelling decisions, fixed here once:

    - The ledger is given twice.  In [Planner] a JavaScript [number]
      is an exact rational in lowest terms ([Qc]), so that [=] is
      numeric equality: the arithmetic that the statements about
      shares and sums are about.  There [NaN] only arises from
      [parseFloat] and is the [None] of an [option Qc]; [Infinity],
      overflow and the sign of zero have no counterpart.  In
      [Planner64] the same code runs on binary64, every operation
      rounded, for what depends on rounding.
    - A [Date] is its time value, in milliseconds since 1970-01-01,
      and the Invalid Date is [None].  The local time zone is taken to
      be UTC, without daylight saving.  A [Date] at midnight is held
      as the number of its day.
    - A string is the sequence of the bytes of its UTF-8 form.
    - [state.expenses] is a [gmap string string]; a missing property
      ([undefined]) is [None].  It is read at date keys only, which no
      object inherits.  The object of [savingsByCategory] is read at
      any category, and has the names it inherits. *)

From Stdlib Require Import ZArith QArith Qround Qcanon String Ascii List Lia Lqa Bool DecimalString.
From Stdlib Require Import SpecFloat.
From stdpp Require Import gmap strings list.

Local Open Scope Z_scope.

(** ** Numbers read from text: [parseFloat]

    [parseFloat] skips leading white space, then takes the longest
    prefix that is a [StrDecimalLiteral]: an optional sign, digits with
    an optional fraction (or a fraction alone), and an exponent part
    when it is complete.  No such prefix gives [NaN].  The literal
    [Infinity] has no rational value and is classed with [NaN] here;
    [B64.parseFloat] reads it. *)
Module Num.

Definition is_digit (c : ascii) : bool :=
  let n := N_of_ascii c in ((48 <=? n) && (n <=? 57))%N.

Definition digit_val (c : ascii) : Z := Z.of_N (N_of_ascii c) - 48.

(** [StrWhiteSpaceChar]: the members of one byte, of two bytes (U+00A0)
    and of three bytes (U+1680, U+2000 to U+200A, U+2028, U+2029,
    U+202F, U+205F, U+3000, U+FEFF). *)
Definition is_space (c : ascii) : bool :=
  let n := N_of_ascii c in
  ((n =? 9) || (n =? 10) || (n =? 11) || (n =? 12) || (n =? 13) || (n =? 32))%N.

Definition is_space2 (c1 c2 : ascii) : bool :=
  ((N_of_ascii c1 =? 194) && (N_of_ascii c2 =? 160))%N.

Definition is_space3 (c1 c2 c3 : ascii) : bool :=
  let n1 := N_of_ascii c1 in
  let n2 := N_of_ascii c2 in
  let n3 := N_of_ascii c3 in
  (((n1 =? 225) && (n2 =? 154) && (n3 =? 128))
   || ((n1 =? 226) && (n2 =? 128)
       && (((128 <=? n3) && (n3 <=? 138)) || (n3 =? 168) || (n3 =? 169)
           || (n3 =? 175)))
   || ((n1 =? 226) && (n2 =? 129) && (n3 =? 159))
   || ((n1 =? 227) && (n2 =? 128) && (n3 =? 128))
   || ((n1 =? 239) && (n2 =? 187) && (n3 =? 191)))%N.

Fixpoint skip_space (s : string) : string :=
  match s with
  | String c r =>
      if is_space c then skip_space r
      else
        match r with
        | String c2 r2 =>
            if is_space2 c c2 then skip_space r2
            else
              match r2 with
              | String c3 r3 => if is_space3 c c2 c3 then skip_space r3 else s
              | EmptyString => s
              end
        | EmptyString => s
        end
  | EmptyString => s
  end.

(** [digits s acc n]: read the leading run of decimal digits of [s],
    continuing the value [acc] of [n] digits already read. *)
Fixpoint digits (s : string) (acc : Z) (n : nat) : Z * nat * string :=
  match s with
  | String c r => if is_digit c then digits r (10 * acc + digit_val c) (S n)
                  else (acc, n, s)
  | EmptyString => (acc, n, s)
  end.

(** The exponent part [e], [e+] or [e-] followed by at least one digit;
    an incomplete one is not part of the literal and counts as 0. *)
Definition exponent (s : string) : Z :=
  match s with
  | String c r =>
      if (N_of_ascii c =? 101)%N || (N_of_ascii c =? 69)%N then
        match r with
        | String "+"%char r' =>
            let '(e, k, _) := digits r' 0 0%nat in
            match k with O => 0 | _ => e end
        | String "-"%char r' =>
            let '(e, k, _) := digits r' 0 0%nat in
            match k with O => 0 | _ => - e end
        | _ =>
            let '(e, k, _) := digits r 0 0%nat in
            match k with O => 0 | _ => e end
        end
      else 0
  | EmptyString => 0
  end.

(** A whole number as a [number]. *)
Definition ofZ (n : Z) : Qc := Q2Qc (inject_Z n).

(** Mantissa and exponent of an unsigned literal, if there is one. *)
Definition unsigned_literal (s : string) : option Qc :=
  let '(ip, ni, r) := digits s 0 0%nat in
  match r with
  | String "."%char r' =>
      let '(m, nf, r'') := digits r' ip 0%nat in
      match ni, nf with
      | O, O => None
      | _, _ => Some (Q2Qc (inject_Z m * Qpower (10 # 1) (exponent r'' - Z.of_nat nf)))
      end
  | _ =>
      match ni with
      | O => None
      | _ => Some (Q2Qc (inject_Z ip * Qpower (10 # 1) (exponent r)))
      end
  end.

Definition parseFloat (s : string) : option Qc :=
  match skip_space s with
  | String "-"%char r =>
      match unsigned_literal r with Some q => Some (- q)%Qc | None => None end
  | String "+"%char r => unsigned_literal r
  | t => unsigned_literal t
  end.

(** [x || 0] for a number [x]: [NaN] and zero are falsy. *)
Definition or0 (x : option Qc) : Qc :=
  match x with
  | Some q => if Qc_eq_bool q 0 then 0%Qc else q
  | None => 0%Qc
  end.

(** The comparisons [x <= y] and [x > y]. *)
Definition leb (x y : Qc) : bool := Qle_bool x y.
Definition gtb (x y : Qc) : bool := negb (Qle_bool x y).

(** [Math.max] and [Math.min] on two numbers. *)
Definition Math_max (x y : Qc) : Qc := if leb x y then y else x.
Definition Math_min (x y : Qc) : Qc := if leb x y then x else y.

End Num.

(** ** Numbers as the program holds them: binary64

    The numbers of IEEE 754 binary64, with the operations of the
    specification of floating-point arithmetic of the standard library:
    every operation rounds to the nearest number, ties to even. *)
Module B64.
Import Num.

Definition prec : Z := 53.
Definition emax : Z := 1024.

Definition number : Type := spec_float.
Definition NaN : number := S754_nan.
Definition zero : number := S754_zero false.

Definition add : number -> number -> number := SFadd prec emax.
Definition sub : number -> number -> number := SFsub prec emax.
Definition mul : number -> number -> number := SFmul prec emax.
Definition div : number -> number -> number := SFdiv prec emax.

Definition eqb : number -> number -> bool := SFeqb.
Definition ltb : number -> number -> bool := SFltb.
Definition leb : number -> number -> bool := SFleb.
Definition gtb (x y : number) : bool := SFltb y x.
Definition geb (x y : number) : bool := SFleb y x.

Definition isNaN (x : number) : bool :=
  match x with S754_nan => true | _ => false end.

(** A whole number as a [number]. *)
Definition ofZ (n : Z) : number := binary_normalize prec emax n 0 false.

(** The [number] nearest to a rational: one division of two whole
    numbers, rounded once. *)
Definition round (q : Q) : number :=
  match Qnum q with
  | Z0 => zero
  | Zpos p => div (S754_finite false p 0) (S754_finite false (Qden q) 0)
  | Zneg p => div (S754_finite true p 0) (S754_finite false (Qden q) 0)
  end.

(** [x || 0]: [NaN] and both zeros are falsy. *)
Definition or0 (x : number) : number :=
  match x with
  | S754_nan | S754_zero _ => zero
  | _ => x
  end.

(** [parseFloat]: white space, a sign, then [Infinity] or the longest
    decimal literal, rounded to the nearest [number]. *)
Definition unsigned (s : string) : number :=
  if String.prefix "Infinity" s then S754_infinity false
  else match unsigned_literal s with
       | Some q => round (this q)
       | None => NaN
       end.

Definition parseFloat (s : string) : number :=
  match skip_space s with
  | String c r =>
      if Ascii.eqb c "-" then SFopp (unsigned r)
      else if Ascii.eqb c "+" then unsigned r
      else unsigned (String c r)
  | EmptyString => NaN
  end.

(** [Math.max] and [Math.min] on two numbers: [NaN] if one is, and
    [-0] counts as less than [+0]. *)
Definition Math_max (x y : number) : number :=
  if isNaN x || isNaN y then NaN
  else if ltb x y then y
  else if ltb y x then x
  else match x with S754_zero true => y | _ => x end.

Definition Math_min (x y : number) : number :=
  if isNaN x || isNaN y then NaN
  else if ltb x y then x
  else if ltb y x then y
  else match y with S754_zero true => y | _ => x end.

(** The whole part of a number, towards zero. *)
Definition trunc (x : number) : option Z :=
  match x with
  | S754_zero _ => Some 0
  | S754_finite s m e =>
      let v := if 0 <=? e then Zpos m * 2 ^ e else Zpos m / 2 ^ (- e) in
      Some (if s then - v else v)
  | _ => None
  end.

End B64.

(** ** Dates (date-fns)

    A [Date] is its time value: milliseconds since 1970-01-01, with
    [None] for the Invalid Date.  A [Date] at midnight, as
    [eachDayOfInterval] gives them and as [format] reads them, is
    held as its day number. *)
Module Cal.

Definition is_leap (y : Z) : bool :=
  (y mod 4 =? 0) && (negb (y mod 100 =? 0) || (y mod 400 =? 0)).

Definition month_days (leap : bool) (m : Z) : Z :=
  if m =? 2 then (if leap then 29 else 28)
  else if (m =? 4) || (m =? 6) || (m =? 9) || (m =? 11) then 30
  else 31.

Definition days_in_month (y m : Z) : Z := month_days (is_leap y) m.

(** Years are counted from March, in eras of 400 years (146097 days):
    [year_start] is the first day of a year of the era, [month_index]
    the months since March, [month_start] the first day of such a month
    in its year. *)
Definition year_start (yoe : Z) : Z := yoe * 365 + yoe / 4 - yoe / 100.
Definition month_index (m : Z) : Z := if 2 <? m then m - 3 else m + 9.
Definition month_start (mp : Z) : Z := (153 * mp + 2) / 5.

(** Day number of the proleptic Gregorian date [y]-[m]-[d]
    (0 is 1970-01-01). *)
Definition days_from_civil (y m d : Z) : Z :=
  let y' := if m <=? 2 then y - 1 else y in
  let era := y' / 400 in
  let yoe := y' - era * 400 in
  let doy := month_start (month_index m) + d - 1 in
  let doe := year_start yoe + doy in
  era * 146097 + doe - 719468.

(** The year of the era a day of the era falls in, and the month a
    month index stands for. *)
Definition year_of_day (doe : Z) : Z :=
  (doe - doe / 1460 + doe / 36524 - doe / 146096) / 365.
Definition month_of_index (mp : Z) : Z := if mp <? 10 then mp + 3 else mp - 9.

(** The inverse: year, month and day of month of a day number. *)
Definition civil_from_days (z : Z) : Z * Z * Z :=
  let z' := z + 719468 in
  let era := z' / 146097 in
  let doe := z' - era * 146097 in
  let yoe := year_of_day doe in
  let doy := doe - year_start yoe in
  let mp := (5 * doy + 2) / 153 in
  let d := doy - month_start mp + 1 in
  let m := month_of_index mp in
  let y := yoe + era * 400 in
  (if m <=? 2 then y + 1 else y, m, d).

(** [getFullYear()], [getMonth() + 1] and [getDate()] of a [Date]. *)
Definition getFullYear (t : Z) : Z := fst (fst (civil_from_days t)).
Definition getMonth1 (t : Z) : Z := snd (fst (civil_from_days t)).
Definition getDate (t : Z) : Z := snd (civil_from_days t).
(** 0 is Sunday; day 0 was a Thursday. *)
Definition getDay (t : Z) : Z := (t + 4) mod 7.

(** [n.toString()] for a natural number. *)
Definition to_string (n : Z) : string := NilZero.string_of_uint (N.to_uint (Z.to_N n)).

Fixpoint zeros (k : nat) : string :=
  match k with O => EmptyString | S k' => String "0"%char (zeros k') end.

(** [addLeadingZeros]: pad with zeros on the left up to [width]. *)
Definition addLeadingZeros (n : Z) (width : nat) : string :=
  let s := to_string (Z.abs n) in
  String.append (if n <? 0 then "-"%string else EmptyString)
    (String.append (zeros (width - String.length s)) s).

(** The token [yyyy] prints the year of the era. *)
Definition year_of_era (y : Z) : Z := if 0 <? y then y else 1 - y.

Definition month_name (m : Z) : string :=
  nth (Z.to_nat (m - 1))
    ["January"; "February"; "March"; "April"; "May"; "June"; "July";
     "August"; "September"; "October"; "November"; "December"]%string EmptyString.

Definition weekday_name (w : Z) : string :=
  nth (Z.to_nat w)
    ["Sunday"; "Monday"; "Tuesday"; "Wednesday"; "Thursday"; "Friday";
     "Saturday"]%string EmptyString.

(** [format(date, "yyyy-MM-dd")] *)
Definition format_yyyy_MM_dd (t : Z) : string :=
  String.concat "-"
    [addLeadingZeros (year_of_era (getFullYear t)) 4;
     addLeadingZeros (getMonth1 t) 2;
     addLeadingZeros (getDate t) 2].

(** [format(date, "MMMM d, yyyy")] *)
Definition format_MMMM_d_yyyy (t : Z) : string :=
  String.concat EmptyString
    [month_name (getMonth1 t); " "; to_string (getDate t); ", ";
     addLeadingZeros (year_of_era (getFullYear t)) 4]%string.

(** [format(date, "EEEE")] *)
Definition format_EEEE (t : Z) : string := weekday_name (getDay t).

(** A run of exactly [k] digits at the head of [s]. *)
Fixpoint fixed_digits (k : nat) (s : string) (acc : Z) : option (Z * string) :=
  match k with
  | O => Some (acc, s)
  | S k' =>
      match s with
      | String c r =>
          if Num.is_digit c then fixed_digits k' r (10 * acc + Num.digit_val c)
          else None
      | EmptyString => None
      end
  end.

(** [validateDate]: the month exists and the day exists in it. *)
Definition validateDate (y m d : Z) : bool :=
  (1 <=? m) && (m <=? 12) && (1 <=? d) && (d <=? days_in_month y m).

(** *** Time values *)

Definition msPerDay : Z := 86400000.

(** The largest time value of a [Date]. *)
Definition maxTime : Z := 8640000000000000.

(** The day a time value falls on, how far into that day it is, and
    the time value at which a day starts. *)
Definition dayOf (t : Z) : Z := t / msPerDay.
Definition timeOfDay (t : Z) : Z := t mod msPerDay.
Definition midnight (d : Z) : Z := d * msPerDay.

(** [TimeClip], and [new Date(x)] for a number [x]. *)
Definition timeClip (t : Z) : option Z :=
  if Z.abs t <=? maxTime then Some t else None.

Definition newDate (x : B64.number) : option Z :=
  match B64.trunc x with
  | Some t => timeClip t
  | None => None
  end.

(** *** Texts *)

Definition is_char (x c : ascii) : bool := Ascii.eqb c x.

(** A character of the class [p] occurs in [s]. *)
Fixpoint has (p : ascii -> bool) (s : string) : bool :=
  match s with
  | EmptyString => false
  | String c r => p c || has p r
  end.

(** The text before the first character of the class [p], and the
    text after that character if there is one. *)
Fixpoint split_at (p : ascii -> bool) (s : string) : string * option string :=
  match s with
  | EmptyString => (EmptyString, None)
  | String c r =>
      if p c then (EmptyString, Some r)
      else let '(a, b) := split_at p r in (String c a, b)
  end.

(** The text before the first character of the class [p], and the
    text from that character on. *)
Fixpoint break_at (p : ascii -> bool) (s : string) : string * string :=
  match s with
  | EmptyString => (EmptyString, EmptyString)
  | String c r =>
      if p c then (EmptyString, s)
      else let '(a, b) := break_at p r in (String c a, b)
  end.

Fixpoint drop (n : nat) (s : string) : string :=
  match n, s with
  | S k, String _ r => drop k r
  | _, _ => s
  end.

(** [s.replace(sub, "")]: [s] without the first occurrence of [sub]. *)
Fixpoint remove_first (sub s : string) : string :=
  if String.prefix sub s then drop (String.length sub) s
  else match s with
       | String c r => String c (remove_first sub r)
       | EmptyString => EmptyString
       end.

(** A line terminator, which [.] does not match: LF, CR, U+2028,
    U+2029. *)
Fixpoint has_line_terminator (s : string) : bool :=
  match s with
  | EmptyString => false
  | String c r =>
      (N_of_ascii c =? 10)%N || (N_of_ascii c =? 13)%N
      || match r with
         | String c2 (String c3 _) =>
             (N_of_ascii c =? 226)%N && (N_of_ascii c2 =? 128)%N
             && ((N_of_ascii c3 =? 168)%N || (N_of_ascii c3 =? 169)%N)
         | _ => false
         end
      || has_line_terminator r
  end.

(** A text that is defined and not empty. *)
Definition nonEmpty (s : option string) : option string :=
  match s with
  | Some (String _ _) => s
  | _ => None
  end.

Definition at_end (s : string) : bool :=
  match s with EmptyString => true | _ => false end.

(** [s] without the character [x] at its head, if it is there. *)
Definition strip (x : ascii) (s : string) : string :=
  match s with
  | String c r => if is_char x c then r else s
  | EmptyString => s
  end.

(** *** [parseISO]

    [None] is the Invalid Date.  The local time zone is taken to be
    UTC. *)

(** The character classes [/\[T \]/], [/\[Z \]/i] and [\[Z+-\]]. *)
Definition dateTimeDelimiter (c : ascii) : bool := is_char "T" c || is_char " " c.
Definition timeZoneDelimiter (c : ascii) : bool :=
  is_char "Z" c || is_char "z" c || is_char " " c.
Definition timezoneStart (c : ascii) : bool :=
  is_char "Z" c || is_char "+" c || is_char "-" c.

(** The pattern of the time zone, a [Z], [+] or [-] and all that
    follows it up to the end of the text: the text from the first such
    character that no line terminator follows. *)
Fixpoint timezoneToken (s : string) : option string :=
  match s with
  | EmptyString => None
  | String c r =>
      if timezoneStart c && negb (has_line_terminator r) then Some s
      else timezoneToken r
  end.

Record DateStrings := {
  dateOf : option string;
  timeOf : option string;
  timezoneOf : option string;
}.

Definition splitDateString (dateString : string) : DateStrings :=
  let '(first, second) := split_at dateTimeDelimiter dateString in
  if match second with
     | Some r => has dateTimeDelimiter r
     | None => false
     end
  then {| dateOf := None; timeOf := None; timezoneOf := None |}
  else
    let '(date, timeString) :=
      if has (is_char ":") first then (None, Some first)
      else if has timeZoneDelimiter first
           then let '(d, t) := break_at timeZoneDelimiter dateString in
                (Some d, Some t)
           else (Some first, second) in
    match nonEmpty timeString with
    | Some ts =>
        match timezoneToken ts with
        | Some token =>
            {| dateOf := date;
               timeOf := Some (remove_first token ts);
               timezoneOf := Some token |}
        | None => {| dateOf := date; timeOf := Some ts; timezoneOf := None |}
        end
    | None => {| dateOf := date; timeOf := None; timezoneOf := None |}
    end.

Definition is_sign (c : ascii) : bool := is_char "+" c || is_char "-" c.
Definition signed (c : ascii) (n : Z) : Z := if is_char "-" c then - n else n.

(** [parseYear] with two additional digits: four digits, or a sign and
    six; or else a century, of two digits or a sign and four, when that
    is the whole text.  The year and the rest of the text. *)
Definition parseYear (dateString : string) : option (Z * string) :=
  match fixed_digits 4 dateString 0 with
  | Some (year, rest) => Some (year, rest)
  | None =>
      match dateString with
      | String c r =>
          if is_sign c then
            match fixed_digits 6 r 0 with
            | Some (year, rest) => Some (signed c year, rest)
            | None =>
                match fixed_digits 4 r 0 with
                | Some (century, EmptyString) =>
                    Some (signed c century * 100, EmptyString)
                | _ => None
                end
            end
          else
            match fixed_digits 2 dateString 0 with
            | Some (century, EmptyString) => Some (century * 100, EmptyString)
            | _ => None
            end
      | EmptyString => None
      end
  end.

Definition validateDayOfYearDate (year dayOfYear : Z) : bool :=
  (1 <=? dayOfYear) && (dayOfYear <=? (if is_leap year then 366 else 365)).

Definition validateWeekDate (week day : Z) : bool :=
  (1 <=? week) && (week <=? 53) && (0 <=? day) && (day <=? 6).

(** The time value of a date of the calendar: the months run from 1
    here, and [setUTCFullYear] counts a day past the end of January on
    into the year. *)
Definition calendarDate (year dayOfYear month day : Z) : option Z :=
  if validateDate year month day && validateDayOfYearDate year dayOfYear
  then timeClip (midnight (days_from_civil year month (Z.max dayOfYear day)))
  else None.

Definition dayOfISOWeekYear (isoWeekYear week day : Z) : option Z :=
  let fourthOfJanuary := days_from_civil isoWeekYear 1 4 in
  match timeClip (midnight fourthOfJanuary) with
  | None => None
  | Some _ =>
      let fourthOfJanuaryDay :=
        if getDay fourthOfJanuary =? 0 then 7 else getDay fourthOfJanuary in
      let diff := (week - 1) * 7 + day + 1 - fourthOfJanuaryDay in
      timeClip (midnight (fourthOfJanuary + diff))
  end.

(** [parseDate], on
    [/^-?(?:(\d{3})|(\d{2})(?:-?(\d{2}))?|W(\d{2})(?:-?(\d{1}))?|)$/]:
    a day of the year, a month with or without a day, a week with or
    without a day, or nothing. *)
Definition parseDate (dateString : string) (year : Z) : option Z :=
  let r := strip "-" dateString in
  match fixed_digits 3 r 0 with
  | Some (dayOfYear, EmptyString) => calendarDate year dayOfYear 1 1
  | _ =>
      match fixed_digits 2 r 0 with
      | Some (month, EmptyString) => calendarDate year 1 month 1
      | Some (month, r2) =>
          match fixed_digits 2 (strip "-" r2) 0 with
          | Some (day, EmptyString) => calendarDate year 1 month day
          | _ => None
          end
      | None =>
          match r with
          | EmptyString => calendarDate year 1 1 1
          | String c w =>
              if is_char "W" c then
                match fixed_digits 2 w 0 with
                | Some (week, EmptyString) =>
                    if validateWeekDate week 0
                    then dayOfISOWeekYear year week 0 else None
                | Some (week, r2) =>
                    match fixed_digits 1 (strip "-" r2) 0 with
                    | Some (d, EmptyString) =>
                        if validateWeekDate week (d - 1)
                        then dayOfISOWeekYear year week (d - 1) else None
                    | _ => None
                    end
                | None => None
                end
              else None
          end
      end
  end.

Definition is_point (c : ascii) : bool := is_char "." c || is_char "," c.

(** The ways a run of digits, greedy, matches at the head of [s], the
    longest first: what is matched, and the rest. *)
Fixpoint digit_runs (s : string) : list (string * string) :=
  match s with
  | String c r =>
      if Num.is_digit c
      then map (fun '(a, b) => (String c a, b)) (digit_runs r)
           ++ [(EmptyString, s)]
      else [(EmptyString, s)]
  | EmptyString => [(EmptyString, s)]
  end.

(** A unit of time is two digits and, optionally, a point or comma
    and a run of digits.  The ways it matches at the head of [s], in
    the order in which they are tried; the decimal sign is given as a
    point, which is what [value.replace(",", ".")] makes of it. *)
Definition unit_matches (s : string) : list (string * string) :=
  match s with
  | String c1 (String c2 r) =>
      if Num.is_digit c1 && Num.is_digit c2 then
        match r with
        | String p r' =>
            if is_point p
            then map (fun '(a, b) => (String c1 (String c2 (String "."%char a)), b))
                     (digit_runs r')
            else []
        | EmptyString => []
        end
        ++ [(String c1 (String c2 EmptyString), r)]
      else []
  | _ => []
  end.

(** The pattern of the time: a unit, then optionally a colon and a
    unit, twice, up to the end of the text.  Its matches in the order
    in which they are tried: the three captures. *)
Definition last_unit (r : string) : list (option string) :=
  map (fun '(u, _) => Some u)
      (List.filter (fun '(_, e) => at_end e) (unit_matches (strip ":" r)))
  ++ (if at_end r then [None] else []).

Definition time_matches (s : string)
  : list (string * option string * option string) :=
  flat_map
    (fun '(u1, r1) =>
       flat_map (fun '(u2, r2) => map (fun u3 => (u1, Some u2, u3)) (last_unit r2))
                (unit_matches (strip ":" r1))
       ++ map (fun u3 => (u1, None, u3)) (last_unit r1))
    (unit_matches s).

(** [(value && parseFloat(value.replace(",", "."))) || 0] *)
Definition parseTimeUnit (value : option string) : B64.number :=
  match value with
  | Some v => B64.or0 (B64.parseFloat v)
  | None => B64.zero
  end.

Definition validateTime (hours minutes seconds : B64.number) : bool :=
  if B64.eqb hours (B64.ofZ 24)
  then B64.eqb minutes B64.zero && B64.eqb seconds B64.zero
  else B64.geb seconds B64.zero && B64.ltb seconds (B64.ofZ 60)
       && B64.geb minutes B64.zero && B64.ltb minutes (B64.ofZ 60)
       && B64.geb hours B64.zero && B64.ltb hours (B64.ofZ 25).

(** [parseTime]: milliseconds, or [NaN]. *)
Definition parseTime (timeString : string) : B64.number :=
  match time_matches timeString with
  | (c1, c2, c3) :: _ =>
      let hours := parseTimeUnit (Some c1) in
      let minutes := parseTimeUnit c2 in
      let seconds := parseTimeUnit c3 in
      if validateTime hours minutes seconds
      then B64.add (B64.add (B64.mul hours (B64.ofZ 3600000))
                            (B64.mul minutes (B64.ofZ 60000)))
                   (B64.mul seconds (B64.ofZ 1000))
      else B64.NaN
  | [] => B64.NaN
  end.

(** [parseTimezone], on [/^(\[+-\])(\d{2})(?::?(\d{2}))?$/]: the offset
    in milliseconds, 0 for [Z] and for a text of another form, [NaN]
    for minutes past 59. *)
Definition parseTimezone (timezoneString : string) : B64.number :=
  if String.eqb timezoneString "Z" then B64.zero
  else
    match timezoneString with
    | String c r =>
        if is_sign c then
          match fixed_digits 2 r 0 with
          | Some (hours, r2) =>
              let minutes :=
                match r2 with
                | EmptyString => Some 0
                | _ =>
                    match fixed_digits 2 (strip ":" r2) 0 with
                    | Some (m, EmptyString) => Some m
                    | _ => None
                    end
                end in
              match minutes with
              | Some m =>
                  if (0 <=? m) && (m <=? 59)
                  then B64.ofZ ((if is_char "+" c then -1 else 1)
                                * (hours * 3600000 + m * 60000))
                  else B64.NaN
              | None => B64.zero
              end
          | None => B64.zero
          end
        else B64.zero
    | EmptyString => B64.zero
    end.

Definition parseISO (argument : string) : option Z :=
  let dateStrings := splitDateString argument in
  match nonEmpty (dateOf dateStrings) with
  | None => None
  | Some dateString =>
      match parseYear dateString with
      | None => None
      | Some (year, restDateString) =>
          match parseDate restDateString year with
          | None => None
          | Some timestamp =>
              let time :=
                match nonEmpty (timeOf dateStrings) with
                | Some t => parseTime t
                | None => B64.zero
                end in
              if B64.isNaN time then None
              else
                match timezoneOf dateStrings with
                | Some tz =>
                    let offset := parseTimezone tz in
                    if B64.isNaN offset then None
                    else newDate (B64.add (B64.add (B64.ofZ timestamp) time)
                                          offset)
                | None => newDate (B64.add (B64.ofZ timestamp) time)
                end
          end
      end
  end.

(** *** Counting and listing days *)

(** [compareLocalAsc]: the sign of the difference in the first of
    year, month, day, hours, minutes, seconds and milliseconds in which
    two dates differ; with no clock changes, the sign of the difference
    of the time values. *)
Definition compareLocalAsc (dateLeft dateRight : Z) : Z :=
  Z.sgn (dateLeft - dateRight).

Definition differenceInCalendarDays (dateLeft dateRight : Z) : Z :=
  dayOf dateLeft - dayOf dateRight.

(** [differenceInDays(dateLeft, dateRight)]: the full days between the
    two dates. *)
Definition differenceInDays (dateLeft dateRight : Z) : Z :=
  let sign := compareLocalAsc dateLeft dateRight in
  let difference := Z.abs (differenceInCalendarDays dateLeft dateRight) in
  let dateLeft' := dateLeft - sign * difference * msPerDay in
  let isLastDayNotFull :=
    if compareLocalAsc dateLeft' dateRight =? - sign then 1 else 0 in
  sign * (difference - isLastDayNotFull).

(** [eachDayOfInterval({start, end})]: starting from the day of
    [start], push the current day and step by one day while its
    midnight is not after [end]. *)
Fixpoint each_day_from (fuel : nat) (currentDate endTime : Z) : list Z :=
  match fuel with
  | O => []
  | S f =>
      if midnight currentDate <=? endTime
      then currentDate :: each_day_from f (currentDate + 1) endTime
      else []
  end.

Definition eachDayOfInterval (start endTime : Z) : list Z :=
  each_day_from (Z.to_nat (dayOf endTime - dayOf start + 1)) (dayOf start) endTime.

(** *** Finite checks

    The calendar facts below rest on checks run over the 400 years of
    an era and the days of a year, and the reading of printed numbers
    on checks over the years 1 to 9999 and the numbers 1 to 31. *)

(** The [n] integers from [lo] upwards. *)
Fixpoint zrange_from (n : nat) (lo : Z) : list Z :=
  match n with
  | O => []
  | S n' => lo :: zrange_from n' (lo + 1)
  end.

Definition zrange (lo n : Z) : list Z := zrange_from (Z.to_nat n) lo.

(** Length of the year [yoe] of the era: it ends with February. *)
Definition year_len (yoe : Z) : Z := if is_leap (yoe + 1) then 366 else 365.

(** The first and the last day of the year [yoe] of the era fall in that
    year, and the next year starts right after. *)
Definition year_ok (yoe : Z) : bool :=
  (year_of_day (year_start yoe) =? yoe) &&
  (year_of_day (year_start yoe + year_len yoe - 1) =? yoe) &&
  ((if yoe =? 399 then 146097 else year_start (yoe + 1))
   =? year_start yoe + year_len yoe).

(** The last day of a year from March that month [m] can reach. *)
Definition last_doy (leap : bool) (m : Z) : Z :=
  if m <=? 2 then (if leap then 365 else 364) else 364.

(** The day [d] of month [m] lies in its year, and its month is read
    back from its place in the year. *)
Definition date_ok (leap : bool) (m d : Z) : bool :=
  implb (d <=? month_days leap m)
    (let doy := month_start (month_index m) + d - 1 in
     let mp := (5 * doy + 2) / 153 in
     (0 <=? doy) && (doy <=? last_doy leap m) &&
     (mp =? month_index m) && (month_of_index mp =? m)).

(** The day [doy] of a year from March is a day of a month. *)
Definition doy_ok (leap : bool) (doy : Z) : bool :=
  let mp := (5 * doy + 2) / 153 in
  let d := doy - month_start mp + 1 in
  let m := month_of_index mp in
  (1 <=? m) && (m <=? 12) && (1 <=? d) && (d <=? month_days leap m) &&
  (month_index m =? mp).

(** A year from 1 to 9999, and a month or day number, are read back
    from their padded print. *)
Definition pad4_parse_ok (y : Z) : bool :=
  match fixed_digits 4 (addLeadingZeros (year_of_era y) 4) 0 with
  | Some (v, EmptyString) =>
      (v =? y) && (String.length (addLeadingZeros (year_of_era y) 4) =? 4)%nat
  | _ => false
  end.

Definition pad2_parse_ok (n : Z) : bool :=
  match fixed_digits 2 (addLeadingZeros n 2) 0 with
  | Some (v, EmptyString) =>
      (v =? n) && (String.length (addLeadingZeros n 2) =? 2)%nat
  | _ => false
  end.

(** The day numbers of 0001-01-01 and of 9999-12-31. *)
Definition day_0001_01_01 : Z := -719162.
Definition day_9999_12_31 : Z := 2932896.

End Cal.

(** ** The planner state and the ledger ([src/pages/home.tsx]) *)
Module Planner.
Import Num Cal.

Record SavingsGoal := {
  id : string;
  name : string;
  amount : string;
  category : string;
}.

Record PlannerState := {
  totalAmount : string;
  startDate : string;
  endDate : string;
  expenses : gmap string string;
  savingsGoals : list SavingsGoal;
}.

(** One element of [days]. *)
Record DayEntry := {
  date : Z;
  dateKey : string;
  formattedDate : string;
  dayName : string;
  allowance : Qc;
  spent : Qc;
  remaining : Qc;
}.

(** The object [calculations] returns.  The early return for a bad range
    has no [spentUpToToday] property: reading it gives [undefined],
    which is [None] here. *)
Record Ledger := {
  daysCount : Z;
  available : Qc;
  dailyAllowance : Qc;
  days : list DayEntry;
  isValidRange : bool;
  totalSpent : Qc;
  totalRemaining : Qc;
  spentPercentage : Qc;
  spentUpToToday : option Qc;
}.

(** [state.savingsGoals.reduce((sum, goal) => sum + (parseFloat(goal.amount) || 0), 0)] *)
Definition totalSavings (goals : list SavingsGoal) : Qc :=
  fold_left (fun sum goal => (sum + or0 (parseFloat (amount goal)))%Qc) goals 0%Qc.

(** [expenseInput] is neither [undefined] nor the empty string. *)
Definition hasInput (expenseInput : option string) : bool :=
  match expenseInput with
  | Some s => negb (String.eqb s EmptyString)
  | None => false
  end.

(** [parseFloat] of a property that may be [undefined]. *)
Definition parseFloat_prop (expenseInput : option string) : option Qc :=
  match expenseInput with
  | Some s => parseFloat s
  | None => None
  end.

(** The body of [daysArray.forEach]: the state is the variable
    [carryover] and the array [days] built so far. *)
Definition forEach_body (exps : gmap string string) (baseDaily : Qc)
    (st : Qc * list DayEntry) (d : Z) : Qc * list DayEntry :=
  let '(carryover, days) := st in
  let dateKey := format_yyyy_MM_dd d in
  let expenseInput := exps !! dateKey in
  let availableForDay := (baseDaily + carryover)%Qc in
  let spent :=
    if hasInput expenseInput then or0 (parseFloat_prop expenseInput)
    else availableForDay in
  let remaining := (availableForDay - spent)%Qc in
  (remaining,
   days ++ [{| date := d;
               dateKey := dateKey;
               formattedDate := format_MMMM_d_yyyy d;
               dayName := format_EEEE d;
               allowance := availableForDay;
               spent := spent;
               remaining := remaining |}]).

(** [isBefore(dayDate, today) || isToday(dayDate)] *)
Definition upToToday (today dayDate : Z) : bool :=
  (dayDate <? today) || (dayDate =? today).

(** The object returned when the range is rejected. *)
Definition invalidRange (available : Qc) : Ledger :=
  {| daysCount := 0;
     available := available;
     dailyAllowance := 0;
     days := [];
     isValidRange := false;
     totalSpent := 0;
     totalRemaining := available;
     spentPercentage := 0;
     spentUpToToday := None |}.

(** The memo [calculations]; [today] is the day of [new Date()].  The
    operator [/] is a parameter, so that it can be stated what the code
    divides by: JavaScript gives [NaN] or [Infinity] for a zero divisor,
    which no rational stands for. *)
Definition calculationsWith (divide : Qc -> Qc -> Qc)
    (state : PlannerState) (today : Z) : Ledger :=
  let total := or0 (parseFloat (totalAmount state)) in
  let available := Math_max 0 (total - totalSavings (savingsGoals state)) in
  match parseISO (startDate state), parseISO (endDate state) with
  | Some startDate, Some endDate =>
      if startDate >? endDate then invalidRange available
      else
        let daysCount := differenceInDays endDate startDate + 1 in
        let baseDaily :=
          if 0 <? daysCount then divide available (ofZ daysCount) else 0%Qc in
        let daysArray := eachDayOfInterval startDate endDate in
        let days :=
          snd (fold_left (forEach_body (expenses state) baseDaily) daysArray (0%Qc, [])) in
        let totalSpent := fold_left (fun sum day => (sum + spent day)%Qc) days 0%Qc in
        let totalRemaining := (available - totalSpent)%Qc in
        let spentPercentage :=
          if gtb available 0
          then Math_min (ofZ 100) (divide totalSpent available * ofZ 100)%Qc
          else 0%Qc in
        let spentUpToToday :=
          fold_left (fun sum day =>
                       if upToToday today (date day) then (sum + spent day)%Qc else sum)
                    days 0%Qc in
        {| daysCount := daysCount;
           available := available;
           dailyAllowance := baseDaily;
           days := days;
           isValidRange := true;
           totalSpent := totalSpent;
           totalRemaining := totalRemaining;
           spentPercentage := spentPercentage;
           spentUpToToday := Some spentUpToToday |}
  | _, _ => invalidRange available
  end.

(** [calculations] with the division of the rationals. *)
Definition calculations : PlannerState -> Z -> Ledger := calculationsWith Qcdiv.

(** *** Reference definitions for the statements below *)

(** The sum of a sequence of numbers, head first. *)
Fixpoint Qsum (l : list Qc) : Qc :=
  match l with
  | [] => 0%Qc
  | x :: r => (x + Qsum r)%Qc
  end.

(** The numeric value the code gives to an amount typed as text. *)
Definition amountValue (s : string) : Qc := or0 (parseFloat s).

(** The larger and the smaller of two numbers, by cases on the order. *)
Definition Qcmax (x y : Qc) : Qc := if Qclt_le_dec x y then y else x.
Definition Qcmin (x y : Qc) : Qc := if Qclt_le_dec y x then y else x.

(** The entry of day [d] when the previous day left [carryover]. *)
Definition entryOf (exps : gmap string string) (baseDaily carryover : Qc) (d : Z)
  : DayEntry :=
  let availableForDay := (baseDaily + carryover)%Qc in
  let spent :=
    if hasInput (exps !! format_yyyy_MM_dd d)
    then or0 (parseFloat_prop (exps !! format_yyyy_MM_dd d))
    else availableForDay in
  {| date := d;
     dateKey := format_yyyy_MM_dd d;
     formattedDate := format_MMMM_d_yyyy d;
     dayName := format_EEEE d;
     allowance := availableForDay;
     spent := spent;
     remaining := (availableForDay - spent)%Qc |}.

(** The entries of the days [l], each carrying over to the next. *)
Fixpoint entriesFrom (exps : gmap string string) (baseDaily carryover : Qc)
    (l : list Z) : list DayEntry :=
  match l with
  | [] => []
  | d :: l' =>
      let e := entryOf exps baseDaily carryover d in
      e :: entriesFrom exps baseDaily (remaining e) l'
  end.

(** An amount text with non-numeric text replaced by ["0"]. *)
Definition numericOr0 (s : string) : string :=
  match parseFloat s with
  | Some _ => s
  | None => "0"%string
  end.

(** A state with every non-numeric amount replaced by ["0"]. *)
Definition zeroNonNumeric (state : PlannerState) : PlannerState :=
  {| totalAmount := numericOr0 (totalAmount state);
     startDate := startDate state;
     endDate := endDate state;
     expenses := expenses state;
     savingsGoals :=
       map (fun g => {| id := id g;
                        name := name g;
                        amount := numericOr0 (amount g);
                        category := category g |})
           (savingsGoals state) |}.

(** The range a state describes: both dates parse and are in order. *)
Definition rangeOf (state : PlannerState) : option (Z * Z) :=
  match parseISO (startDate state), parseISO (endDate state) with
  | Some s, Some e => if (s <=? e)%Z then Some (s, e) else None
  | _, _ => None
  end.

End Planner.

(** ** The ledger in binary64 ([src/pages/home.tsx])

    [totalSavings] and [calculations] once more, with the numbers the
    program computes with: every [+], [-], [*] and [/] rounds. *)
Module Planner64.
Import Cal.
Import Planner (SavingsGoal, PlannerState, amount, totalAmount, startDate,
                endDate, expenses, savingsGoals, hasInput, upToToday).

Record DayEntry := {
  date : Z;
  dateKey : string;
  formattedDate : string;
  dayName : string;
  allowance : B64.number;
  spent : B64.number;
  remaining : B64.number;
}.

Record Ledger := {
  daysCount : Z;
  available : B64.number;
  dailyAllowance : B64.number;
  days : list DayEntry;
  isValidRange : bool;
  totalSpent : B64.number;
  totalRemaining : B64.number;
  spentPercentage : B64.number;
  spentUpToToday : option B64.number;
}.

(** [state.savingsGoals.reduce((sum, goal) => sum + (parseFloat(goal.amount) || 0), 0)] *)
Definition totalSavings (goals : list SavingsGoal) : B64.number :=
  fold_left (fun sum goal => B64.add sum (B64.or0 (B64.parseFloat (amount goal))))
            goals B64.zero.

(** [parseFloat] of a property that may be [undefined]. *)
Definition parseFloat_prop (expenseInput : option string) : B64.number :=
  match expenseInput with
  | Some s => B64.parseFloat s
  | None => B64.NaN
  end.

(** The body of [daysArray.forEach]. *)
Definition forEach_body (exps : gmap string string) (baseDaily : B64.number)
    (st : B64.number * list DayEntry) (d : Z) : B64.number * list DayEntry :=
  let '(carryover, days) := st in
  let dateKey := format_yyyy_MM_dd d in
  let expenseInput := exps !! dateKey in
  let availableForDay := B64.add baseDaily carryover in
  let spent :=
    if hasInput expenseInput then B64.or0 (parseFloat_prop expenseInput)
    else availableForDay in
  let remaining := B64.sub availableForDay spent in
  (remaining,
   days ++ [{| date := d;
               dateKey := dateKey;
               formattedDate := format_MMMM_d_yyyy d;
               dayName := format_EEEE d;
               allowance := availableForDay;
               spent := spent;
               remaining := remaining |}]).

(** The object returned when the range is rejected. *)
Definition invalidRange (available : B64.number) : Ledger :=
  {| daysCount := 0;
     available := available;
     dailyAllowance := B64.zero;
     days := [];
     isValidRange := false;
     totalSpent := B64.zero;
     totalRemaining := available;
     spentPercentage := B64.zero;
     spentUpToToday := None |}.

Definition calculations (state : PlannerState) (today : Z) : Ledger :=
  let total := B64.or0 (B64.parseFloat (totalAmount state)) in
  let available :=
    B64.Math_max B64.zero (B64.sub total (totalSavings (savingsGoals state))) in
  match parseISO (startDate state), parseISO (endDate state) with
  | Some startDate, Some endDate =>
      if startDate >? endDate then invalidRange available
      else
        let daysCount := differenceInDays endDate startDate + 1 in
        let baseDaily :=
          if 0 <? daysCount then B64.div available (B64.ofZ daysCount)
          else B64.zero in
        let daysArray := eachDayOfInterval startDate endDate in
        let days :=
          snd (fold_left (forEach_body (expenses state) baseDaily) daysArray
                         (B64.zero, [])) in
        let totalSpent :=
          fold_left (fun sum day => B64.add sum (spent day)) days B64.zero in
        let totalRemaining := B64.sub available totalSpent in
        let spentPercentage :=
          if B64.gtb available B64.zero
          then B64.Math_min (B64.ofZ 100)
                            (B64.mul (B64.div totalSpent available) (B64.ofZ 100))
          else B64.zero in
        let spentUpToToday :=
          fold_left (fun sum day =>
                       if upToToday today (date day) then B64.add sum (spent day)
                       else sum)
                    days B64.zero in
        {| daysCount := daysCount;
           available := available;
           dailyAllowance := baseDaily;
           days := days;
           isValidRange := true;
           totalSpent := totalSpent;
           totalRemaining := totalRemaining;
           spentPercentage := spentPercentage;
           spentUpToToday := Some spentUpToToday |}
  | _, _ => invalidRange available
  end.

End Planner64.

(** ** Sample states *)
Module Samples.
Import Planner.

Definition goal (amount : string) : SavingsGoal :=
  {| id := "g1"; name := "General Savings"; amount := amount; category := "other" |}.

(** 1000 with 200 saved, two days, 300 logged on the first. *)
Definition twoDays : PlannerState :=
  {| totalAmount := "1000";
     startDate := "2024-03-01";
     endDate := "2024-03-02";
     expenses := {[ "2024-03-01"%string := "300"%string ]};
     savingsGoals := [goal "200"] |}.

(** As [twoDays], with 700 spent on the first day: more than its share. *)
Definition overspent : PlannerState :=
  {| totalAmount := "1000";
     startDate := "2024-03-01";
     endDate := "2024-03-02";
     expenses := {[ "2024-03-01"%string := "700"%string ]};
     savingsGoals := [goal "200"] |}.

(** The end date is before the start date. *)
Definition endBeforeStart : PlannerState :=
  {| totalAmount := "1000";
     startDate := "2024-03-10";
     endDate := "2024-03-02";
     expenses := ∅;
     savingsGoals := [goal "0"] |}.

(** A goal amount typed with a minus sign. *)
Definition negativeGoal : PlannerState :=
  {| totalAmount := "1000";
     startDate := "2024-03-01";
     endDate := "2024-03-02";
     expenses := ∅;
     savingsGoals := [goal "-200"] |}.

(** As [negativeGoal], had the negative amount been read as 0. *)
Definition negativeGoalAsZero : PlannerState :=
  {| totalAmount := "1000";
     startDate := "2024-03-01";
     endDate := "2024-03-02";
     expenses := ∅;
     savingsGoals := [goal "0"] |}.

(** Nothing to spend, and a goal typed with a minus sign. *)
Definition zeroTotalNegativeGoal : PlannerState :=
  {| totalAmount := "0";
     startDate := "2024-03-01";
     endDate := "2024-03-01";
     expenses := ∅;
     savingsGoals := [goal "-50"] |}.

(** More saved than there is. *)
Definition overSaved : PlannerState :=
  {| totalAmount := "100";
     startDate := "2024-03-01";
     endDate := "2024-03-02";
     expenses := ∅;
     savingsGoals := [goal "250"; goal "1000000"] |}.

(** A total typed with a minus sign. *)
Definition negativeTotal : PlannerState :=
  {| totalAmount := "-5";
     startDate := "2024-03-01";
     endDate := "2024-03-02";
     expenses := ∅;
     savingsGoals := [goal "200"] |}.

(** 3100 for the 31 days of January 2024, nothing saved, nothing logged. *)
Definition january : PlannerState :=
  {| totalAmount := "3100";
     startDate := "2024-01-01";
     endDate := "2024-01-31";
     expenses := ∅;
     savingsGoals := [] |}.

(** Nothing to spend. *)
Definition zeroTotal : PlannerState :=
  {| totalAmount := "0";
     startDate := "2024-03-01";
     endDate := "2024-03-02";
     expenses := ∅;
     savingsGoals := [goal "200"] |}.

(** 2024-03-01 as a day number. *)
Definition march1 : Z := 19783.


(** 3000 over three days, 1999 logged on the first and
    1.0000000000000002 on the second, which is then allowed 1. *)
Definition smallOverspend : PlannerState :=
  {| totalAmount := "3000";
     startDate := "2024-03-01";
     endDate := "2024-03-03";
     expenses := {[ "2024-03-01"%string := "1999"%string;
                    "2024-03-02"%string := "1.0000000000000002"%string ]};
     savingsGoals := [goal "0"] |}.

End Samples.

(** ** More sample states *)
Module Household.
Import Planner.

(** Three goals in two categories, three days, 100 logged on the second. *)
Definition threeGoals : PlannerState :=
  {| totalAmount := "1000";
     startDate := "2024-03-01";
     endDate := "2024-03-03";
     expenses := {[ "2024-03-02"%string := "100"%string ]};
     savingsGoals :=
       [ {| id := "a1"; name := "Rainy day"; amount := "200";
            category := "emergency" |};
         {| id := "b2"; name := "Trip"; amount := "150"; category := "vacation" |};
         {| id := "c3"; name := "Repairs"; amount := "50";
            category := "emergency" |} ] |}.

Definition trip : SavingsGoal :=
  {| id := "b2"; name := "Trip"; amount := "150"; category := "vacation" |}.

(** 2024-03-02 as a day number. *)
Definition march2 : Z := 19784.

End Household.

(** ** Editing the state ([src/pages/home.tsx])

    The handlers take the previous state and give the next one.  The id
    of a new goal comes from [generateId], which is random: it is an
    argument here. *)
Module Edit.
Import Num Cal Planner.

(** The memo [savingsByCategory]:
    [grouped\[c\] = (grouped\[c\] || 0) + amount] for the goals with a
    positive amount.  [grouped] is a plain object: what it stores is a
    number, or the text that [+] gives when what was read is not a
    number.  The content of such a text depends on the engine and is
    not represented. *)
Inductive Stored :=
| Number (q : Qc)
| Text.

(** The names every plain object inherits from [Object.prototype]:
    reading one of them gives a function, or the prototype itself for
    [__proto__]. *)
Definition inherited : list string :=
  ["constructor"; "__defineGetter__"; "__defineSetter__"; "hasOwnProperty";
   "__lookupGetter__"; "__lookupSetter__"; "isPrototypeOf";
   "propertyIsEnumerable"; "toString"; "valueOf"; "__proto__";
   "toLocaleString"]%string.

Definition isInherited (c : string) : bool := existsb (String.eqb c) inherited.

(** [(grouped\[c\] || 0) + amt]: an own property first, then an inherited
    one, then [undefined]. *)
Definition plus (grouped : gmap string Stored) (c : string) (amt : Qc) : Stored :=
  match grouped !! c with
  | Some (Number q) => Number (or0 (Some q) + amt)%Qc
  | Some Text => Text
  | None => if isInherited c then Text else Number (0 + amt)%Qc
  end.

(** [grouped\[c\] = v]: the setter of [__proto__] takes objects only and
    stores nothing for a text; any other name becomes an own property. *)
Definition assign (grouped : gmap string Stored) (c : string) (v : Stored)
  : gmap string Stored :=
  if String.eqb c "__proto__" then grouped else <[c := v]> grouped.

Definition groupGoal (grouped : gmap string Stored) (goal : SavingsGoal)
  : gmap string Stored :=
  let amt := or0 (parseFloat (amount goal)) in
  if gtb amt 0
  then assign grouped (category goal) (plus grouped (category goal) amt)
  else grouped.

Definition savingsByCategory (goals : list SavingsGoal) : gmap string Stored :=
  fold_left groupGoal goals ∅.

(** [{...prev, expenses: e}] and [{...prev, savingsGoals: g}] *)
Definition withExpenses (prev : PlannerState) (e : gmap string string)
  : PlannerState :=
  {| totalAmount := totalAmount prev;
     startDate := startDate prev;
     endDate := endDate prev;
     expenses := e;
     savingsGoals := savingsGoals prev |}.

Definition withGoals (prev : PlannerState) (g : list SavingsGoal) : PlannerState :=
  {| totalAmount := totalAmount prev;
     startDate := startDate prev;
     endDate := endDate prev;
     expenses := expenses prev;
     savingsGoals := g |}.

Definition handleExpenseChange (dateKey value : string) (prev : PlannerState)
  : PlannerState :=
  withExpenses prev (<[dateKey := value]> (expenses prev)).

Definition addSavingsGoal (newId : string) (prev : PlannerState) : PlannerState :=
  withGoals prev
    (savingsGoals prev
     ++ [{| id := newId; name := EmptyString; amount := "0"; category := "other" |}]).

(** The field argument of [updateSavingsGoal]. *)
Inductive GoalField := FieldName | FieldAmount | FieldCategory.

(** [{...goal, \[field\]: value}] *)
Definition setGoalField (field : GoalField) (value : string) (goal : SavingsGoal)
  : SavingsGoal :=
  match field with
  | FieldName =>
      {| id := id goal; name := value; amount := amount goal;
         category := category goal |}
  | FieldAmount =>
      {| id := id goal; name := name goal; amount := value;
         category := category goal |}
  | FieldCategory =>
      {| id := id goal; name := name goal; amount := amount goal;
         category := value |}
  end.

Definition updateSavingsGoal (goalId : string) (field : GoalField) (value : string)
    (prev : PlannerState) : PlannerState :=
  withGoals prev
    (map (fun goal => if String.eqb (id goal) goalId
                      then setGoalField field value goal else goal)
         (savingsGoals prev)).

(** [removeSavingsGoal]: the next state and the title of the toast shown,
    if any. *)
Definition removeSavingsGoal (goalId : string) (state : PlannerState)
  : PlannerState * option string :=
  if (length (savingsGoals state) <=? 1)%nat
  then (state, Some "Cannot remove"%string)
  else (withGoals state
          (List.filter (fun goal => negb (String.eqb (id goal) goalId))
                       (savingsGoals state)),
        None).

(** [parseFloat(state.totalAmount) > 0 && calculations.isValidRange] *)
Definition hasValidInput (state : PlannerState) (today : Z) : bool :=
  match parseFloat (totalAmount state) with
  | Some q => gtb q 0
  | None => false
  end
  && isValidRange (calculations state today).

(** *** Reference definitions *)

(** A goal with a positive amount. *)
Definition counts (goal : SavingsGoal) : bool :=
  gtb (amountValue (amount goal)) 0.

(** The goals of one category that count, and what they add up to. *)
Definition countsFor (c : string) (goal : SavingsGoal) : bool :=
  String.eqb (category goal) c && counts goal.

(** What the goals of the category [c] that count add up to, taken in
    the order of the goals, starting from [start]. *)
Definition categoryTotalFrom (start : Qc) (c : string) (goals : list SavingsGoal)
  : Qc :=
  fold_left (fun sum g => if countsFor c g then (sum + amountValue (amount g))%Qc
                          else sum)
            goals start.

Definition categoryTotal (c : string) (goals : list SavingsGoal) : Qc :=
  categoryTotalFrom 0%Qc c goals.

(** The amount recorded under the key [k], if one is: an empty input
    records nothing. *)
Definition recorded (exps : gmap string string) (k : string) : option Qc :=
  if hasInput (exps !! k) then Some (or0 (parseFloat_prop (exps !! k))) else None.

End Edit.

(** ** Loading the state ([src/pages/home.tsx])

    The initializer of [useState] and [getDefaultDates].  What
    [JSON.parse] gives is a record whose properties may be missing; a
    missing item, an empty one and one that does not parse are all
    [None]. *)
Module Storage.
Import Num Cal Planner.

(** A stored goal: older versions stored no category; the other
    properties are taken to be there. *)
Record SavedGoal := {
  saved_id : string;
  saved_name : string;
  saved_amount : string;
  saved_category : option string;
}.

Record Saved := {
  saved_totalAmount : option string;
  saved_startDate : option string;
  saved_endDate : option string;
  saved_expenses : option (gmap string string);
  saved_savingsGoals : option (list SavedGoal);
}.

(** [x || d] for a string that may be missing: the empty string is falsy. *)
Definition orDefault (x : option string) (d : string) : string :=
  match x with
  | Some s => if String.eqb s EmptyString then d else s
  | None => d
  end.

(** [startOfMonth] and [endOfMonth], as days. *)
Definition startOfMonth (t : Z) : Z :=
  days_from_civil (getFullYear t) (getMonth1 t) 1.

Definition endOfMonth (t : Z) : Z :=
  days_from_civil (getFullYear t) (getMonth1 t)
                  (days_in_month (getFullYear t) (getMonth1 t)).

(** [getDefaultDates()]: start and end date of the month of [today]. *)
Definition getDefaultDates (today : Z) : string * string :=
  (format_yyyy_MM_dd (startOfMonth today), format_yyyy_MM_dd (endOfMonth today)).

Definition generalSavings (newId : string) : SavingsGoal :=
  {| id := newId; name := "General Savings"; amount := "0"; category := "other" |}.

(** The initial state, from what is stored. *)
Definition initialState (saved : option Saved) (today : Z) (newId : string)
  : PlannerState :=
  match saved with
  | Some parsed =>
      let defaults := getDefaultDates today in
      let migratedGoals :=
        map (fun goal => {| id := saved_id goal;
                            name := saved_name goal;
                            amount := saved_amount goal;
                            category := orDefault (saved_category goal) "other" |})
            (match saved_savingsGoals parsed with Some l => l | None => [] end) in
      {| totalAmount := orDefault (saved_totalAmount parsed) EmptyString;
         startDate := orDefault (saved_startDate parsed) (fst defaults);
         endDate := orDefault (saved_endDate parsed) (snd defaults);
         expenses :=
           match saved_expenses parsed with Some e => e | None => ∅ end;
         savingsGoals :=
           if (0 <? length migratedGoals)%nat then migratedGoals
           else [generalSavings newId] |}
  | None =>
      let defaults := getDefaultDates today in
      {| totalAmount := EmptyString;
         startDate := fst defaults;
         endDate := snd defaults;
         expenses := ∅;
         savingsGoals := [generalSavings newId] |}
  end.

(** What the effect stores, read back: [JSON.parse(JSON.stringify(state))]. *)
Definition stored (state : PlannerState) : Saved :=
  {| saved_totalAmount := Some (totalAmount state);
     saved_startDate := Some (startDate state);
     saved_endDate := Some (endDate state);
     saved_expenses := Some (expenses state);
     saved_savingsGoals :=
       Some (map (fun goal => {| saved_id := id goal;
                                 saved_name := name goal;
                                 saved_amount := amount goal;
                                 saved_category := Some (category goal) |})
                 (savingsGoals state)) |}.

(** A state that is stored and loaded back unchanged. *)
Definition wellFormed (state : PlannerState) : Prop :=
  startDate state <> EmptyString /\ endDate state <> EmptyString /\
  savingsGoals state <> [] /\
  Forall (fun goal => category goal <> EmptyString) (savingsGoals state).

End Storage.

(** ** The CSV export ([exportToCSV] in [src/pages/home.tsx]) *)
Module Csv.
Import Num Cal Planner.

(** [x.toFixed(2)]: the sign, then the nearest number of hundredths (the
    larger one on a tie) written with two decimals.  The exponent form
    that JavaScript uses from 1e21 on is not represented. *)
Definition toFixed2 (x : Qc) : string :=
  let negative := gtb 0 x in
  let a := if negative then (- x)%Qc else x in
  let n := Qfloor (this a * 100 + (1 # 2)) in
  String.append (if negative then "-"%string else EmptyString)
    (String.append (to_string (n / 100))
       (String.append "." (addLeadingZeros (n mod 100) 2))).

Definition newline : string := String (ascii_of_N 10) EmptyString.

Definition headers : list string :=
  ["Date"; "Day"; "Allowance"; "Spent"; "Remaining"]%string.

Definition rows (ledger : Ledger) : list (list string) :=
  map (fun day => [formattedDate day; dayName day; toFixed2 (allowance day);
                   toFixed2 (spent day); toFixed2 (remaining day)])
      (days ledger).

Definition csvContent (ledger : Ledger) : string :=
  String.concat newline
    (String.concat "," headers :: map (String.concat ",") (rows ledger)).

(** The name of the downloaded file. *)
Definition download (state : PlannerState) : string :=
  String.concat EmptyString
    ["spending-plan-"; startDate state; "-to-"; endDate state; ".csv"]%string.

(** How often a character occurs in a text. *)
Fixpoint count_char (c : ascii) (s : string) : nat :=
  match s with
  | EmptyString => O
  | String c' r => ((if Ascii.eqb c' c then 1 else 0) + count_char c r)%nat
  end.

End Csv.

(** ** The earlier planner without expenses ([src/unnamed/part_001]) *)
Module Earlier.
Import Num Cal.

Record PlannerState := {
  totalAmount : string;
  desiredSaving : string;
  startDate : string;
  endDate : string;
}.

Record Day := {
  date : Z;
  formattedDate : string;
  dayName : string;
  amount : Qc;
}.

Record Plan := {
  daysCount : Z;
  available : Qc;
  dailyAllowance : Qc;
  days : list Day;
  isValidRange : bool;
}.

Definition calculations (state : PlannerState) : Plan :=
  let total := or0 (parseFloat (totalAmount state)) in
  let saving := or0 (parseFloat (desiredSaving state)) in
  let available := Math_max 0 (total - saving) in
  match parseISO (startDate state), parseISO (endDate state) with
  | Some startDate, Some endDate =>
      if startDate >? endDate then
        {| daysCount := 0; available := available; dailyAllowance := 0;
           days := []; isValidRange := false |}
      else
        let daysCount := differenceInDays endDate startDate + 1 in
        let dailyAllowance :=
          if 0 <? daysCount then (available / ofZ daysCount)%Qc else 0%Qc in
        let days :=
          map (fun d => {| date := d;
                           formattedDate := format_MMMM_d_yyyy d;
                           dayName := format_EEEE d;
                           amount := dailyAllowance |})
              (eachDayOfInterval startDate endDate) in
        {| daysCount := daysCount; available := available;
           dailyAllowance := dailyAllowance; days := days; isValidRange := true |}
  | _, _ =>
      {| daysCount := 0; available := available; dailyAllowance := 0;
         days := []; isValidRange := false |}
  end.

(** *** Reference definitions *)

(** The state of the later planner that says the same: the desired
    saving as its one goal, and no expense. *)
Definition asLater (state : PlannerState) (goalId : string) : Planner.PlannerState :=
  {| Planner.totalAmount := totalAmount state;
     Planner.startDate := startDate state;
     Planner.endDate := endDate state;
     Planner.expenses := ∅;
     Planner.savingsGoals :=
       [{| Planner.id := goalId;
           Planner.name := "General Savings";
           Planner.amount := desiredSaving state;
           Planner.category := "other" |}] |}.

(** The date and the two texts the planners show of a day. *)
Definition texts (day : Day) : Z * string * string :=
  (date day, formattedDate day, dayName day).

Definition textsLater (day : Planner.DayEntry) : Z * string * string :=
  (Planner.date day, Planner.formattedDate day, Planner.dayName day).

End Earlier.

(** ** Tactics *)

(** Order goals over [Qc] are sent to the linear solver over [Q]. *)
Ltac qc_order :=
  unfold Qclt, Qcle in *;
  cbn [this Q2Qc Qcplus Qcminus Qcopp Qcmult] in *;
  rewrite ?Qred_correct in *;
  lra.

(** * Properties *)

Import Num Cal Planner.

(** ** The calendar

    Day numbers and dates of the calendar correspond, and for the years
    1 to 9999 a day and its [yyyy-MM-dd] key determine each other. *)

Lemma zrange_from_In (n : nat) (lo z : Z) :
  (lo <= z < lo + Z.of_nat n)%Z -> In z (zrange_from n lo).
Proof.
  revert lo. induction n as [|n IH]; intros lo H; [lia|].
  cbn [zrange_from]. destruct (Z.eq_dec lo z) as [->|Hne]; [left; reflexivity|].
  right. apply IH. lia.
Qed.

Lemma zrange_In (lo n z : Z) : (lo <= z < lo + n)%Z -> In z (zrange lo n).
Proof. intros H. apply zrange_from_In. lia. Qed.

Lemma year_ok_all : forallb year_ok (zrange 0 400) = true.
Proof. vm_compute. reflexivity. Qed.

Lemma date_ok_all :
  forallb (fun leap => forallb (fun m => forallb (date_ok leap m) (zrange 1 31))
                               (zrange 1 12)) [false; true] = true.
Proof. vm_compute. reflexivity. Qed.

Lemma doy_ok_all :
  forallb (doy_ok false) (zrange 0 365) = true /\
  forallb (doy_ok true) (zrange 0 366) = true.
Proof. split; vm_compute; reflexivity. Qed.

Lemma year_of_day_mono (a b : Z) :
  0 <= a -> a <= b -> b <= 146096 -> year_of_day a <= year_of_day b.
Proof.
  intros Ha Hab Hb. unfold year_of_day.
  apply Z.div_le_mono; [lia|].
  Z.div_mod_to_equations. lia.
Qed.

Lemma year_ok_true (yoe : Z) :
  0 <= yoe < 400 ->
  year_of_day (year_start yoe) = yoe /\
  year_of_day (year_start yoe + year_len yoe - 1) = yoe /\
  (if yoe =? 399 then 146097 else year_start (yoe + 1))
  = year_start yoe + year_len yoe.
Proof.
  intros H.
  pose proof (proj1 (forallb_forall _ _) year_ok_all yoe
                (zrange_In 0 400 yoe ltac:(lia))) as Hok.
  unfold year_ok in Hok. rewrite !andb_true_iff, !Z.eqb_eq in Hok. tauto.
Qed.

Lemma year_len_bounds (yoe : Z) : 365 <= year_len yoe <= 366.
Proof. unfold year_len. destruct (is_leap (yoe + 1)); lia. Qed.

Lemma year_start_bounds (yoe : Z) :
  0 <= yoe < 400 -> 0 <= year_start yoe /\ year_start yoe + 366 <= 146097.
Proof. intros H. unfold year_start. Z.div_mod_to_equations. lia. Qed.

(** Every day of a year of the era belongs to that year. *)
Lemma year_of_day_in_year (yoe doy : Z) :
  0 <= yoe < 400 -> 0 <= doy < year_len yoe ->
  year_of_day (year_start yoe + doy) = yoe.
Proof.
  intros Hy Hd. destruct (year_ok_true yoe Hy) as (Hfirst & Hlast & _).
  pose proof (year_start_bounds yoe Hy) as [Hlo Hhi].
  pose proof (year_len_bounds yoe) as Hlen.
  pose proof (year_of_day_mono (year_start yoe) (year_start yoe + doy)
                ltac:(lia) ltac:(lia) ltac:(lia)) as H1.
  pose proof (year_of_day_mono (year_start yoe + doy)
                (year_start yoe + year_len yoe - 1)
                ltac:(lia) ltac:(lia) ltac:(lia)) as H2.
  lia.
Qed.

(** Every day of the era falls in the year it is assigned to. *)
Lemma year_of_day_range (doe : Z) :
  0 <= doe <= 146096 ->
  0 <= year_of_day doe < 400 /\
  year_start (year_of_day doe) <= doe
  < year_start (year_of_day doe) + year_len (year_of_day doe).
Proof.
  intros Hdoe.
  assert (Hyear : 0 <= year_of_day doe < 400).
  { destruct (year_ok_true 0 ltac:(lia)) as (H0 & _ & _).
    destruct (year_ok_true 399 ltac:(lia)) as (_ & H399 & H400).
    change (year_start 0) with 0 in H0.
    change (399 =? 399) with true in H400. cbv iota in H400.
    rewrite <- H400 in H399.
    pose proof (year_of_day_mono 0 doe ltac:(lia) ltac:(lia) ltac:(lia)) as H1.
    pose proof (year_of_day_mono doe (146097 - 1) ltac:(lia) ltac:(lia) ltac:(lia))
      as H2.
    lia. }
  split; [exact Hyear|].
  remember (year_of_day doe) as yoe eqn:Hyoe.
  destruct (year_ok_true yoe Hyear) as (Hfirst & Hlast & Hnext).
  pose proof (year_start_bounds yoe Hyear) as [Hlo Hhi].
  pose proof (year_len_bounds yoe) as Hlen.
  split.
  - destruct (Z.le_gt_cases (year_start yoe) doe) as [H|H]; [exact H|exfalso].
    destruct (Z.eq_dec yoe 0) as [->|Hne].
    + change (year_start 0) with 0 in H. lia.
    + destruct (year_ok_true (yoe - 1) ltac:(lia)) as (_ & Hprev & Htile).
      destruct (Z.eqb_spec (yoe - 1) 399) as [E|_]; [lia|].
      replace (yoe - 1 + 1) with yoe in Htile by lia.
      pose proof (year_start_bounds (yoe - 1) ltac:(lia)) as [Hlo' _].
      pose proof (year_of_day_mono doe (year_start (yoe - 1) + year_len (yoe - 1) - 1)
                    ltac:(lia) ltac:(lia) ltac:(lia)) as Hm.
      lia.
  - destruct (Z.lt_ge_cases doe (year_start yoe + year_len yoe)) as [H|H];
      [exact H|exfalso].
    destruct (Z.eqb_spec yoe 399) as [E|Hne]; [lia|].
    destruct (year_ok_true (yoe + 1) ltac:(lia)) as (Hsucc & _ & _).
    pose proof (year_of_day_mono (year_start (yoe + 1)) doe
                  ltac:(lia) ltac:(lia) ltac:(lia)) as Hm.
    lia.
Qed.

Lemma date_ok_true (leap : bool) (m d : Z) :
  1 <= m <= 12 -> 1 <= d <= month_days leap m ->
  0 <= month_start (month_index m) + d - 1 <= last_doy leap m /\
  (5 * (month_start (month_index m) + d - 1) + 2) / 153 = month_index m /\
  month_of_index (month_index m) = m.
Proof.
  intros Hm Hd.
  assert (Hl : In leap [false; true]) by (destruct leap; cbn; tauto).
  assert (Hd31 : d <= 31).
  { revert Hd. unfold month_days.
    destruct (m =? 2); [destruct leap|destruct (_ || _)]; lia. }
  pose proof (proj1 (forallb_forall _ _) date_ok_all leap Hl) as H1.
  pose proof (proj1 (forallb_forall _ _) H1 m (zrange_In 1 12 m ltac:(lia))) as H2.
  pose proof (proj1 (forallb_forall _ _) H2 d (zrange_In 1 31 d ltac:(lia))) as H3.
  unfold date_ok in H3. destruct (Z.leb_spec d (month_days leap m)) as [_|Hbad]; [|lia].
  cbn [implb] in H3. cbv zeta in H3.
  rewrite !andb_true_iff, !Z.leb_le, !Z.eqb_eq in H3.
  destruct H3 as [[[H0 Hlast] Hmp] Hback].
  split; [lia|]. split; [exact Hmp|]. rewrite <- Hmp at 1. exact Hback.
Qed.

Lemma doy_ok_true (leap : bool) (doy : Z) :
  0 <= doy <= (if leap then 365 else 364) ->
  let mp := (5 * doy + 2) / 153 in
  let d := doy - month_start mp + 1 in
  let m := month_of_index mp in
  1 <= m <= 12 /\ 1 <= d <= month_days leap m /\ month_index m = mp.
Proof.
  intros H. destruct doy_ok_all as [Hf Ht].
  assert (Hok : doy_ok leap doy = true).
  { destruct leap.
    - apply (proj1 (forallb_forall _ _) Ht doy). apply zrange_In. lia.
    - apply (proj1 (forallb_forall _ _) Hf doy). apply zrange_In. lia. }
  unfold doy_ok in Hok. cbv zeta in *.
  rewrite !andb_true_iff, !Z.leb_le, !Z.eqb_eq in Hok. lia.
Qed.

Lemma month_days_not_feb (l1 l2 : bool) (m : Z) :
  m <> 2 -> month_days l1 m = month_days l2 m.
Proof. intros H. unfold month_days. destruct (Z.eqb_spec m 2); [lia|reflexivity]. Qed.

Lemma is_leap_era (y k : Z) : is_leap (y + 400 * k) = is_leap y.
Proof.
  unfold is_leap.
  replace ((y + 400 * k) mod 4) with (y mod 4)
    by (replace (y + 400 * k) with (y + (100 * k) * 4) by lia;
        symmetry; apply Z.mod_add; lia).
  replace ((y + 400 * k) mod 100) with (y mod 100)
    by (replace (y + 400 * k) with (y + (4 * k) * 100) by lia;
        symmetry; apply Z.mod_add; lia).
  replace ((y + 400 * k) mod 400) with (y mod 400)
    by (replace (y + 400 * k) with (y + k * 400) by lia;
        symmetry; apply Z.mod_add; lia).
  reflexivity.
Qed.

Lemma validateDate_bounds (y m d : Z) :
  validateDate y m d = true ->
  1 <= m <= 12 /\ 1 <= d <= days_in_month y m /\ d <= 31.
Proof.
  unfold validateDate. rewrite !andb_true_iff, !Z.leb_le. intros H.
  split; [lia|]. split; [lia|].
  destruct H as [_ H]. revert H. unfold days_in_month, month_days.
  destruct (m =? 2); [destruct (is_leap y)|destruct (_ || _)]; lia.
Qed.

(** Splitting a number of days, or of years, into era and rest. *)
Lemma div_unique_era (a b q r : Z) :
  0 < b -> a = q * b + r -> 0 <= r < b -> a / b = q.
Proof.
  intros Hb -> Hr. rewrite Z.add_comm, Z.div_add by lia.
  rewrite Z.div_small by lia. lia.
Qed.

(** The day number of a date of the calendar gives the date back. *)
Theorem civil_from_days_from_civil (y m d : Z) :
  validateDate y m d = true -> civil_from_days (days_from_civil y m d) = (y, m, d).
Proof.
  intros Hv. destruct (validateDate_bounds y m d Hv) as (Hm & Hd & _).
  set (y' := if m <=? 2 then y - 1 else y).
  remember (y' / 400) as era eqn:Hera.
  remember (y' - era * 400) as yoe eqn:Hyoe.
  assert (Hrange : 0 <= yoe < 400).
  { pose proof (Z.mod_pos_bound y' 400 ltac:(lia)) as Hb.
    rewrite Z.mod_eq in Hb by lia. subst yoe era. lia. }
  (* the leap flag that matters for this month *)
  assert (Hleap : 1 <= d <= month_days (is_leap (yoe + 1)) m /\
                  last_doy (is_leap (yoe + 1)) m < year_len yoe).
  { unfold last_doy, year_len. destruct (Z.leb_spec m 2) as [Hm2|Hm2].
    - assert (E : is_leap y = is_leap (yoe + 1)).
      { replace y with (yoe + 1 + 400 * era)
          by (subst yoe y'; destruct (Z.leb_spec m 2); lia).
        apply is_leap_era. }
      unfold days_in_month in Hd. rewrite E in Hd.
      split; [exact Hd|]. destruct (is_leap (yoe + 1)); lia.
    - unfold days_in_month in Hd.
      rewrite (month_days_not_feb _ (is_leap (yoe + 1))) in Hd by lia.
      split; [exact Hd|]. destruct (is_leap (yoe + 1)); lia. }
  destruct Hleap as [Hd' Hlast].
  destruct (date_ok_true (is_leap (yoe + 1)) m d Hm Hd') as (Hdoy & Hmp & Hback).
  pose proof (year_start_bounds yoe Hrange) as [Hlo Hhi].
  pose proof (year_len_bounds yoe) as Hlen.
  unfold days_from_civil. fold y'. cbv zeta. rewrite <- Hera, <- Hyoe.
  set (doy := month_start (month_index m) + d - 1) in *.
  unfold civil_from_days. cbv zeta.
  replace (era * 146097 + (year_start yoe + doy) - 719468 + 719468)
    with (era * 146097 + (year_start yoe + doy)) by lia.
  rewrite (div_unique_era _ 146097 era (year_start yoe + doy)) by lia.
  replace (era * 146097 + (year_start yoe + doy) - era * 146097)
    with (year_start yoe + doy) by lia.
  rewrite (year_of_day_in_year yoe doy Hrange) by lia.
  replace (year_start yoe + doy - year_start yoe) with doy by lia.
  rewrite Hmp, Hback.
  replace (doy - month_start (month_index m) + 1) with d by (unfold doy; lia).
  do 2 f_equal.
  subst yoe y'. destruct (m <=? 2); lia.
Qed.

(** Every day number is the day number of a date of the calendar. *)
Theorem days_from_civil_from_days (t : Z) :
  let '(y, m, d) := civil_from_days t in
  validateDate y m d = true /\ days_from_civil y m d = t.
Proof.
  unfold civil_from_days. cbv zeta.
  remember ((t + 719468) / 146097) as era eqn:Hera.
  remember (t + 719468 - era * 146097) as doe eqn:Hdoe.
  assert (Hrange : 0 <= doe <= 146096).
  { pose proof (Z.mod_pos_bound (t + 719468) 146097 ltac:(lia)) as Hb.
    rewrite Z.mod_eq in Hb by lia. subst doe era. lia. }
  destruct (year_of_day_range doe Hrange) as (Hyoe & Hin).
  remember (year_of_day doe) as yoe eqn:Eyoe.
  remember (doe - year_start yoe) as doy eqn:Edoy.
  assert (Hdoy : 0 <= doy <= (if is_leap (yoe + 1) then 365 else 364)).
  { unfold year_len in Hin. destruct (is_leap (yoe + 1)); lia. }
  pose proof (doy_ok_true (is_leap (yoe + 1)) doy Hdoy) as Hok. cbv zeta in Hok.
  remember ((5 * doy + 2) / 153) as mp eqn:Emp.
  remember (doy - month_start mp + 1) as d eqn:Ed.
  remember (month_of_index mp) as m eqn:Em.
  destruct Hok as (Hm & Hd & Hidx).
  set (y := if m <=? 2 then yoe + era * 400 + 1 else yoe + era * 400).
  assert (Hy' : (if m <=? 2 then y - 1 else y) = yoe + era * 400)
    by (unfold y; destruct (m <=? 2); lia).
  split.
  - unfold validateDate. rewrite !andb_true_iff, !Z.leb_le.
    split; [split; [split|]|]; try lia.
    unfold days_in_month. destruct (Z.eq_dec m 2) as [E2|N2].
    + replace (is_leap y) with (is_leap (yoe + 1)); [lia|].
      unfold y. rewrite E2. cbn [Z.leb Z.compare Pos.compare Pos.compare_cont].
      replace (yoe + era * 400 + 1) with (yoe + 1 + 400 * era) by lia.
      symmetry. apply is_leap_era.
    + rewrite (month_days_not_feb _ (is_leap (yoe + 1))) by exact N2. lia.
  - unfold days_from_civil. cbv zeta. rewrite Hy'.
    rewrite (div_unique_era _ 400 era yoe) by lia.
    replace (yoe + era * 400 - era * 400) with yoe by lia.
    rewrite Hidx. lia.
Qed.

(** A later year is a later day. *)
Lemma days_from_civil_year_lt (y1 m1 d1 y2 m2 d2 : Z) :
  (1 <= m1 <= 12)%Z -> (1 <= d1 <= 31)%Z ->
  (1 <= m2 <= 12)%Z -> (1 <= d2 <= 31)%Z ->
  (y1 < y2)%Z -> (days_from_civil y1 m1 d1 < days_from_civil y2 m2 d2)%Z.
Proof.
  intros Hm1 Hd1 Hm2 Hd2 Hy.
  unfold days_from_civil, year_start, month_start, month_index.
  destruct (Z.leb_spec m1 2), (Z.ltb_spec 2 m1); try lia;
  destruct (Z.leb_spec m2 2), (Z.ltb_spec 2 m2); try lia;
  Z.div_mod_to_equations; lia.
Qed.

Lemma getFullYear_lower (t : Z) :
  (day_0001_01_01 <= t)%Z <-> (1 <= getFullYear t)%Z.
Proof.
  unfold getFullYear. pose proof (days_from_civil_from_days t) as H.
  destruct (civil_from_days t) as [[y m] d]. cbn [fst]. destruct H as [Hv <-].
  apply validateDate_bounds in Hv as (Hm & [Hd1 _] & Hd31).
  assert (Hd : (1 <= d <= 31)%Z) by lia.
  unfold day_0001_01_01. split; intros H.
  - destruct (Z.le_gt_cases 1 y) as [Hy|Hy]; [exact Hy|].
    pose proof (days_from_civil_year_lt y m d 1 1 1 Hm Hd ltac:(lia) ltac:(lia)
                  ltac:(lia)) as Hlt.
    change (days_from_civil 1 1 1) with (-719162)%Z in Hlt. lia.
  - pose proof (days_from_civil_year_lt 0 12 31 y m d ltac:(lia) ltac:(lia) Hm Hd
                  ltac:(lia)) as Hlt.
    change (days_from_civil 0 12 31) with (-719163)%Z in Hlt. lia.
Qed.

Lemma getFullYear_upper (t : Z) :
  (t <= day_9999_12_31)%Z <-> (getFullYear t <= 9999)%Z.
Proof.
  unfold getFullYear. pose proof (days_from_civil_from_days t) as H.
  destruct (civil_from_days t) as [[y m] d]. cbn [fst]. destruct H as [Hv <-].
  apply validateDate_bounds in Hv as (Hm & [Hd1 _] & Hd31).
  assert (Hd : (1 <= d <= 31)%Z) by lia.
  unfold day_9999_12_31. split; intros H.
  - destruct (Z.le_gt_cases y 9999) as [Hy|Hy]; [exact Hy|].
    pose proof (days_from_civil_year_lt 9999 12 31 y m d ltac:(lia) ltac:(lia) Hm Hd
                  ltac:(lia)) as Hlt.
    change (days_from_civil 9999 12 31) with 2932896%Z in Hlt. lia.
  - pose proof (days_from_civil_year_lt y m d 10000 1 1 Hm Hd ltac:(lia) ltac:(lia)
                  ltac:(lia)) as Hlt.
    change (days_from_civil 10000 1 1) with 2932897%Z in Hlt. lia.
Qed.

(** *** Keys

    [parseISO] and [format(_, "yyyy-MM-dd")] undo each other. *)

Lemma pad4_parse_all : forallb pad4_parse_ok (zrange 1 9999) = true.
Proof. vm_compute. reflexivity. Qed.

Lemma pad2_parse_all : forallb pad2_parse_ok (zrange 1 31) = true.
Proof. vm_compute. reflexivity. Qed.

Lemma fixed_digits_append (k : nat) (a r : string) (acc v : Z) :
  fixed_digits k a acc = Some (v, EmptyString) -> String.length a = k ->
  fixed_digits k (String.append a r) acc = Some (v, r).
Proof.
  revert a acc. induction k as [|k IH]; intros a acc H Hlen.
  - destruct a; [|discriminate]. cbn in H. inversion H; subst. reflexivity.
  - destruct a as [|c a]; [discriminate|].
    change (String.append (String c a) r) with (String c (String.append a r)).
    cbn [fixed_digits] in *. destruct (is_digit c); [|discriminate].
    apply IH; [exact H|]. cbn in Hlen. lia.
Qed.

(** *** Time values in binary64 *)

Lemma digits2_pos_lower (p : positive) :
  2 ^ (Zpos (digits2_pos p) - 1) <= Zpos p.
Proof.
  induction p as [p IH|p IH|]; cbn [digits2_pos].
  - rewrite Pos2Z.inj_succ. replace (Z.succ (Zpos (digits2_pos p)) - 1)
      with (Z.succ (Zpos (digits2_pos p) - 1)) by lia.
    rewrite Z.pow_succ_r by lia. lia.
  - rewrite Pos2Z.inj_succ. replace (Z.succ (Zpos (digits2_pos p)) - 1)
      with (Z.succ (Zpos (digits2_pos p) - 1)) by lia.
    rewrite Z.pow_succ_r by lia. lia.
  - reflexivity.
Qed.

Lemma digits2_pos_iter (p k : positive) :
  digits2_pos (Pos.iter xO p k) = (digits2_pos p + k)%positive.
Proof.
  induction k as [|k IH] using Pos.peano_ind.
  - cbn. lia.
  - rewrite Pos.iter_succ. cbn [digits2_pos]. rewrite IH. lia.
Qed.

Lemma iter_xO_value (p k : positive) :
  Zpos (Pos.iter xO p k) = Zpos p * 2 ^ Zpos k.
Proof.
  induction k as [|k IH] using Pos.peano_ind.
  - cbn. lia.
  - rewrite Pos.iter_succ, Pos2Z.inj_succ, Z.pow_succ_r by lia.
    rewrite Pos2Z.inj_xO, IH. lia.
Qed.

(** A whole number below 2^53 is a [number], exactly. *)
Lemma trunc_binary_round (s : bool) (p : positive) :
  Zpos p < 2 ^ 53 ->
  B64.trunc (binary_round B64.prec B64.emax s p 0)
  = Some (if s then Zneg p else Zpos p).
Proof.
  intros Hp.
  assert (Hd : Zpos (digits2_pos p) <= 53).
  { pose proof (digits2_pos_lower p) as H.
    destruct (Z.le_gt_cases (Zpos (digits2_pos p)) 53) as [Hle|Hgt]; [exact Hle|].
    assert (2 ^ 53 <= 2 ^ (Zpos (digits2_pos p) - 1))
      by (apply Z.pow_le_mono_r; lia).
    lia. }
  unfold binary_round, B64.prec, B64.emax.
  assert (Hf : fexp 53 1024 (Zpos (digits2_pos p) + 0) = Zpos (digits2_pos p) - 53).
  { unfold fexp, emin. lia. }
  rewrite Hf. unfold shl_align.
  replace (Zpos (digits2_pos p) - 53 - 0) with (Zpos (digits2_pos p) - 53) by lia.
  destruct (Zpos (digits2_pos p) - 53) as [|k|k] eqn:Ek; [| lia |].
  - unfold binary_round_aux, shr_fexp. cbn [Zdigits2 shr_record_of_loc].
    assert (Hf0 : fexp 53 1024 (Zpos (digits2_pos p) + 0) - 0 = 0).
    { unfold fexp, emin. lia. }
    rewrite Hf0. cbn [shr shr_m loc_of_shr_record round_nearest_even Zdigits2
                      shr_record_of_loc].
    rewrite Hf0. cbn [shr shr_m].
    change (0 <=? 1024 - 53) with true. cbn [B64.trunc].
    change (0 <=? 0) with true. cbn iota. rewrite Z.pow_0_r, Z.mul_1_r.
    destruct s; reflexivity.
  - unfold binary_round_aux, shr_fexp. cbn [Zdigits2 shr_record_of_loc].
    rewrite digits2_pos_iter.
    assert (Hf1 : fexp 53 1024 (Zpos (digits2_pos p + k) + Zneg k) - Zneg k = 0).
    { unfold fexp, emin. lia. }
    rewrite Hf1. cbn [shr shr_m loc_of_shr_record round_nearest_even Zdigits2
                      shr_record_of_loc].
    rewrite digits2_pos_iter, Hf1. cbn [shr shr_m].
    assert (Hle : (Zneg k <=? 1024 - 53) = true) by (apply Z.leb_le; lia).
    rewrite Hle. cbn [B64.trunc Z.leb Z.compare Z.opp].
    rewrite iter_xO_value, Z.div_mul by (apply Z.pow_nonzero; lia).
    destruct s; reflexivity.
Qed.

Lemma trunc_ofZ (z : Z) :
  Z.abs z < 2 ^ 53 -> B64.trunc (B64.add (B64.ofZ z) B64.zero) = Some z.
Proof.
  intros Hz. unfold B64.ofZ, binary_normalize. destruct z as [|p|p].
  - reflexivity.
  - pose proof (trunc_binary_round false p ltac:(lia)) as H.
    destruct (binary_round B64.prec B64.emax false p 0); cbn in H |- *;
      try discriminate; exact H.
  - pose proof (trunc_binary_round true p ltac:(lia)) as H.
    destruct (binary_round B64.prec B64.emax true p 0); cbn in H |- *;
      try discriminate; exact H.
Qed.

Lemma newDate_ofZ (t : Z) :
  Z.abs t <= maxTime -> newDate (B64.add (B64.ofZ t) B64.zero) = Some t.
Proof.
  intros Ht. unfold newDate. rewrite trunc_ofZ.
  - unfold timeClip. apply Z.leb_le in Ht. rewrite Ht. reflexivity.
  - unfold maxTime in Ht. assert (8640000000000000 < 2 ^ 53) by reflexivity. lia.
Qed.

(** A key holds digits and hyphens only. *)

Lemma has_append (p : ascii -> bool) (a b : string) :
  has p (String.append a b) = has p a || has p b.
Proof.
  induction a as [|c a IH]; [reflexivity|].
  change (String.append (String c a) b) with (String c (String.append a b)).
  cbn [has]. rewrite IH. apply orb_assoc.
Qed.

Section Plain.
Variable p : ascii -> bool.
Hypothesis p_digit : forall c, is_digit c = true -> p c = false.
Hypothesis p_hyphen : p "-"%char = false.

Lemma has_uint (u : Decimal.uint) : has p (NilZero.string_of_uint u) = false.
Proof.
assert (H : forall u, has p (NilEmpty.string_of_uint u) = false).
{ induction u0; cbn [NilEmpty.string_of_uint has]; rewrite ?IHu0;
    try reflexivity; rewrite p_digit by reflexivity; reflexivity. }
unfold NilZero.string_of_uint. destruct u; try apply H.
cbn [has]. rewrite p_digit by reflexivity. reflexivity.
Qed.

Lemma has_zeros (k : nat) : has p (zeros k) = false.
Proof.
induction k as [|k IH]; [reflexivity|]. cbn [zeros has].
rewrite IH, p_digit by reflexivity. reflexivity.
Qed.

Lemma has_addLeadingZeros (n : Z) (w : nat) : has p (addLeadingZeros n w) = false.
Proof.
unfold addLeadingZeros, to_string. rewrite !has_append, has_zeros, has_uint.
destruct (n <? 0); [|reflexivity]. cbn [has]. rewrite p_hyphen. reflexivity.
Qed.

Lemma has_format_yyyy_MM_dd (t : Z) : has p (format_yyyy_MM_dd t) = false.
Proof.
unfold format_yyyy_MM_dd. cbn [String.concat].
rewrite !has_append, !has_addLeadingZeros. cbn [has]. rewrite p_hyphen. reflexivity.
Qed.

End Plain.

Lemma split_at_none (p : ascii -> bool) (s : string) :
  has p s = false -> split_at p s = (s, None).
Proof.
  induction s as [|c s IH]; [reflexivity|]. cbn [has split_at]. intros H.
  apply orb_false_iff in H as [Hc Hs]. rewrite Hc, (IH Hs). reflexivity.
Qed.

Lemma digit_not (x c : ascii) :
  is_digit x = false -> is_digit c = true -> is_char x c = false.
Proof.
  intros Hx Hc. unfold is_char. destruct (Ascii.eqb_spec c x) as [->|]; [|reflexivity].
  rewrite Hx in Hc. discriminate.
Qed.

Lemma fixed_digits_stop (k : nat) (a : string) (c : ascii) (r : string) (acc v : Z) :
  fixed_digits k a acc = Some (v, EmptyString) -> String.length a = k ->
  is_digit c = false ->
  fixed_digits (S k) (String.append a (String c r)) acc = None.
Proof.
  revert a acc. induction k as [|k IH]; intros a acc H Hlen Hc.
  - destruct a; [|discriminate].
    change (String.append EmptyString (String c r)) with (String c r).
    cbn [fixed_digits]. rewrite Hc. reflexivity.
  - destruct a as [|x a]; [discriminate|].
    change (String.append (String x a) (String c r))
      with (String x (String.append a (String c r))).
    cbn [fixed_digits] in H. change (fixed_digits (S (S k)) (String x ?s) acc)
      with (if is_digit x then fixed_digits (S k) s (10 * acc + digit_val x) else None).
    destruct (is_digit x); [|reflexivity].
    apply IH; [exact H| cbn in Hlen; lia | exact Hc].
Qed.

Lemma format_yyyy_MM_dd_String (t : Z) :
  exists c r, format_yyyy_MM_dd t = String c r.
Proof.
  unfold format_yyyy_MM_dd. cbn [String.concat].
  destruct (addLeadingZeros (year_of_era (getFullYear t)) 4) as [|c r].
  - change (String.append EmptyString ?x) with x.
    change (String.append "-" ?x) with (String "-"%char x). eauto.
  - change (String.append (String c r) ?x) with (String c (String.append r x)). eauto.
Qed.

(** The key of a day in the years 1 to 9999 parses to that day, at
    midnight. *)
Theorem parseISO_format (t : Z) :
  (day_0001_01_01 <= t <= day_9999_12_31)%Z ->
  parseISO (format_yyyy_MM_dd t) = Some (midnight t).
Proof.
  intros Ht.
  assert (Hclip : Z.abs (midnight t) <= maxTime).
  { unfold midnight, msPerDay, maxTime, day_0001_01_01, day_9999_12_31 in *. lia. }
  assert (Hsplit : splitDateString (format_yyyy_MM_dd t)
                   = {| dateOf := Some (format_yyyy_MM_dd t);
                        timeOf := None; timezoneOf := None |}).
  { assert (D1 : forall c, is_digit c = true -> dateTimeDelimiter c = false).
    { intros c Hc. unfold dateTimeDelimiter.
      rewrite !(digit_not _ c) by (reflexivity || exact Hc). reflexivity. }
    assert (D2 : forall c, is_digit c = true -> is_char ":" c = false).
    { intros c Hc. apply digit_not; [reflexivity|exact Hc]. }
    assert (D3 : forall c, is_digit c = true -> timeZoneDelimiter c = false).
    { intros c Hc. unfold timeZoneDelimiter.
      rewrite !(digit_not _ c) by (reflexivity || exact Hc). reflexivity. }
    unfold splitDateString.
    rewrite (split_at_none _ _ (has_format_yyyy_MM_dd _ D1 eq_refl t)).
    rewrite (has_format_yyyy_MM_dd _ D2 eq_refl t).
    rewrite (has_format_yyyy_MM_dd _ D3 eq_refl t).
    reflexivity. }
  unfold parseISO. rewrite Hsplit. cbn [dateOf timeOf timezoneOf nonEmpty].
  destruct (format_yyyy_MM_dd_String t) as (c0 & r0 & E0). rewrite E0.
  cbn iota. rewrite <- E0. clear c0 r0 E0.
  destruct Ht as [Hlo Hhi].
  apply getFullYear_lower in Hlo. apply getFullYear_upper in Hhi.
  revert Hlo Hhi Hclip.
  unfold format_yyyy_MM_dd. unfold getFullYear, getMonth1, getDate.
  pose proof (days_from_civil_from_days t) as H.
  destruct (civil_from_days t) as [[y m] d]. cbn [fst snd].
  destruct H as [Hv Hdays]. intros Hlo Hhi Hclip.
  pose proof (validateDate_bounds y m d Hv) as (Hm & [Hd1 _] & Hd31).
  assert (Hd : (1 <= d <= 31)%Z) by lia.
  pose proof (proj1 (forallb_forall _ _) pad4_parse_all y
                (zrange_In 1 9999 y ltac:(lia))) as Py.
  pose proof (proj1 (forallb_forall _ _) pad2_parse_all m
                (zrange_In 1 31 m ltac:(lia))) as Pm.
  pose proof (proj1 (forallb_forall _ _) pad2_parse_all d
                (zrange_In 1 31 d ltac:(lia))) as Pd.
  unfold pad4_parse_ok in Py. unfold pad2_parse_ok in Pm, Pd.
  destruct (fixed_digits 4 (addLeadingZeros (year_of_era y) 4) 0)
    as [[vy [|? ?]]|] eqn:Ey; try discriminate.
  destruct (fixed_digits 2 (addLeadingZeros m 2) 0)
    as [[vm [|? ?]]|] eqn:Em; try discriminate.
  destruct (fixed_digits 2 (addLeadingZeros d 2) 0)
    as [[vd [|? ?]]|] eqn:Ed; try discriminate.
  apply andb_true_iff in Py as [Py Ly]. apply andb_true_iff in Pm as [Pm Lm].
  apply andb_true_iff in Pd as [Pd Ld].
  apply Z.eqb_eq in Py, Pm, Pd. apply Nat.eqb_eq in Ly, Lm, Ld. subst vy vm vd.
  cbn [String.concat]. unfold parseYear.
  rewrite (fixed_digits_append 4 _ _ 0%Z y Ey Ly).
  change (String.append "-" ?x) with (String "-"%char x).
  unfold parseDate.
  change (strip "-" (String "-"%char ?x)) with x.
  change (String.append "-" (addLeadingZeros d 2))
    with (String "-"%char (addLeadingZeros d 2)).
  rewrite (fixed_digits_stop 2 _ "-"%char _ 0%Z m Em Lm eq_refl).
  rewrite (fixed_digits_append 2 _ _ 0%Z m Em Lm).
  change (strip "-" (String "-"%char ?x)) with x.
  rewrite Ed. unfold calendarDate. rewrite Hv.
  assert (Hdoy : validateDayOfYearDate y 1 = true)
    by (unfold validateDayOfYearDate; destruct (is_leap y); reflexivity).
  rewrite Hdoy. cbn [andb]. rewrite Z.max_r by lia. rewrite Hdays.
  unfold timeClip at 1. apply Z.leb_le in Hclip. rewrite Hclip.
  apply Z.leb_le in Hclip. cbn [B64.isNaN B64.zero].
  apply newDate_ofZ. exact Hclip.
Qed.

Local Open Scope Qc_scope.

(** ** Worked examples *)

(** [parseFloat] reads the longest numeric prefix. *)
Example parseFloat_examples :
  option_map this (parseFloat "300") = Some (300 # 1)%Q /\
  option_map this (parseFloat "  -12.50abc") = Some (-25 # 2)%Q /\
  option_map this (parseFloat "33.33") = Some (3333 # 100)%Q /\
  option_map this (parseFloat ".5e1") = Some (5 # 1)%Q /\
  option_map this (parseFloat "1e-2") = Some (1 # 100)%Q /\
  option_map this (parseFloat "7e") = Some (7 # 1)%Q /\
  parseFloat EmptyString = None /\
  parseFloat "abc" = None /\
  parseFloat "-" = None /\
  parseFloat "." = None.
Proof. repeat split; vm_compute; reflexivity. Qed.

Example or0_examples :
  or0 (parseFloat "abc") = 0 /\ or0 (parseFloat "0") = 0 /\
  or0 (parseFloat "-200") = ofZ (-200).
Proof. repeat split; apply Qc_is_canon; vm_compute; reflexivity. Qed.

(** Dates: only real calendar days parse; a date alone is that day at
    midnight, and the shorter and longer forms of ISO 8601 are read
    too. *)
Example parseISO_examples :
  parseISO "1970-01-01" = Some 0%Z /\
  parseISO "2024-02-29" = Some (midnight 19782) /\
  parseISO "2024-03-01" = Some (midnight Samples.march1) /\
  parseISO "2023-02-29" = None /\
  parseISO "2024-13-01" = None /\
  parseISO "2024-3-1" = None /\
  parseISO EmptyString = None /\
  parseISO "2024-03-01T10:00" = Some (midnight Samples.march1 + 36000000)%Z /\
  parseISO "2024-03-01 10:00:00.5" = Some (midnight Samples.march1 + 36000500)%Z /\
  parseISO "2024-03-01T10:00+05:30" = Some (midnight Samples.march1 + 16200000)%Z /\
  parseISO "2024-03-01T24:00" = Some (midnight (Samples.march1 + 1)) /\
  parseISO "2024-03-01T25:00" = None /\
  parseISO "20240301" = Some (midnight Samples.march1) /\
  parseISO "2024-03" = Some (midnight Samples.march1) /\
  parseISO "2024-061" = Some (midnight Samples.march1) /\
  parseISO "2024-W09-5" = Some (midnight Samples.march1) /\
  parseISO "+002024-03-01" = Some (midnight Samples.march1) /\
  parseISO "-000001-12-31" = Some (midnight (-719529)) /\
  parseISO "+275760-09-13" = Some maxTime /\
  parseISO "+275760-09-14" = None.
Proof. repeat split; vm_compute; reflexivity. Qed.

(** Binary64: sums round, and a text is read as the nearest number. *)
Example binary64_examples :
  B64.add (B64.parseFloat "0.1") (B64.parseFloat "0.2")
  = B64.parseFloat "0.30000000000000004" /\
  B64.eqb (B64.add (B64.parseFloat "0.1") (B64.parseFloat "0.2"))
          (B64.parseFloat "0.3") = false /\
  B64.parseFloat "1e999" = S754_infinity false /\
  B64.parseFloat "-Infinity" = S754_infinity true /\
  B64.parseFloat "1e-999" = B64.zero /\
  B64.parseFloat "abc" = B64.NaN /\
  B64.sub (B64.parseFloat "Infinity") (B64.parseFloat "Infinity") = B64.NaN /\
  B64.trunc (B64.mul (B64.parseFloat "1.001") (B64.ofZ 1000)) = Some 1000%Z.
Proof. repeat split; vm_compute; reflexivity. Qed.

Example format_examples :
  format_yyyy_MM_dd 19782 = "2024-02-29"%string /\
  format_MMMM_d_yyyy 19782 = "February 29, 2024"%string /\
  format_EEEE 19782 = "Thursday"%string /\
  format_yyyy_MM_dd 0 = "1970-01-01"%string /\
  format_EEEE 0 = "Thursday"%string.
Proof. repeat split; vm_compute; reflexivity. Qed.

(** Every day of 2024 is read back from its own key. *)
Example dateKey_roundtrip_2024 :
  forallb (fun d => match parseISO (format_yyyy_MM_dd d) with
                    | Some t => (t =? midnight d)%Z
                    | None => false
                    end)
          (eachDayOfInterval (midnight 19723) (midnight 20088)) = true /\
  length (eachDayOfInterval (midnight 19723) (midnight 20088)) = 366%nat.
Proof. split; vm_compute; reflexivity. Qed.

(** 3100 over the 31 days of January with nothing logged: 100 a day,
    all of it spent each day, nothing left. *)
Example scenario_month :
  daysCount (calculations Samples.january Samples.march1) = 31%Z /\
  dailyAllowance (calculations Samples.january Samples.march1) = ofZ 100 /\
  forallb (fun e => Qc_eq_bool (spent e) (allowance e))
          (days (calculations Samples.january Samples.march1)) = true /\
  totalRemaining (calculations Samples.january Samples.march1) = 0.
Proof.
  split; [vm_compute; reflexivity|].
  split; [apply Qc_is_canon; vm_compute; reflexivity|].
  split; [vm_compute; reflexivity|].
  apply Qc_is_canon; vm_compute; reflexivity.
Qed.

(** 1000 with 200 saved over two days, 300 logged on the first: 800
    available, 400 a day; the first day leaves 100, the second has 500
    and spends it. *)
Example scenario_two_days :
  available (calculations Samples.twoDays Samples.march1) = ofZ 800 /\
  dailyAllowance (calculations Samples.twoDays Samples.march1) = ofZ 400 /\
  map (fun e => (dateKey e, this (allowance e), this (spent e), this (remaining e)))
      (days (calculations Samples.twoDays Samples.march1))
  = [("2024-03-01"%string, 400 # 1, 300 # 1, 100 # 1)%Q;
     ("2024-03-02"%string, 500 # 1, 500 # 1, 0 # 1)%Q].
Proof.
  split; [apply Qc_is_canon; vm_compute; reflexivity|].
  split; [apply Qc_is_canon; vm_compute; reflexivity|].
  vm_compute; reflexivity.
Qed.

(** The same two days in binary64: every amount is a whole number, and
    nothing is rounded. *)
Example scenario_two_days_binary64 :
  Planner64.available (Planner64.calculations Samples.twoDays Samples.march1)
  = B64.ofZ 800 /\
  Planner64.daysCount (Planner64.calculations Samples.twoDays Samples.march1) = 2%Z /\
  map (fun e => (Planner64.dateKey e, Planner64.allowance e, Planner64.spent e,
                 Planner64.remaining e))
      (Planner64.days (Planner64.calculations Samples.twoDays Samples.march1))
  = [("2024-03-01"%string, B64.ofZ 400, B64.ofZ 300, B64.ofZ 100);
     ("2024-03-02"%string, B64.ofZ 500, B64.ofZ 500, B64.zero)] /\
  Planner64.totalRemaining (Planner64.calculations Samples.twoDays Samples.march1)
  = B64.zero /\
  Planner64.spentPercentage (Planner64.calculations Samples.twoDays Samples.march1)
  = B64.ofZ 100.
Proof. repeat split; vm_compute; reflexivity. Qed.

(** An amount of [Infinity] makes the later days [NaN]. *)
Example infinite_total_binary64 :
  map (fun e => (Planner64.allowance e, Planner64.remaining e))
      (Planner64.days
         (Planner64.calculations
            {| totalAmount := "Infinity"; startDate := "2024-03-01";
               endDate := "2024-03-02"; expenses := ∅; savingsGoals := [] |}
            Samples.march1))
  = [(S754_infinity false, B64.NaN); (B64.NaN, B64.NaN)].
Proof. vm_compute. reflexivity. Qed.

(** ** Order and sums *)

Lemma leb_le (x y : Qc) : leb x y = true <-> x <= y.
Proof. unfold leb, Qcle. apply Qle_bool_iff. Qed.

Lemma gtb_lt (x y : Qc) : gtb x y = true <-> y < x.
Proof.
  unfold gtb, Qclt. destruct (Qle_bool x y) eqn:E; cbn [negb].
  - apply Qle_bool_iff in E. split; [discriminate|]. intros H. lra.
  - split; [intros _|reflexivity].
    destruct (Qlt_le_dec y x) as [H|H]; [exact H|].
    apply Qle_bool_iff in H. congruence.
Qed.

Lemma Math_max_Qcmax (x y : Qc) : Math_max x y = Qcmax x y.
Proof.
  unfold Math_max, Qcmax.
  destruct (leb x y) eqn:E, (Qclt_le_dec x y) as [H|H]; try reflexivity.
  - apply leb_le in E. apply Qcle_antisym; assumption.
  - exfalso. apply Qclt_le_weak, leb_le in H. congruence.
Qed.

Lemma Math_min_Qcmin (x y : Qc) : Math_min x y = Qcmin x y.
Proof.
  unfold Math_min, Qcmin.
  destruct (leb x y) eqn:E, (Qclt_le_dec y x) as [H|H]; try reflexivity.
  - apply leb_le in E. apply Qcle_antisym; [exact E|]. apply Qclt_le_weak, H.
  - exfalso. apply leb_le in H. congruence.
Qed.

(** [Qcmax] is the least upper bound and [Qcmin] the greatest lower
    bound of its arguments. *)
Lemma Qcmax_lub (x y : Qc) :
  x <= Qcmax x y /\ y <= Qcmax x y /\ (Qcmax x y = x \/ Qcmax x y = y).
Proof.
  unfold Qcmax. destruct (Qclt_le_dec x y) as [H|H].
  - split; [apply Qclt_le_weak, H|]. split; [apply Qcle_refl|]. right; reflexivity.
  - split; [apply Qcle_refl|]. split; [exact H|]. left; reflexivity.
Qed.

Lemma Qcmin_glb (x y : Qc) :
  Qcmin x y <= x /\ Qcmin x y <= y /\ (Qcmin x y = x \/ Qcmin x y = y).
Proof.
  unfold Qcmin. destruct (Qclt_le_dec y x) as [H|H].
  - split; [apply Qclt_le_weak, H|]. split; [apply Qcle_refl|]. right; reflexivity.
  - split; [apply Qcle_refl|]. split; [exact H|]. left; reflexivity.
Qed.

Lemma or0_value (x : option Qc) :
  or0 x = match x with Some q => q | None => 0 end.
Proof.
  destruct x as [q|]; simpl; [|reflexivity].
  destruct (Qc_eq_bool q 0) eqn:E; [|reflexivity].
  apply Qc_eq_bool_correct in E. symmetry. exact E.
Qed.


Lemma ofZ_nonzero (n : Z) : n <> 0%Z -> ofZ n <> 0.
Proof.
  intros Hn H. apply (f_equal this) in H. unfold ofZ in H. cbn in H.
  assert (Hq : inject_Z n == 0%Q).
  { rewrite <- (Qred_correct (inject_Z n)), H. reflexivity. }
  unfold Qeq in Hq. cbn in Hq. lia.
Qed.

Lemma fold_left_sum {A} (f : A -> Qc) (l : list A) (a : Qc) :
  fold_left (fun sum x => sum + f x) l a = a + Qsum (map f l).
Proof.
  revert a. induction l as [|x l IH]; intros a; simpl.
  - ring.
  - rewrite IH. ring.
Qed.

Lemma fold_left_sum_if {A} (p : A -> bool) (f : A -> Qc) (l : list A) (a : Qc) :
  fold_left (fun sum x => if p x then sum + f x else sum) l a
  = a + Qsum (map f (filter (fun x => p x = true) l)).
Proof.
  revert a. induction l as [|x l IH]; intros a; simpl.
  - ring.
  - rewrite IH. rewrite filter_cons.
    destruct (p x) eqn:E.
    + destruct (decide (true = true)); [|congruence]. simpl. ring.
    + destruct (decide (false = true)); [congruence|]. reflexivity.
Qed.

(** ** The day sequence *)

Lemma midnight_le (d t : Z) : (midnight d <= t)%Z <-> (d <= dayOf t)%Z.
Proof.
  unfold midnight, dayOf, msPerDay. split; intros H.
  - apply Z.div_le_lower_bound; lia.
  - pose proof (Z.mul_div_le t 86400000 ltac:(lia)). lia.
Qed.

Lemma dayOf_mono (s e : Z) : (s <= e)%Z -> (dayOf s <= dayOf e)%Z.
Proof. intros H. unfold dayOf, msPerDay. apply Z.div_le_mono; lia. Qed.

Lemma dayOf_midnight (d : Z) : dayOf (midnight d) = d /\ timeOfDay (midnight d) = 0%Z.
Proof.
  unfold dayOf, timeOfDay, midnight, msPerDay.
  rewrite Z.div_mul, Z.mod_mul by lia. split; reflexivity.
Qed.

Lemma each_day_from_length (fuel : nat) (cur e : Z) :
  (Z.of_nat fuel <= dayOf e - cur + 1)%Z -> length (each_day_from fuel cur e) = fuel.
Proof.
  revert cur. induction fuel as [|f IH]; intros cur H; [reflexivity|].
  cbn [each_day_from].
  destruct (Z.leb_spec (midnight cur) e) as [Hle|Hgt].
  - cbn [length]. f_equal. apply IH. lia.
  - exfalso. apply Z.lt_nge in Hgt. apply Hgt, midnight_le. lia.
Qed.

Lemma each_day_from_lookup (fuel : nat) (cur e : Z) (i : nat) :
  (Z.of_nat fuel <= dayOf e - cur + 1)%Z -> (i < fuel)%nat ->
  each_day_from fuel cur e !! i = Some (cur + Z.of_nat i)%Z.
Proof.
  revert cur i. induction fuel as [|f IH]; intros cur i H Hi; [lia|].
  cbn [each_day_from].
  destruct (Z.leb_spec (midnight cur) e) as [Hle|Hgt].
  - destruct i as [|i]; simpl.
    + f_equal. lia.
    + rewrite IH by lia. f_equal. lia.
  - exfalso. apply Z.lt_nge in Hgt. apply Hgt, midnight_le. lia.
Qed.

(** The loop stops by its own test: more fuel gives the same days. *)
Lemma each_day_from_enough (fuel extra : nat) (cur e : Z) :
  (dayOf e - cur + 1 <= Z.of_nat fuel)%Z ->
  each_day_from (fuel + extra) cur e = each_day_from fuel cur e.
Proof.
  revert cur. induction fuel as [|f IH]; intros cur H.
  - destruct extra as [|x]; [reflexivity|]. cbn [Nat.add each_day_from].
    destruct (Z.leb_spec (midnight cur) e) as [Hle|Hgt]; [|reflexivity].
    apply midnight_le in Hle. lia.
  - cbn [Nat.add each_day_from].
    destruct (Z.leb_spec (midnight cur) e); [|reflexivity].
    f_equal. apply IH. lia.
Qed.

Lemma eachDayOfInterval_length (s e : Z) :
  (s <= e)%Z ->
  length (eachDayOfInterval s e) = Z.to_nat (dayOf e - dayOf s + 1).
Proof.
  intros H. unfold eachDayOfInterval. apply each_day_from_length.
  pose proof (dayOf_mono s e H). lia.
Qed.

Lemma eachDayOfInterval_lookup (s e : Z) (i : nat) (d : Z) :
  (s <= e)%Z -> eachDayOfInterval s e !! i = Some d ->
  d = (dayOf s + Z.of_nat i)%Z /\ (dayOf s <= d <= dayOf e)%Z.
Proof.
  intros H Hd. pose proof (dayOf_mono s e H) as Hm.
  assert (Hi : (i < Z.to_nat (dayOf e - dayOf s + 1))%nat).
  { apply lookup_lt_Some in Hd. rewrite eachDayOfInterval_length in Hd by exact H.
    exact Hd. }
  unfold eachDayOfInterval in Hd.
  rewrite each_day_from_lookup in Hd by lia.
  inversion Hd; subst. lia.
Qed.

(** The full days between two dates in order: the days between their
    days, less one when the later date is at an earlier time of day. *)
Lemma differenceInDays_full (s e : Z) :
  (s <= e)%Z ->
  differenceInDays e s
  = (dayOf e - dayOf s - (if timeOfDay e <? timeOfDay s then 1 else 0))%Z.
Proof.
  intros H. pose proof (dayOf_mono s e H) as Hm.
  unfold differenceInDays, compareLocalAsc, differenceInCalendarDays.
  assert (He : e = (dayOf e * msPerDay + timeOfDay e)%Z).
  { unfold dayOf, timeOfDay. pose proof (Z.div_mod e msPerDay). unfold msPerDay in *.
    lia. }
  assert (Hs : s = (dayOf s * msPerDay + timeOfDay s)%Z).
  { unfold dayOf, timeOfDay. pose proof (Z.div_mod s msPerDay). unfold msPerDay in *.
    lia. }
  assert (Be : (0 <= timeOfDay e < msPerDay)%Z)
    by (unfold timeOfDay, msPerDay; apply Z.mod_pos_bound; lia).
  assert (Bs : (0 <= timeOfDay s < msPerDay)%Z)
    by (unfold timeOfDay, msPerDay; apply Z.mod_pos_bound; lia).
  revert He Hs Be Bs Hm.
  generalize (dayOf e) (dayOf s) (timeOfDay e) (timeOfDay s).
  unfold msPerDay. intros de ds te ts He Hs Be Bs Hm. subst e s.
  rewrite Z.abs_eq by lia.
  destruct (Z.ltb_spec te ts) as [Hlt|Hge].
  - assert (Hd : (ds < de)%Z) by lia.
    rewrite (Z.sgn_pos (de * 86400000 + te - (ds * 86400000 + ts))%Z) by lia.
    replace (de * 86400000 + te - 1 * (de - ds) * 86400000 - (ds * 86400000 + ts))%Z
      with (te - ts)%Z by lia.
    rewrite Z.sgn_neg by lia. change (- (1))%Z with (-1)%Z; change (- 0)%Z with 0%Z; cbn; lia.
  - destruct (Z.eq_dec (de * 86400000 + te)%Z (ds * 86400000 + ts)%Z) as [E|N].
    + rewrite E, Z.sub_diag. change (- (1))%Z with (-1)%Z; change (- 0)%Z with 0%Z; cbn; lia.
    + rewrite (Z.sgn_pos (de * 86400000 + te - (ds * 86400000 + ts))%Z) by lia.
      replace (de * 86400000 + te - 1 * (de - ds) * 86400000 - (ds * 86400000 + ts))%Z
        with (te - ts)%Z by lia.
      destruct (Z.eq_dec te ts) as [->|Nt].
      * rewrite Z.sub_diag. change (- (1))%Z with (-1)%Z; change (- 0)%Z with 0%Z; cbn; lia.
      * rewrite Z.sgn_pos by lia. change (- (1))%Z with (-1)%Z; change (- 0)%Z with 0%Z; cbn; lia.
Qed.

Lemma differenceInDays_nonneg (s e : Z) :
  (s <= e)%Z -> (0 <= differenceInDays e s)%Z.
Proof.
  intros H. rewrite (differenceInDays_full s e H).
  pose proof (dayOf_mono s e H) as Hm.
  destruct (Z.ltb_spec (timeOfDay e) (timeOfDay s)) as [Hlt|Hge]; [|lia].
  assert (dayOf s <> dayOf e); [|lia].
  intros E. unfold dayOf, timeOfDay, msPerDay in *.
  pose proof (Z.div_mod e 86400000). pose proof (Z.div_mod s 86400000). lia.
Qed.

(** ** The loop *)

Section Loop.
Variable exps : gmap string string.
Variable baseDaily : Qc.

Lemma forEach_entries (l : list Z) (carryover : Qc) (done : list DayEntry) :
snd (fold_left (forEach_body exps baseDaily) l (carryover, done))
= done ++ entriesFrom exps baseDaily carryover l.
Proof.
revert carryover done.
induction l as [|d l IH]; intros c ds; simpl.
- symmetry. apply app_nil_r.
- rewrite IH. rewrite <- app_assoc. reflexivity.
Qed.

Lemma entriesFrom_length (l : list Z) (c : Qc) :
length (entriesFrom exps baseDaily c l) = length l.
Proof.
revert c. induction l as [|d l IH]; intros c; simpl; [reflexivity|].
f_equal. apply IH.
Qed.

(** Every entry is the entry of its own day for some carryover. *)
Lemma entriesFrom_lookup (l : list Z) (c : Qc) (i : nat) (e : DayEntry) :
entriesFrom exps baseDaily c l !! i = Some e ->
l !! i = Some (date e) /\ exists c', e = entryOf exps baseDaily c' (date e).
Proof.
revert c i. induction l as [|d l IH]; intros c i H; simpl in H.
- destruct i; discriminate.
- destruct i as [|i]; simpl in *.
  + inversion H; subst; clear H. split; [reflexivity|]. exists c. reflexivity.
  + apply IH in H. exact H.
Qed.

Lemma entriesFrom_first (l : list Z) (c : Qc) (e : DayEntry) :
entriesFrom exps baseDaily c l !! 0%nat = Some e ->
allowance e = baseDaily + c.
Proof.
destruct l as [|d l]; simpl; intros H; [discriminate|].
inversion H; subst. reflexivity.
Qed.

Lemma entriesFrom_next (l : list Z) (c : Qc) (i : nat) (e e' : DayEntry) :
entriesFrom exps baseDaily c l !! i = Some e ->
entriesFrom exps baseDaily c l !! S i = Some e' ->
allowance e' = baseDaily + remaining e.
Proof.
revert c i. induction l as [|d l IH]; intros c i H H'; simpl in H.
- destruct i; discriminate.
- destruct i as [|i]; simpl in *.
  + inversion H; subst; clear H.
    apply entriesFrom_first in H'. exact H'.
  + eapply IH; eassumption.
Qed.

End Loop.

(** ** The two returns of [calculations] *)

(** [available], as both returns report it. *)
Lemma calculations_available (state : PlannerState) (today : Z) :
  available (calculations state today)
  = Math_max 0 (or0 (parseFloat (totalAmount state))
                - totalSavings (savingsGoals state)).
Proof.
  unfold calculations, calculationsWith.
  destruct (parseISO (startDate state)) as [s|]; [|reflexivity].
  destruct (parseISO (endDate state)) as [e|]; [|reflexivity].
  destruct (s >? e)%Z; reflexivity.
Qed.

Lemma calculations_invalid (state : PlannerState) (today : Z) :
  rangeOf state = None ->
  calculations state today = invalidRange (available (calculations state today)).
Proof.
  unfold rangeOf, calculations, calculationsWith.
  destruct (parseISO (startDate state)) as [s|]; [|reflexivity].
  destruct (parseISO (endDate state)) as [e|]; [|reflexivity].
  rewrite Z.gtb_ltb.
  destruct (Z.leb_spec s e) as [Hle|Hgt], (Z.ltb_spec e s) as [Hlt|Hge];
    try lia; try discriminate.
  reflexivity.
Qed.

Lemma calculations_valid (state : PlannerState) (today : Z) (s e : Z) :
  rangeOf state = Some (s, e) ->
  let L := calculations state today in
  (s <= e)%Z /\
  isValidRange L = true /\
  daysCount L = (differenceInDays e s + 1)%Z /\
  dailyAllowance L = available L / ofZ (differenceInDays e s + 1) /\
  days L = entriesFrom (expenses state) (dailyAllowance L) 0 (eachDayOfInterval s e) /\
  totalSpent L = fold_left (fun sum day => sum + spent day) (days L) 0 /\
  totalRemaining L = available L - totalSpent L /\
  spentPercentage L =
    (if gtb (available L) 0
     then Math_min (ofZ 100) (totalSpent L / available L * ofZ 100) else 0) /\
  spentUpToToday L =
    Some (fold_left (fun sum day =>
                       if upToToday today (date day) then sum + spent day else sum)
                    (days L) 0).
Proof.
  unfold rangeOf, calculations, calculationsWith.
  destruct (parseISO (startDate state)) as [s'|]; [|discriminate].
  destruct (parseISO (endDate state)) as [e'|]; [|discriminate].
  rewrite Z.gtb_ltb.
  destruct (Z.leb_spec s' e') as [Hle|Hgt], (Z.ltb_spec e' s') as [Hlt|Hge];
    try lia; try discriminate.
  intros H; inversion H; subst; clear H.
  cbv zeta. pose proof (differenceInDays_nonneg s e Hle) as Hn.
  destruct (Z.ltb_spec 0 (differenceInDays e s + 1)); [|lia].
  cbn [isValidRange daysCount dailyAllowance days totalSpent totalRemaining
       spentPercentage spentUpToToday available].
  rewrite forEach_entries. cbn [app].
  repeat split; try reflexivity. exact Hle.
Qed.

Lemma calculations_range (state : PlannerState) (today : Z) :
  isValidRange (calculations state today) = true ->
  exists s e, rangeOf state = Some (s, e).
Proof.
  intros H. destruct (rangeOf state) as [[s e]|] eqn:E; [eauto|].
  rewrite calculations_invalid in H by exact E. discriminate.
Qed.

(** ** The carryover chain *)

Section Chain.
Variables (state : PlannerState) (today : Z).

Lemma days_nonempty :
  isValidRange (calculations state today) = true ->
  exists e0, days (calculations state today) !! 0%nat = Some e0.
Proof.
  intros Hv. destruct (calculations_range _ _ Hv) as (s & e & Hr).
  destruct (calculations_valid state today s e Hr)
    as (Hle & _ & _ & _ & Hdays & _).
  destruct (days (calculations state today) !! 0%nat) as [e0|] eqn:E; [eauto|].
  apply lookup_ge_None in E.
  rewrite Hdays, entriesFrom_length, eachDayOfInterval_length in E by exact Hle.
  pose proof (dayOf_mono s e Hle). lia.
Qed.

Lemma days_first (e0 : DayEntry) :
  isValidRange (calculations state today) = true ->
  days (calculations state today) !! 0%nat = Some e0 ->
  allowance e0 = dailyAllowance (calculations state today).
Proof.
  intros Hv. destruct (calculations_range _ _ Hv) as (s & e & Hr).
  destruct (calculations_valid state today s e Hr)
    as (_ & _ & _ & _ & Hdays & _).
  rewrite Hdays. intros E.
  apply entriesFrom_first in E. rewrite E. ring.
Qed.

Lemma days_next (i : nat) (e e' : DayEntry) :
  isValidRange (calculations state today) = true ->
  days (calculations state today) !! i = Some e ->
  days (calculations state today) !! S i = Some e' ->
  allowance e' = dailyAllowance (calculations state today) + remaining e.
Proof.
  intros Hv. destruct (calculations_range _ _ Hv) as (s & d & Hr).
  destruct (calculations_valid state today s d Hr)
    as (_ & _ & _ & _ & Hdays & _).
  rewrite Hdays. intros H H'.
  apply (entriesFrom_next _ _ _ _ _ _ _ H H').
Qed.

(** The base daily share: what is available, split over the days. *)
Lemma dailyAllowance_share :
  isValidRange (calculations state today) = true ->
  dailyAllowance (calculations state today)
  = available (calculations state today) / ofZ (daysCount (calculations state today)).
Proof.
  intros Hv. destruct (calculations_range _ _ Hv) as (s & d & Hr).
  destruct (calculations_valid state today s d Hr)
    as (_ & _ & Hcount & Hbase & _).
  rewrite Hcount. exact Hbase.
Qed.

(** Every emitted day is the entry of its date for some carryover. *)
Lemma days_entry (i : nat) (e : DayEntry) :
  isValidRange (calculations state today) = true ->
  days (calculations state today) !! i = Some e ->
  exists c, e = entryOf (expenses state)
                  (dailyAllowance (calculations state today)) c (date e).
Proof.
  intros Hv. destruct (calculations_range _ _ Hv) as (s & d & Hr).
  destruct (calculations_valid state today s d Hr)
    as (_ & _ & _ & _ & Hdays & _).
  rewrite Hdays. intros H.
  apply entriesFrom_lookup in H as (_ & c & Hc). eauto.
Qed.

Lemma days_remaining (i : nat) (e : DayEntry) :
  isValidRange (calculations state today) = true ->
  days (calculations state today) !! i = Some e ->
  remaining e = allowance e - spent e.
Proof.
  intros Hv H. destruct (days_entry i e Hv H) as (c & ->). reflexivity.
Qed.

End Chain.

(** C1. In a valid range the base daily share is [available] over
    [daysCount]; the first day's allowance is the base daily share,
    every later day's allowance is the base daily share plus the
    previous day's remaining, and every day's remaining is its allowance
    minus its spent. *)
Theorem carryover_recurrence (state : PlannerState) (today : Z) :
  isValidRange (calculations state today) = true ->
  dailyAllowance (calculations state today)
  = available (calculations state today) / ofZ (daysCount (calculations state today)) /\
  (exists e0, days (calculations state today) !! 0%nat = Some e0 /\
              allowance e0 = dailyAllowance (calculations state today)) /\
  (forall (i : nat) (e e' : DayEntry),
      days (calculations state today) !! i = Some e ->
      days (calculations state today) !! S i = Some e' ->
      allowance e' = dailyAllowance (calculations state today) + remaining e) /\
  (forall (i : nat) (e : DayEntry),
      days (calculations state today) !! i = Some e ->
      remaining e = allowance e - spent e).
Proof.
  intros Hv. split; [apply dailyAllowance_share; exact Hv|]. split; [|split].
  - destruct (days_nonempty state today Hv) as (e0 & E).
    exists e0. split; [exact E|]. apply (days_first state today e0 Hv E).
  - intros i e e'. apply days_next. exact Hv.
  - intros i e. apply days_remaining. exact Hv.
Qed.

Lemma carryover_recurrence_witness :
  isValidRange (calculations Samples.twoDays Samples.march1) = true /\
  exists e0 e1,
    days (calculations Samples.twoDays Samples.march1) !! 0%nat = Some e0 /\
    days (calculations Samples.twoDays Samples.march1) !! 1%nat = Some e1 /\
    allowance e0 = ofZ 400 /\ remaining e0 = ofZ 100 /\
    allowance e1 = ofZ 500 /\
    allowance e1
    = dailyAllowance (calculations Samples.twoDays Samples.march1) + remaining e0.
Proof.
  assert (Hv : isValidRange (calculations Samples.twoDays Samples.march1) = true)
    by (vm_compute; reflexivity).
  split; [exact Hv|].
  destruct (days (calculations Samples.twoDays Samples.march1) !! 0%nat)
    as [e0|] eqn:E0; [|vm_compute in E0; discriminate].
  destruct (days (calculations Samples.twoDays Samples.march1) !! 1%nat)
    as [e1|] eqn:E1; [|vm_compute in E1; discriminate].
  destruct (carryover_recurrence Samples.twoDays Samples.march1 Hv)
    as (_ & _ & Hnext & _).
  specialize (Hnext 0%nat e0 e1 E0 E1).
  vm_compute in E0, E1. injection E0 as <-. injection E1 as <-.
  do 2 eexists. split; [reflexivity|]. split; [reflexivity|].
  split; [apply Qc_is_canon; vm_compute; reflexivity|].
  split; [apply Qc_is_canon; vm_compute; reflexivity|].
  split; [apply Qc_is_canon; vm_compute; reflexivity|].
  exact Hnext.
Defined.

(** C9. Under exact arithmetic, in a valid range, a day that spends more
    than its allowance leaves the next day an allowance strictly below
    the base daily share, short of it by exactly the overspend. *)
Theorem overspend_propagates (state : PlannerState) (today : Z)
    (i : nat) (e e' : DayEntry) :
  isValidRange (calculations state today) = true ->
  days (calculations state today) !! i = Some e ->
  days (calculations state today) !! S i = Some e' ->
  allowance e < spent e ->
  allowance e' < dailyAllowance (calculations state today) /\
  dailyAllowance (calculations state today) - allowance e' = spent e - allowance e.
Proof.
  intros Hv H H' Hover.
  rewrite (days_next state today i e e' Hv H H').
  rewrite (days_remaining state today i e Hv H).
  split; [qc_order | ring].
Qed.

Lemma overspend_propagates_witness :
  exists e e',
    days (calculations Samples.overspent Samples.march1) !! 0%nat = Some e /\
    days (calculations Samples.overspent Samples.march1) !! 1%nat = Some e' /\
    allowance e = ofZ 400 /\ spent e = ofZ 700 /\ allowance e' = ofZ 100 /\
    allowance e' < dailyAllowance (calculations Samples.overspent Samples.march1) /\
    dailyAllowance (calculations Samples.overspent Samples.march1) - allowance e'
    = spent e - allowance e.
Proof.
  assert (Hv : isValidRange (calculations Samples.overspent Samples.march1) = true)
    by (vm_compute; reflexivity).
  destruct (days (calculations Samples.overspent Samples.march1) !! 0%nat)
    as [e|] eqn:E0; [|vm_compute in E0; discriminate].
  destruct (days (calculations Samples.overspent Samples.march1) !! 1%nat)
    as [e'|] eqn:E1; [|vm_compute in E1; discriminate].
  pose proof (overspend_propagates Samples.overspent Samples.march1 0%nat e e'
                Hv E0 E1) as Hthm.
  vm_compute in E0, E1. injection E0 as <-. injection E1 as <-.
  do 2 eexists. split; [reflexivity|]. split; [reflexivity|].
  split; [apply Qc_is_canon; vm_compute; reflexivity|].
  split; [apply Qc_is_canon; vm_compute; reflexivity|].
  split; [apply Qc_is_canon; vm_compute; reflexivity|].
  apply Hthm. vm_compute. reflexivity.
Defined.

(** In binary64 an overspend can be lost in rounding.  With 3000 over
    three days the base share is 1000; the second day is allowed 1 and
    spends 1.0000000000000002, the next number above 1; what it leaves,
    about -2.2e-16, is less than half the distance between 1000 and its
    neighbours, so the third day is allowed 1000 again: not less than
    the base share, while the overspend is not 0. *)
Lemma small_overspend_rounds_away :
  Planner64.isValidRange (Planner64.calculations Samples.smallOverspend Samples.march1)
  = true /\
  Planner64.dailyAllowance (Planner64.calculations Samples.smallOverspend Samples.march1)
  = B64.ofZ 1000 /\
  exists d2 d3 : Planner64.DayEntry,
    Planner64.days (Planner64.calculations Samples.smallOverspend Samples.march1)
      !! 1%nat = Some d2 /\
    Planner64.days (Planner64.calculations Samples.smallOverspend Samples.march1)
      !! 2%nat = Some d3 /\
    Planner64.allowance d2 = B64.ofZ 1 /\
    B64.gtb (Planner64.spent d2) (Planner64.allowance d2) = true /\
    B64.eqb (B64.sub (Planner64.spent d2) (Planner64.allowance d2)) B64.zero = false /\
    Planner64.allowance d3 = B64.ofZ 1000 /\
    B64.ltb (Planner64.allowance d3)
            (Planner64.dailyAllowance
               (Planner64.calculations Samples.smallOverspend Samples.march1))
    = false /\
    B64.eqb (B64.sub (Planner64.dailyAllowance
                        (Planner64.calculations Samples.smallOverspend
                                                Samples.march1))
                     (Planner64.allowance d3))
            (B64.sub (Planner64.spent d2) (Planner64.allowance d2))
    = false.
Proof.
  split; [vm_compute; reflexivity|]. split; [vm_compute; reflexivity|].
  destruct (Planner64.days
              (Planner64.calculations Samples.smallOverspend Samples.march1)
              !! 1%nat) as [d2|] eqn:E2; [|vm_compute in E2; discriminate].
  destruct (Planner64.days
              (Planner64.calculations Samples.smallOverspend Samples.march1)
              !! 2%nat) as [d3|] eqn:E3; [|vm_compute in E3; discriminate].
  exists d2, d3. split; [reflexivity|]. split; [reflexivity|].
  vm_compute in E2. injection E2 as <-.
  vm_compute in E3. injection E3 as <-.
  repeat split; vm_compute; reflexivity.
Qed.

(** ** Spending of a day *)

(** C2. In a valid range, a day whose date key has no expense entry, or
    the empty string, spends exactly its allowance; a day with a
    non-empty entry spends the number parsed from it, and 0 when the
    text does not parse. *)
Theorem default_spend (state : PlannerState) (today : Z) (i : nat) (e : DayEntry) :
  isValidRange (calculations state today) = true ->
  days (calculations state today) !! i = Some e ->
  dateKey e = format_yyyy_MM_dd (date e) /\
  (expenses state !! dateKey e = None \/ expenses state !! dateKey e = Some EmptyString ->
   spent e = allowance e) /\
  (forall s : string,
      expenses state !! dateKey e = Some s -> s <> EmptyString ->
      spent e = match parseFloat s with Some q => q | None => 0 end).
Proof.
  intros Hv H. destruct (days_entry state today i e Hv H) as (c & ->).
  cbn [entryOf date dateKey spent allowance].
  split; [reflexivity|]. split.
  - intros [-> | ->]; reflexivity.
  - intros s -> Hs. cbn [hasInput parseFloat_prop].
    destruct (String.eqb_spec s EmptyString) as [->|_]; [congruence|].
    cbn [negb]. apply or0_value.
Qed.

Lemma default_spend_witness :
  exists e e',
    days (calculations Samples.twoDays Samples.march1) !! 0%nat = Some e /\
    days (calculations Samples.twoDays Samples.march1) !! 1%nat = Some e' /\
    expenses Samples.twoDays !! dateKey e = Some "300"%string /\
    spent e = ofZ 300 /\
    expenses Samples.twoDays !! dateKey e' = None /\
    spent e' = allowance e'.
Proof.
  assert (Hv : isValidRange (calculations Samples.twoDays Samples.march1) = true)
    by (vm_compute; reflexivity).
  destruct (days (calculations Samples.twoDays Samples.march1) !! 0%nat)
    as [e|] eqn:E0; [|vm_compute in E0; discriminate].
  destruct (days (calculations Samples.twoDays Samples.march1) !! 1%nat)
    as [e'|] eqn:E1; [|vm_compute in E1; discriminate].
  destruct (default_spend Samples.twoDays Samples.march1 0%nat e Hv E0)
    as (_ & _ & Hparsed).
  destruct (default_spend Samples.twoDays Samples.march1 1%nat e' Hv E1)
    as (_ & Hdefault & _).
  vm_compute in E0, E1. injection E0 as <-. injection E1 as <-.
  do 2 eexists. split; [reflexivity|]. split; [reflexivity|].
  assert (K0 : expenses Samples.twoDays !! "2024-03-01"%string = Some "300"%string)
    by (vm_compute; reflexivity).
  assert (K1 : expenses Samples.twoDays !! "2024-03-02"%string = None)
    by (vm_compute; reflexivity).
  split; [exact K0|]. split.
  - rewrite (Hparsed "300"%string K0) by discriminate.
    apply Qc_is_canon. vm_compute. reflexivity.
  - split; [exact K1|]. apply Hdefault. left. exact K1.
Defined.

(** ** The days of the range *)




(** ** Date keys of the emitted days

    In a range within the years 1 to 9999 the key of every emitted day
    parses back to that day, so different days have different keys. *)

Lemma dateKey_parses (state : PlannerState) (today : Z) (s e : Z)
    (i : nat) (d : DayEntry) :
  rangeOf state = Some (s, e) ->
  (day_0001_01_01 <= dayOf s)%Z -> (dayOf e <= day_9999_12_31)%Z ->
  days (calculations state today) !! i = Some d ->
  parseISO (dateKey d) = Some (midnight (date d)).
Proof.
  intros Hr Hlo Hhi Hd.
  destruct (calculations_valid state today s e Hr) as (Hle & _ & _ & _ & Hdays & _).
  rewrite Hdays in Hd. apply entriesFrom_lookup in Hd as (Hin & c & Hc).
  apply eachDayOfInterval_lookup in Hin as (_ & Hbetween); [|exact Hle].
  rewrite Hc at 1. cbn [dateKey entryOf]. apply parseISO_format. lia.
Qed.

Lemma midnight_inj (d d' : Z) : midnight d = midnight d' -> d = d'.
Proof. unfold midnight, msPerDay. lia. Qed.

(** X25. In a range within the years 1 to 9999, two emitted days with
    the same key are the same day: no two rows of the table share an
    expense input. *)
Corollary dateKey_injective (state : PlannerState) (today : Z) (s e : Z)
    (i j : nat) (d d' : DayEntry) :
  rangeOf state = Some (s, e) ->
  (day_0001_01_01 <= dayOf s)%Z -> (dayOf e <= day_9999_12_31)%Z ->
  days (calculations state today) !! i = Some d ->
  days (calculations state today) !! j = Some d' ->
  dateKey d = dateKey d' -> i = j.
Proof.
  intros Hr Hlo Hhi Hd Hd' Hk.
  pose proof (dateKey_parses state today s e i d Hr Hlo Hhi Hd) as P.
  pose proof (dateKey_parses state today s e j d' Hr Hlo Hhi Hd') as P'.
  rewrite Hk, P' in P. inversion P as [Hdate]. apply midnight_inj in Hdate.
  destruct (calculations_valid state today s e Hr) as (Hle & _ & _ & _ & Hdays & _).
  rewrite Hdays in Hd, Hd'.
  apply entriesFrom_lookup in Hd as (Hin & _).
  apply entriesFrom_lookup in Hd' as (Hin' & _).
  apply eachDayOfInterval_lookup in Hin as (Hi & _); [|exact Hle].
  apply eachDayOfInterval_lookup in Hin' as (Hj & _); [|exact Hle].
  lia.
Qed.

Lemma dateKey_injective_witness :
  exists d,
    days (calculations Samples.twoDays Samples.march1) !! 1%nat = Some d /\
    dateKey d = "2024-03-02"%string /\ 1%nat = 1%nat.
Proof.
  destruct (days (calculations Samples.twoDays Samples.march1) !! 1%nat)
    as [d|] eqn:E; [|vm_compute in E; discriminate].
  assert (Hr : rangeOf Samples.twoDays
               = Some (midnight 19783, midnight 19784))
    by (vm_compute; reflexivity).
  assert (Hlo : (day_0001_01_01 <= dayOf (midnight 19783))%Z)
    by (vm_compute; discriminate).
  assert (Hhi : (dayOf (midnight 19784) <= day_9999_12_31)%Z)
    by (vm_compute; discriminate).
  exists d. split; [reflexivity|]. split.
  - vm_compute in E. injection E as <-. reflexivity.
  - apply (dateKey_injective Samples.twoDays Samples.march1 _ _ 1%nat 1%nat d d
             Hr Hlo Hhi E E eq_refl).
Defined.

(** ** Aggregates *)

(** C8. In a valid range [spentUpToToday] is the sum of [spent] over
    exactly the emitted days whose date is today or earlier; dates are
    compared as calendar days. *)
Theorem spent_up_to_today (state : PlannerState) (today : Z) :
  isValidRange (calculations state today) = true ->
  spentUpToToday (calculations state today)
  = Some (Qsum (map spent (filter (fun d => (date d <= today)%Z)
                                  (days (calculations state today))))).
Proof.
  intros Hv. destruct (calculations_range _ _ Hv) as (s & e & Hr).
  destruct (calculations_valid state today s e Hr)
    as (_ & _ & _ & _ & _ & _ & _ & _ & Hup).
  rewrite Hup. f_equal.
  rewrite (fold_left_sum_if (fun d => upToToday today (date d)) spent).
  rewrite (list_filter_iff (fun d => upToToday today (date d) = true)
                           (fun d => (date d <= today)%Z)).
  - ring.
  - intros d. unfold upToToday. rewrite orb_true_iff, Z.ltb_lt, Z.eqb_eq. lia.
Qed.

Lemma spent_up_to_today_witness :
  isValidRange (calculations Samples.twoDays Samples.march1) = true /\
  spentUpToToday (calculations Samples.twoDays Samples.march1) = Some (ofZ 300).
Proof.
  assert (Hv : isValidRange (calculations Samples.twoDays Samples.march1) = true)
    by (vm_compute; reflexivity).
  split; [exact Hv|].
  rewrite (spent_up_to_today Samples.twoDays Samples.march1 Hv).
  vm_compute. reflexivity.
Defined.





(** ** What is available *)

Lemma totalSavings_sum (goals : list SavingsGoal) :
  totalSavings goals = Qsum (map (fun g => amountValue (amount g)) goals).
Proof.
  unfold totalSavings.
  rewrite (fold_left_sum (fun g => or0 (parseFloat (amount g)))).
  unfold amountValue. ring.
Qed.

(** C4. [available] is [max(0, totalAmount - sum of the goal amounts)]
    for every total and every sequence of goals: the difference when
    that is not negative and 0 otherwise, hence never negative. *)
Theorem available_clamped (state : PlannerState) (today : Z) :
  available (calculations state today)
  = Qcmax 0 (amountValue (totalAmount state)
             - Qsum (map (fun g => amountValue (amount g)) (savingsGoals state)))
  /\ (0 <= amountValue (totalAmount state)
            - Qsum (map (fun g => amountValue (amount g)) (savingsGoals state)) ->
      available (calculations state today)
      = amountValue (totalAmount state)
        - Qsum (map (fun g => amountValue (amount g)) (savingsGoals state)))
  /\ (amountValue (totalAmount state)
      - Qsum (map (fun g => amountValue (amount g)) (savingsGoals state)) <= 0 ->
      available (calculations state today) = 0)
  /\ 0 <= available (calculations state today).
Proof.
  rewrite calculations_available, Math_max_Qcmax, totalSavings_sum.
  unfold amountValue.
  set (x := or0 (parseFloat (totalAmount state))
            - Qsum (map (fun g => or0 (parseFloat (amount g))) (savingsGoals state))).
  split; [reflexivity|]. split; [|split].
  - intros Hx. unfold Qcmax. destruct (Qclt_le_dec 0 x) as [H|H]; [reflexivity|].
    apply Qcle_antisym; assumption.
  - intros Hx. unfold Qcmax. destruct (Qclt_le_dec 0 x) as [H|H]; [|reflexivity].
    exfalso. apply (Qclt_not_le _ _ H Hx).
  - apply Qcmax_lub.
Qed.

Lemma available_clamped_witness :
  amountValue (totalAmount Samples.overSaved)
  - Qsum (map (fun g => amountValue (amount g)) (savingsGoals Samples.overSaved))
  = ofZ (-1000150) /\
  available (calculations Samples.overSaved Samples.march1) = 0 /\
  available (calculations Samples.twoDays Samples.march1) = ofZ 800.
Proof.
  assert (Hd : amountValue (totalAmount Samples.overSaved)
               - Qsum (map (fun g => amountValue (amount g))
                           (savingsGoals Samples.overSaved))
               = ofZ (-1000150))
    by (apply Qc_is_canon; vm_compute; reflexivity).
  split; [exact Hd|].
  destruct (available_clamped Samples.overSaved Samples.march1) as (_ & _ & Hneg & _).
  destruct (available_clamped Samples.twoDays Samples.march1) as (_ & Hpos & _ & _).
  split.
  - apply Hneg. rewrite Hd. vm_compute. discriminate.
  - rewrite Hpos.
    + apply Qc_is_canon. vm_compute. reflexivity.
    + vm_compute. discriminate.
Defined.

(** ** Amounts that are not plain non-negative numbers *)

Lemma amountValue_numericOr0 (s : string) :
  or0 (parseFloat (numericOr0 s)) = or0 (parseFloat s).
Proof.
  unfold numericOr0. destruct (parseFloat s) as [q|] eqn:E.
  - rewrite E. reflexivity.
  - rewrite !or0_value. vm_compute. reflexivity.
Qed.

Lemma totalSavings_zeroNonNumeric (goals : list SavingsGoal) :
  totalSavings
    (map (fun g => {| id := id g; name := name g;
                      amount := numericOr0 (amount g);
                      category := category g |}) goals)
  = totalSavings goals.
Proof.
  unfold totalSavings. generalize 0.
  induction goals as [|g goals IH]; intros a; simpl; [reflexivity|].
  rewrite amountValue_numericOr0. apply IH.
Qed.

(** C5 as the code has it. Text that is not a number counts as 0: the
    ledger is the one obtained with that text replaced by ["0"].  A
    number keeps its value, sign included; a [totalAmount] that is not
    positive leaves nothing available when total savings is not
    negative, as 0 does. *)
Theorem non_numeric_is_zero (state : PlannerState) (today : Z) :
  calculations (zeroNonNumeric state) today = calculations state today /\
  (forall s : string,
      amountValue s = match parseFloat s with Some q => q | None => 0 end) /\
  (amountValue (totalAmount state) <= 0 ->
   0 <= totalSavings (savingsGoals state) ->
   available (calculations state today) = 0).
Proof.
  split; [|split].
  - unfold calculations, calculationsWith, zeroNonNumeric.
    cbn [totalAmount startDate endDate expenses savingsGoals].
    rewrite amountValue_numericOr0, totalSavings_zeroNonNumeric. reflexivity.
  - intros s. apply or0_value.
  - intros Htotal Hsav.
    rewrite calculations_available, Math_max_Qcmax.
    unfold amountValue in Htotal. unfold Qcmax.
    destruct (Qclt_le_dec 0 (or0 (parseFloat (totalAmount state))
                             - totalSavings (savingsGoals state))) as [H|H];
      [|reflexivity].
    exfalso. qc_order.
Qed.

Lemma non_numeric_is_zero_witness :
  amountValue (totalAmount Samples.negativeTotal) = ofZ (-5) /\
  amountValue (totalAmount Samples.negativeTotal) <= 0 /\
  0 <= totalSavings (savingsGoals Samples.negativeTotal) /\
  available (calculations Samples.negativeTotal Samples.march1) = 0.
Proof.
  assert (Ht : amountValue (totalAmount Samples.negativeTotal) <= 0)
    by (vm_compute; discriminate).
  assert (Hs : 0 <= totalSavings (savingsGoals Samples.negativeTotal))
    by (vm_compute; discriminate).
  split; [apply Qc_is_canon; vm_compute; reflexivity|].
  split; [exact Ht|]. split; [exact Hs|].
  destruct (non_numeric_is_zero Samples.negativeTotal Samples.march1)
    as (_ & _ & Hneg).
  exact (Hneg Ht Hs).
Defined.

(** C5 as stated fails: a goal of [-200] is not taken as 0. It lowers
    total savings to [-200] and raises [available] from 1000 to 1200. *)
Lemma negative_goal_counts :
  parseFloat (amount (Samples.goal "-200")) = Some (ofZ (-200)) /\
  totalSavings (savingsGoals Samples.negativeGoal) = ofZ (-200) /\
  totalSavings (savingsGoals Samples.negativeGoal) <> 0 /\
  available (calculations Samples.negativeGoal Samples.march1) = ofZ 1200 /\
  available (calculations Samples.negativeGoalAsZero Samples.march1) = ofZ 1000 /\
  available (calculations Samples.negativeGoal Samples.march1)
  <> available (calculations Samples.negativeGoalAsZero Samples.march1).
Proof.
  assert (H1 : totalSavings (savingsGoals Samples.negativeGoal) = ofZ (-200))
    by (apply Qc_is_canon; vm_compute; reflexivity).
  assert (H2 : available (calculations Samples.negativeGoal Samples.march1) = ofZ 1200)
    by (apply Qc_is_canon; vm_compute; reflexivity).
  assert (H3 : available (calculations Samples.negativeGoalAsZero Samples.march1)
               = ofZ 1000)
    by (apply Qc_is_canon; vm_compute; reflexivity).
  split; [vm_compute; reflexivity|].
  split; [exact H1|]. split; [rewrite H1; discriminate|].
  split; [exact H2|]. split; [exact H3|].
  rewrite H2, H3. discriminate.
Qed.

(** ** The share spent *)

Lemma spentPercentage_cases (state : PlannerState) (today : Z) :
  spentPercentage (calculations state today)
  = if gtb (available (calculations state today)) 0
    then Qcmin (ofZ 100) (totalSpent (calculations state today)
                          / available (calculations state today) * ofZ 100)
    else 0.
Proof.
  destruct (rangeOf state) as [[s e]|] eqn:Hr.
  - destruct (calculations_valid state today s e Hr)
      as (_ & _ & _ & _ & _ & _ & _ & Hpct & _).
    rewrite Hpct, Math_min_Qcmin. reflexivity.
  - rewrite (calculations_invalid state today Hr).
    cbn [spentPercentage totalSpent available invalidRange].
    destruct (gtb (available (calculations state today)) 0); [|reflexivity].
    replace (0 / available (calculations state today) * ofZ 100) with 0
      by (unfold Qcdiv; ring).
    unfold Qcmin. destruct (Qclt_le_dec 0 (ofZ 100)) as [_|H]; [reflexivity|].
    exfalso. vm_compute in H. apply H. reflexivity.
Qed.

Lemma dailyAllowance_zero (state : PlannerState) (today : Z) :
  available (calculations state today) = 0 ->
  dailyAllowance (calculations state today) = 0.
Proof.
  intros H0. destruct (rangeOf state) as [[s e]|] eqn:Hr.
  - destruct (calculations_valid state today s e Hr)
      as (_ & _ & _ & Hbase & _).
    rewrite Hbase, H0. unfold Qcdiv. ring.
  - rewrite (calculations_invalid state today Hr). reflexivity.
Qed.

(** Whatever a division by zero would give, the ledger is the same: the
    code divides by [daysCount] only when it is positive and by
    [available] only when it is positive. *)
Lemma divisor_never_zero (divide : Qc -> Qc -> Qc)
    (state : PlannerState) (today : Z) :
  (forall x y : Qc, y <> 0 -> divide x y = x / y) ->
  calculationsWith divide state today = calculations state today.
Proof.
  intros Hdiv. unfold calculations, calculationsWith.
  destruct (parseISO (startDate state)) as [s|]; [|reflexivity].
  destruct (parseISO (endDate state)) as [e|]; [|reflexivity].
  destruct (s >? e)%Z; [reflexivity|].
  cbv zeta.
  set (a := Math_max 0 (or0 (parseFloat (totalAmount state))
                        - totalSavings (savingsGoals state))).
  set (n := (differenceInDays e s + 1)%Z).
  assert (Hb : (if (0 <? n)%Z then divide a (ofZ n) else 0)
               = (if (0 <? n)%Z then a / ofZ n else 0)).
  { destruct (Z.ltb_spec 0 n) as [Hn|Hn]; [|reflexivity].
    apply Hdiv. apply ofZ_nonzero. lia. }
  rewrite Hb.
  destruct (gtb a 0) eqn:E; [|reflexivity].
  rewrite Hdiv; [reflexivity|].
  apply gtb_lt in E. intros H0. rewrite H0 in E. revert E. apply Qcle_not_lt.
  apply Qcle_refl.
Qed.

(** C6 as the code has it. [spentPercentage] is
    [min(100, totalSpent / available * 100)] when [available > 0] and 0
    when [available = 0], for every input, and no input makes the code
    divide by zero.  When [totalAmount] is 0 and total savings is not
    negative, [available], [dailyAllowance] and [spentPercentage] are
    all 0. *)
Theorem spent_percentage (state : PlannerState) (today : Z) :
  (forall divide : Qc -> Qc -> Qc,
      (forall x y : Qc, y <> 0 -> divide x y = x / y) ->
      calculationsWith divide state today = calculations state today) /\
  (0 < available (calculations state today) ->
   spentPercentage (calculations state today)
   = Qcmin (ofZ 100) (totalSpent (calculations state today)
                      / available (calculations state today) * ofZ 100)) /\
  (available (calculations state today) = 0 ->
   spentPercentage (calculations state today) = 0) /\
  (amountValue (totalAmount state) = 0 ->
   0 <= totalSavings (savingsGoals state) ->
   available (calculations state today) = 0 /\
   dailyAllowance (calculations state today) = 0 /\
   spentPercentage (calculations state today) = 0).
Proof.
  assert (Hpct0 : available (calculations state today) = 0 ->
                  spentPercentage (calculations state today) = 0).
  { intros H. rewrite spentPercentage_cases, H.
    destruct (gtb 0 0) eqn:E; [|reflexivity].
    apply gtb_lt in E. exfalso. qc_order. }
  split; [intros divide; apply divisor_never_zero|].
  split; [|split].
  - intros H. rewrite spentPercentage_cases.
    apply gtb_lt in H. rewrite H. reflexivity.
  - exact Hpct0.
  - intros Htotal Hsav.
    assert (H0 : available (calculations state today) = 0).
    { rewrite calculations_available, Math_max_Qcmax.
      unfold amountValue in Htotal. rewrite Htotal.
      unfold Qcmax.
      destruct (Qclt_le_dec 0 (0 - totalSavings (savingsGoals state))) as [H|H];
        [|reflexivity].
      exfalso. qc_order. }
    split; [exact H0|]. split; [apply dailyAllowance_zero; exact H0|].
    apply Hpct0; exact H0.
Qed.

Lemma spent_percentage_witness :
  amountValue (totalAmount Samples.zeroTotal) = 0 /\
  0 <= totalSavings (savingsGoals Samples.zeroTotal) /\
  available (calculations Samples.zeroTotal Samples.march1) = 0 /\
  dailyAllowance (calculations Samples.zeroTotal Samples.march1) = 0 /\
  spentPercentage (calculations Samples.zeroTotal Samples.march1) = 0 /\
  0 < available (calculations Samples.twoDays Samples.march1) /\
  spentPercentage (calculations Samples.twoDays Samples.march1)
  = Qcmin (ofZ 100) (totalSpent (calculations Samples.twoDays Samples.march1)
                     / available (calculations Samples.twoDays Samples.march1)
                     * ofZ 100).
Proof.
  assert (Ht : amountValue (totalAmount Samples.zeroTotal) = 0)
    by (apply Qc_is_canon; vm_compute; reflexivity).
  assert (Hs : 0 <= totalSavings (savingsGoals Samples.zeroTotal))
    by (vm_compute; discriminate).
  assert (Ha : 0 < available (calculations Samples.twoDays Samples.march1))
    by (vm_compute; reflexivity).
  split; [exact Ht|]. split; [exact Hs|].
  destruct (spent_percentage Samples.zeroTotal Samples.march1) as (_ & _ & _ & Hzero).
  destruct (Hzero Ht Hs) as (H1 & H2 & H3).
  split; [exact H1|]. split; [exact H2|]. split; [exact H3|].
  split; [exact Ha|].
  destruct (spent_percentage Samples.twoDays Samples.march1) as (_ & Hpos & _).
  exact (Hpos Ha).
Defined.

(** C6 as stated fails: with [totalAmount] 0 and a goal of [-50], one
    day in range, [available] and [dailyAllowance] are 50 and
    [spentPercentage] is 100. *)
Lemma zero_total_negative_goal :
  amountValue (totalAmount Samples.zeroTotalNegativeGoal) = 0 /\
  isValidRange (calculations Samples.zeroTotalNegativeGoal Samples.march1) = true /\
  available (calculations Samples.zeroTotalNegativeGoal Samples.march1) = ofZ 50 /\
  dailyAllowance (calculations Samples.zeroTotalNegativeGoal Samples.march1) = ofZ 50 /\
  spentPercentage (calculations Samples.zeroTotalNegativeGoal Samples.march1)
  = ofZ 100 /\
  available (calculations Samples.zeroTotalNegativeGoal Samples.march1) <> 0 /\
  dailyAllowance (calculations Samples.zeroTotalNegativeGoal Samples.march1) <> 0 /\
  spentPercentage (calculations Samples.zeroTotalNegativeGoal Samples.march1) <> 0.
Proof.
  assert (H1 : available (calculations Samples.zeroTotalNegativeGoal Samples.march1)
               = ofZ 50)
    by (apply Qc_is_canon; vm_compute; reflexivity).
  assert (H2 : dailyAllowance (calculations Samples.zeroTotalNegativeGoal Samples.march1)
               = ofZ 50)
    by (apply Qc_is_canon; vm_compute; reflexivity).
  assert (H3 : spentPercentage (calculations Samples.zeroTotalNegativeGoal Samples.march1)
               = ofZ 100)
    by (apply Qc_is_canon; vm_compute; reflexivity).
  split; [apply Qc_is_canon; vm_compute; reflexivity|].
  split; [vm_compute; reflexivity|].
  split; [exact H1|]. split; [exact H2|]. split; [exact H3|].
  rewrite H1, H2, H3. repeat split; discriminate.
Qed.

(** ** A rejected range *)

(** Both dates must parse and be in order, or the range is rejected. *)
Lemma rangeOf_None (state : PlannerState) :
  rangeOf state = None <->
  parseISO (startDate state) = None \/
  parseISO (endDate state) = None \/
  exists s e, parseISO (startDate state) = Some s /\
              parseISO (endDate state) = Some e /\ (e < s)%Z.
Proof.
  unfold rangeOf.
  destruct (parseISO (startDate state)) as [s|]; [|tauto].
  destruct (parseISO (endDate state)) as [e|]; [|tauto].
  destruct (Z.leb_spec s e) as [Hle|Hlt]; split.
  - discriminate.
  - intros [H|[H|(s' & e' & Hs & He & Hlt)]]; try discriminate.
    inversion Hs; inversion He; subst. lia.
  - intros _. right. right. exists s, e. auto.
  - reflexivity.
Qed.

(** Whatever the input, a rejected range gives the early return: no
    days, zero counts and totals, [totalRemaining] equal to [available],
    and no [spentUpToToday]. *)
Lemma rejected_range_ledger (state : PlannerState) (today : Z) :
  parseISO (startDate state) = None \/
  parseISO (endDate state) = None \/
  (exists s e, parseISO (startDate state) = Some s /\
               parseISO (endDate state) = Some e /\ (e < s)%Z) ->
  calculations state today
  = {| daysCount := 0;
       available := Math_max 0 (or0 (parseFloat (totalAmount state))
                                - totalSavings (savingsGoals state));
       dailyAllowance := 0;
       days := [];
       isValidRange := false;
       totalSpent := 0;
       totalRemaining := Math_max 0 (or0 (parseFloat (totalAmount state))
                                     - totalSavings (savingsGoals state));
       spentPercentage := 0;
       spentUpToToday := None |}.
Proof.
  intros H. apply rangeOf_None in H.
  rewrite (calculations_invalid state today H), calculations_available.
  reflexivity.
Qed.

(** C3. With the end date before the start date the early return is
    taken: it sets the counts, the totals and the flag as specified, but
    it has no [spentUpToToday], which the other return sets. *)
Theorem end_before_start_ledger :
  calculations Samples.endBeforeStart Samples.march1
  = {| daysCount := 0;
       available := ofZ 1000;
       dailyAllowance := 0;
       days := [];
       isValidRange := false;
       totalSpent := 0;
       totalRemaining := ofZ 1000;
       spentPercentage := 0;
       spentUpToToday := None |}
  /\ spentUpToToday (calculations Samples.endBeforeStart Samples.march1) <> Some 0
  /\ exists v, spentUpToToday (calculations Samples.twoDays Samples.march1) = Some v.
Proof.
  assert (Ha : Math_max 0 (or0 (parseFloat (totalAmount Samples.endBeforeStart))
                           - totalSavings (savingsGoals Samples.endBeforeStart))
               = ofZ 1000)
    by (apply Qc_is_canon; vm_compute; reflexivity).
  assert (Hl : calculations Samples.endBeforeStart Samples.march1
               = invalidRange (ofZ 1000)).
  { rewrite rejected_range_ledger, Ha; [reflexivity|].
    right. right. exists (midnight 19792), (midnight 19784).
    split; [vm_compute; reflexivity|]. split; [vm_compute; reflexivity|].
    unfold midnight, msPerDay. lia. }
  split; [exact Hl|]. split.
  - rewrite Hl. discriminate.
  - eexists. vm_compute. reflexivity.
Qed.

(** * The rest of the page

    The handlers that edit the state, the savings by category, the
    state the planner starts with, the CSV export, and the earlier
    planner. *)

(** ** Savings goals *)
Import Edit.

Lemma calculations_depends (st st' : PlannerState) (today : Z) :
  totalAmount st' = totalAmount st ->
  startDate st' = startDate st ->
  endDate st' = endDate st ->
  expenses st' = expenses st ->
  totalSavings (savingsGoals st') = totalSavings (savingsGoals st) ->
  calculations st' today = calculations st today.
Proof.
  intros H1 H2 H3 H4 H5. unfold calculations, calculationsWith.
  rewrite H1, H2, H3, H4, H5. reflexivity.
Qed.

Lemma totalSavings_app (l1 l2 : list SavingsGoal) :
  totalSavings (l1 ++ l2) = totalSavings l1 + totalSavings l2.
Proof.
  rewrite !totalSavings_sum, map_app.
  induction (map (fun g => amountValue (amount g)) l1) as [|x l IH]; cbn [Qsum app].
  - ring.
  - rewrite IH. ring.
Qed.

Lemma amountValue_0 : amountValue "0" = 0.
Proof. apply Qc_is_canon. vm_compute. reflexivity. Qed.

(** X1. Adding a savings goal changes nothing in the ledger: the new goal
    has the amount ["0"]. *)
Theorem add_goal_same_ledger (newId : string) (state : PlannerState) (today : Z) :
  calculations (addSavingsGoal newId state) today = calculations state today.
Proof.
  apply calculations_depends; try reflexivity.
  cbn [addSavingsGoal withGoals savingsGoals].
  rewrite totalSavings_app, (totalSavings_sum [_]). cbn [map Qsum amount].
  rewrite amountValue_0. ring.
Qed.

Lemma totalSavings_same_amounts (l1 l2 : list SavingsGoal) :
  map amount l1 = map amount l2 -> totalSavings l1 = totalSavings l2.
Proof.
  intros H. rewrite !totalSavings_sum.
  rewrite <- !(map_map amount amountValue). rewrite H. reflexivity.
Qed.

(** X2. Renaming a savings goal, or moving it to another category, changes
    nothing in the ledger. *)
Theorem relabel_goal_same_ledger (goalId : string) (field : GoalField)
    (value : string) (state : PlannerState) (today : Z) :
  field <> FieldAmount ->
  calculations (updateSavingsGoal goalId field value state) today
  = calculations state today.
Proof.
  intros Hf. apply calculations_depends; try reflexivity.
  apply totalSavings_same_amounts.
  cbn [updateSavingsGoal withGoals savingsGoals]. rewrite map_map.
  apply map_ext. intros g. destruct (String.eqb (id g) goalId); [|reflexivity].
  destruct field; [reflexivity|contradiction|reflexivity].
Qed.

Lemma relabel_goal_same_ledger_witness :
  calculations (updateSavingsGoal "b2" FieldName "Holiday" Household.threeGoals)
               Samples.march1
  = calculations Household.threeGoals Samples.march1.
Proof. apply relabel_goal_same_ledger. discriminate. Defined.

(** Removing from, and updating in, a list whose ids are all different. *)
Lemma filter_other_ids (goalId : string) (l : list SavingsGoal) :
  ~ In goalId (map id l) ->
  List.filter (fun goal => negb (String.eqb (id goal) goalId)) l = l.
Proof.
  induction l as [|g l IH]; [reflexivity|]. cbn [map In List.filter]. intros H.
  destruct (String.eqb_spec (id g) goalId) as [E|E]; [tauto|].
  cbn [negb]. f_equal. apply IH. tauto.
Qed.

Lemma filter_unique_id (g : SavingsGoal) (l : list SavingsGoal) :
  NoDup (map id l) -> In g l ->
  exists l1 l2, l = l1 ++ g :: l2 /\
    List.filter (fun goal => negb (String.eqb (id goal) (id g))) l = l1 ++ l2.
Proof.
  intros Hnd Hin. apply in_split in Hin as (l1 & l2 & ->).
  exists l1, l2. split; [reflexivity|].
  rewrite map_app in Hnd. cbn [map] in Hnd.
  apply NoDup_app in Hnd as (_ & Hdis & Hnd2).
  apply NoDup_cons in Hnd2 as [Hnot2 _].
  rewrite List.filter_app. cbn [List.filter]. rewrite String.eqb_refl. cbn [negb].
  rewrite !filter_other_ids; [reflexivity| |].
  - rewrite <- list_elem_of_In. exact Hnot2.
  - intros Hin1. rewrite <- list_elem_of_In in Hin1. apply (Hdis _ Hin1). left.
Qed.

Lemma map_unique_id (g : SavingsGoal) (f : SavingsGoal -> SavingsGoal)
    (l : list SavingsGoal) :
  NoDup (map id l) -> In g l ->
  exists l1 l2, l = l1 ++ g :: l2 /\
    map (fun goal => if String.eqb (id goal) (id g) then f goal else goal) l
    = l1 ++ f g :: l2.
Proof.
  intros Hnd Hin. apply in_split in Hin as (l1 & l2 & ->).
  exists l1, l2. split; [reflexivity|].
  rewrite map_app in Hnd. cbn [map] in Hnd.
  apply NoDup_app in Hnd as (_ & Hdis & Hnd2).
  apply NoDup_cons in Hnd2 as [Hnot2 _].
  rewrite map_app. cbn [map]. rewrite String.eqb_refl.
  assert (Hid : forall l', ~ In (id g) (map id l') ->
            map (fun goal => if String.eqb (id goal) (id g) then f goal else goal) l'
            = l').
  { induction l' as [|x l' IH]; [reflexivity|]. cbn [map In]. intros H.
    destruct (String.eqb_spec (id x) (id g)); [tauto|]. f_equal. apply IH. tauto. }
  rewrite !Hid; [reflexivity| |].
  - rewrite <- list_elem_of_In. exact Hnot2.
  - intros Hin1. rewrite <- list_elem_of_In in Hin1. apply (Hdis _ Hin1). left.
Qed.

Lemma threeGoals_ids : NoDup (map id (savingsGoals Household.threeGoals)).
Proof. apply (bool_decide_unpack _). vm_compute. reflexivity. Qed.

(** X3. When the goals have different ids, removing a goal never leaves the
    list empty: the last goal is not removed. *)
Theorem remove_keeps_a_goal (goalId : string) (state : PlannerState) :
  savingsGoals state <> [] ->
  NoDup (map id (savingsGoals state)) ->
  savingsGoals (fst (removeSavingsGoal goalId state)) <> [].
Proof.
  intros Hne Hnd. unfold removeSavingsGoal.
  destruct (Nat.leb_spec (length (savingsGoals state)) 1) as [Hle|Hgt];
    [exact Hne|].
  cbn [fst withGoals savingsGoals].
  destruct (in_dec string_dec goalId (map id (savingsGoals state))) as [Hin|Hout].
  - apply in_map_iff in Hin as (g & <- & Hin).
    destruct (filter_unique_id g _ Hnd Hin) as (l1 & l2 & E & ->).
    rewrite E, length_app in Hgt. cbn [length] in Hgt.
    destruct l1; [destruct l2; [cbn in Hgt; lia|discriminate]|discriminate].
  - rewrite filter_other_ids by exact Hout. exact Hne.
Qed.

Lemma remove_keeps_a_goal_witness :
  savingsGoals (fst (removeSavingsGoal "b2" Household.threeGoals)) <> [].
Proof.
  apply remove_keeps_a_goal; [discriminate|exact threeGoals_ids].
Defined.

(** X4. With two goals or more, all of different ids, removing a goal shows
    no message and takes exactly that goal out: the goals before it
    and the goals after it stay, in their order. *)
Theorem remove_takes_one_goal (g : SavingsGoal) (state : PlannerState) :
  (2 <= length (savingsGoals state))%nat ->
  NoDup (map id (savingsGoals state)) ->
  In g (savingsGoals state) ->
  snd (removeSavingsGoal (id g) state) = None /\
  length (savingsGoals (fst (removeSavingsGoal (id g) state)))
  = pred (length (savingsGoals state)) /\
  exists l1 l2,
    savingsGoals state = l1 ++ g :: l2 /\
    savingsGoals (fst (removeSavingsGoal (id g) state)) = l1 ++ l2.
Proof.
  intros Hlen Hnd Hin. unfold removeSavingsGoal.
  destruct (Nat.leb_spec (length (savingsGoals state)) 1) as [Hle|Hgt]; [lia|].
  cbn [fst snd withGoals savingsGoals].
  destruct (filter_unique_id g _ Hnd Hin) as (l1 & l2 & E & ->).
  split; [reflexivity|]. split.
  - rewrite E, !length_app. cbn [length]. lia.
  - exists l1, l2. split; [exact E|reflexivity].
Qed.

Lemma remove_takes_one_goal_witness :
  snd (removeSavingsGoal "b2" Household.threeGoals) = None /\
  map id (savingsGoals (fst (removeSavingsGoal "b2" Household.threeGoals)))
  = ["a1"; "c3"]%string.
Proof.
  destruct (remove_takes_one_goal Household.trip Household.threeGoals)
    as (Hn & _ & _).
  - cbn. lia.
  - exact threeGoals_ids.
  - right. left. reflexivity.
  - split; [exact Hn|]. vm_compute. reflexivity.
Defined.

(** X5. When the goals have different ids, editing a field of a goal changes
    that goal only, where it stands: the goals before it and after it
    stay as they are. *)
Theorem update_changes_one_goal (g : SavingsGoal) (field : GoalField)
    (value : string) (state : PlannerState) :
  NoDup (map id (savingsGoals state)) ->
  In g (savingsGoals state) ->
  exists l1 l2,
    savingsGoals state = l1 ++ g :: l2 /\
    savingsGoals (updateSavingsGoal (id g) field value state)
    = l1 ++ setGoalField field value g :: l2.
Proof.
  intros Hnd Hin. cbn [updateSavingsGoal withGoals savingsGoals].
  destruct (map_unique_id g (setGoalField field value) _ Hnd Hin)
    as (l1 & l2 & E & ->).
  exists l1, l2. split; [exact E|reflexivity].
Qed.

Lemma update_changes_one_goal_witness :
  map amount (savingsGoals
                (updateSavingsGoal "b2" FieldAmount "175.50" Household.threeGoals))
  = ["200"; "175.50"; "50"]%string.
Proof.
  destruct (update_changes_one_goal Household.trip FieldAmount "175.50"
              Household.threeGoals threeGoals_ids (or_intror (or_introl eq_refl)))
    as (l1 & l2 & _ & _).
  vm_compute. reflexivity.
Defined.

(** ** Expenses *)

Lemma entryOf_recorded (exps exps' : gmap string string) (b c : Qc) (d : Z) :
  recorded exps (format_yyyy_MM_dd d) = recorded exps' (format_yyyy_MM_dd d) ->
  entryOf exps b c d = entryOf exps' b c d.
Proof.
  unfold recorded, entryOf. intros H.
  destruct (hasInput (exps !! _)), (hasInput (exps' !! _));
    try discriminate; [|reflexivity].
  inversion H as [H']. rewrite H'. reflexivity.
Qed.

Lemma entriesFrom_recorded (exps exps' : gmap string string) (b : Qc)
    (l : list Z) (c : Qc) :
  (forall d, In d l ->
     recorded exps (format_yyyy_MM_dd d) = recorded exps' (format_yyyy_MM_dd d)) ->
  entriesFrom exps b c l = entriesFrom exps' b c l.
Proof.
  revert c. induction l as [|d l IH]; intros c H; [reflexivity|].
  cbn [entriesFrom].
  rewrite (entryOf_recorded exps exps') by (apply H; left; reflexivity).
  f_equal. apply IH. intros x Hx. apply H. right. exact Hx.
Qed.

(** X6. The ledger reads the expenses only through the amounts they record:
    two tables of inputs that record the same amount for every key
    give the same ledger. *)
Theorem ledger_reads_recorded (state : PlannerState) (exps' : gmap string string)
    (today : Z) :
  (forall k, recorded exps' k = recorded (expenses state) k) ->
  calculations (withExpenses state exps') today = calculations state today.
Proof.
  intros H. unfold calculations, calculationsWith.
  cbn [withExpenses totalAmount startDate endDate expenses savingsGoals].
  destruct (parseISO (startDate state)) as [s|]; [|reflexivity].
  destruct (parseISO (endDate state)) as [e|]; [|reflexivity].
  destruct (s >? e)%Z; [reflexivity|].
  rewrite !forEach_entries.
  rewrite (entriesFrom_recorded exps' (expenses state)) by (intros; apply H).
  reflexivity.
Qed.

Lemma ledger_reads_recorded_witness :
  calculations
    (withExpenses Household.threeGoals
       (<["2024-03-03"%string := EmptyString]> (expenses Household.threeGoals)))
    Samples.march1
  = calculations Household.threeGoals Samples.march1.
Proof.
  apply ledger_reads_recorded. intros k. unfold recorded.
  destruct (decide (k = "2024-03-03"%string)) as [->|Hne].
  - vm_compute. reflexivity.
  - rewrite lookup_insert_ne by congruence. reflexivity.
Defined.

Lemma recorded_cleared (exps : gmap string string) (k k' : string) :
  recorded (<[k := EmptyString]> exps) k' = recorded (delete k exps) k'.
Proof.
  unfold recorded. destruct (decide (k = k')) as [->|Hne].
  - rewrite lookup_insert_eq, lookup_delete_eq. reflexivity.
  - rewrite lookup_insert_ne, lookup_delete_ne by exact Hne. reflexivity.
Qed.

(** X7. Emptying the expense field of a day gives the ledger of a state in
    which that day never had an input. *)
Theorem cleared_expense_is_no_expense (dateKey : string) (state : PlannerState)
    (today : Z) :
  calculations (handleExpenseChange dateKey EmptyString state) today
  = calculations (withExpenses state (delete dateKey (expenses state))) today.
Proof.
  unfold calculations, calculationsWith.
  cbn [handleExpenseChange withExpenses totalAmount startDate endDate expenses
       savingsGoals].
  destruct (parseISO (startDate state)) as [s|]; [|reflexivity].
  destruct (parseISO (endDate state)) as [e|]; [|reflexivity].
  destruct (s >? e)%Z; [reflexivity|].
  rewrite !forEach_entries.
  rewrite (entriesFrom_recorded (<[dateKey := EmptyString]> (expenses state))
             (delete dateKey (expenses state)))
    by (intros; apply recorded_cleared).
  reflexivity.
Qed.

(** The entries when the expense of one day of the list is edited. *)
Lemma entriesFrom_edit (exps : gmap string string) (b : Qc) (k v : string)
    (l : list Z) (c : Qc) (i : nat) (d0 : Z) :
  l !! i = Some d0 -> format_yyyy_MM_dd d0 = k ->
  (forall j x, (j < i)%nat -> l !! j = Some x -> format_yyyy_MM_dd x <> k) ->
  (forall j, (j < i)%nat ->
     entriesFrom (<[k := v]> exps) b c l !! j = entriesFrom exps b c l !! j) /\
  exists e e',
    entriesFrom exps b c l !! i = Some e /\
    entriesFrom (<[k := v]> exps) b c l !! i = Some e' /\
    date e' = d0 /\ allowance e' = allowance e /\
    spent e' = (if String.eqb v EmptyString then allowance e else amountValue v) /\
    remaining e' = allowance e' - spent e'.
Proof.
  revert c i. induction l as [|x l IH]; intros c i Hi Hk Hbefore.
  - destruct i; discriminate.
  - destruct i as [|i].
    + inversion Hi; subst x; clear Hi. split; [intros j Hj; lia|].
      cbn [entriesFrom]. do 2 eexists.
      split; [reflexivity|]. split; [reflexivity|].
      cbn [entryOf date allowance spent remaining].
      rewrite Hk, lookup_insert_eq. cbn [hasInput parseFloat_prop].
      destruct (String.eqb v EmptyString); repeat split; reflexivity.
    + cbn [entriesFrom].
      assert (Hx : entryOf (<[k := v]> exps) b c x = entryOf exps b c x).
      { apply entryOf_recorded. unfold recorded.
        rewrite lookup_insert_ne; [reflexivity|].
        intros E. apply (Hbefore 0%nat x); [lia|reflexivity|]. symmetry. exact E. }
      rewrite Hx.
      destruct (IH (remaining (entryOf exps b c x)) i Hi Hk) as [Hpre Hat].
      { intros j y Hj Hy. apply (Hbefore (S j) y); [lia|exact Hy]. }
      split; [|exact Hat].
      intros [|j] Hj; [reflexivity|]. apply Hpre. lia.
Qed.

(** X8. Editing the expense of an emitted day, in a range within the years
    1 to 9999, leaves every earlier day as it was and keeps the
    allowance of that day; what the day spends becomes the value of
    the input, or the allowance when the input is empty. *)
Theorem expense_edit_is_local (state : PlannerState) (today : Z) (s e : Z)
    (i : nat) (d : DayEntry) (value : string) :
  rangeOf state = Some (s, e) ->
  (day_0001_01_01 <= dayOf s)%Z -> (dayOf e <= day_9999_12_31)%Z ->
  days (calculations state today) !! i = Some d ->
  let L' := calculations (handleExpenseChange (dateKey d) value state) today in
  (forall j, (j < i)%nat -> days L' !! j = days (calculations state today) !! j) /\
  exists d', days L' !! i = Some d' /\
    date d' = date d /\ allowance d' = allowance d /\
    spent d' = (if String.eqb value EmptyString then allowance d
                else amountValue value) /\
    remaining d' = allowance d' - spent d'.
Proof.
  intros Hr Hlo Hhi Hd L'.
  destruct (calculations_valid state today s e Hr)
    as (Hle & _ & _ & Hbase & Hdays & _).
  destruct (calculations_valid (handleExpenseChange (dateKey d) value state)
              today s e Hr) as (_ & _ & _ & Hbase' & Hdays' & _).
  fold L' in Hbase', Hdays'.
  assert (Hb : dailyAllowance L' = dailyAllowance (calculations state today)).
  { rewrite Hbase, Hbase'. unfold L'. rewrite !calculations_available. reflexivity. }
  rewrite Hb in Hdays'. cbn [handleExpenseChange withExpenses expenses] in Hdays'.
  rewrite Hdays', Hdays. rewrite Hdays in Hd.
  pose proof Hd as Hd0. apply entriesFrom_lookup in Hd0 as (Hin & c0 & Hc0).
  assert (Hkey : format_yyyy_MM_dd (date d) = dateKey d).
  { rewrite Hc0 at 2. reflexivity. }
  pose proof (eachDayOfInterval_lookup s e i _ Hle Hin) as (Hdi & Hbd).
  destruct (entriesFrom_edit (expenses state)
              (dailyAllowance (calculations state today)) (dateKey d) value
              (eachDayOfInterval s e) 0 i (date d) Hin Hkey) as [Hpre Hat].
  { intros j x Hj Hx E.
    pose proof (eachDayOfInterval_lookup s e j _ Hle Hx) as (Hxj & Hbx).
    assert (P : parseISO (format_yyyy_MM_dd x) = Some (midnight x))
      by (apply parseISO_format; lia).
    rewrite E, <- Hkey, parseISO_format in P by lia.
    inversion P as [Hm]. apply midnight_inj in Hm. lia. }
  split; [exact Hpre|].
  destruct Hat as (e0 & e' & H0 & H' & Hdate & Hrest).
  rewrite Hd in H0. inversion H0; subst e0; clear H0.
  exists e'. split; [exact H'|]. split; [exact Hdate|]. exact Hrest.
Qed.

Lemma expense_edit_is_local_witness :
  exists d d',
    days (calculations Household.threeGoals Samples.march1) !! 1%nat = Some d /\
    days (calculations
            (handleExpenseChange "2024-03-02" "250" Household.threeGoals)
            Samples.march1) !! 1%nat = Some d' /\
    allowance d' = allowance d /\ spent d' = ofZ 250 /\
    days (calculations
            (handleExpenseChange "2024-03-02" "250" Household.threeGoals)
            Samples.march1) !! 0%nat
    = days (calculations Household.threeGoals Samples.march1) !! 0%nat.
Proof.
  destruct (days (calculations Household.threeGoals Samples.march1) !! 1%nat)
    as [d|] eqn:E1; [|vm_compute in E1; discriminate].
  assert (Hr : rangeOf Household.threeGoals
               = Some (midnight 19783, midnight 19785))
    by (vm_compute; reflexivity).
  assert (Hlo : (day_0001_01_01 <= dayOf (midnight 19783))%Z)
    by (vm_compute; discriminate).
  assert (Hhi : (dayOf (midnight 19785) <= day_9999_12_31)%Z)
    by (vm_compute; discriminate).
  destruct (expense_edit_is_local Household.threeGoals Samples.march1 _ _ 1%nat d
              "250" Hr Hlo Hhi E1) as (Hpre & d' & Hd' & _ & Hal & Hsp & _).
  assert (Hk : dateKey d = "2024-03-02"%string).
  { vm_compute in E1. injection E1 as <-. reflexivity. }
  rewrite Hk in Hpre, Hd'.
  exists d, d'. split; [reflexivity|]. split; [exact Hd'|]. split; [exact Hal|].
  split.
  - rewrite Hsp. apply Qc_is_canon. vm_compute. reflexivity.
  - apply Hpre. lia.
Defined.

(** ** Savings by category *)

Lemma isInherited_proto (c : string) :
  isInherited c = false -> String.eqb c "__proto__" = false.
Proof.
  intros H. destruct (String.eqb_spec c "__proto__") as [->|]; [|reflexivity].
  vm_compute in H. discriminate H.
Qed.

(** The property [c] after one goal, for a name that is not inherited. *)
Lemma groupGoal_lookup (m : gmap string Stored) (g : SavingsGoal) (c : string) :
  isInherited c = false ->
  groupGoal m g !! c
  = match m !! c with
    | Some (Number q) =>
        Some (Number (if countsFor c g then q + amountValue (amount g) else q))
    | Some Text => Some Text
    | None => if countsFor c g then Some (Number (0 + amountValue (amount g)))
              else None
    end.
Proof.
  intros Hc. unfold groupGoal, countsFor, counts. fold (amountValue (amount g)).
  destruct (gtb (amountValue (amount g)) 0) eqn:Epos.
  - unfold assign, plus.
    destruct (String.eqb_spec (category g) c) as [Ec|Ec]; cbn [andb].
    + subst c. rewrite (isInherited_proto _ Hc), Hc, lookup_insert_eq.
      destruct (m !! category g) as [[q|]|]; try reflexivity.
      rewrite (or0_value (Some q)). reflexivity.
    + destruct (String.eqb (category g) "__proto__").
      * destruct (m !! c) as [[q|]|]; reflexivity.
      * rewrite lookup_insert_ne by exact Ec.
        destruct (m !! c) as [[q|]|]; reflexivity.
  - rewrite andb_false_r. destruct (m !! c) as [[q|]|]; reflexivity.
Qed.

Lemma categoryTotalFrom_cons (q : Qc) (c : string) (g : SavingsGoal)
    (l : list SavingsGoal) :
  categoryTotalFrom q c (g :: l)
  = categoryTotalFrom (if countsFor c g then q + amountValue (amount g) else q) c l.
Proof. reflexivity. Qed.

(** The property [c] after the goals, for a name that is not inherited. *)
Lemma groupGoal_fold (goals : list SavingsGoal) (m : gmap string Stored) (c : string) :
  isInherited c = false ->
  fold_left groupGoal goals m !! c
  = match m !! c with
    | Some (Number q) => Some (Number (categoryTotalFrom q c goals))
    | Some Text => Some Text
    | None => if existsb (countsFor c) goals
              then Some (Number (categoryTotal c goals)) else None
    end.
Proof.
  intros Hc. revert m. induction goals as [|g l IH]; intros m.
  - cbn [fold_left existsb]. destruct (m !! c) as [[q|]|]; reflexivity.
  - cbn [fold_left existsb]. rewrite IH, (groupGoal_lookup _ _ _ Hc).
    unfold categoryTotal. rewrite !categoryTotalFrom_cons.
    destruct (m !! c) as [[q|]|]; [reflexivity..|].
    destruct (countsFor c g); reflexivity.
Qed.

(** X11. For a category whose name no plain object inherits,
    [savingsByCategory] has an entry exactly when a goal of that
    category has a positive amount, and the entry is the number that
    the positive amounts of the goals of that category add up to, in
    the order of the goals. *)
Theorem savingsByCategory_lookup (goals : list SavingsGoal) (c : string) :
  isInherited c = false ->
  savingsByCategory goals !! c
  = if existsb (countsFor c) goals then Some (Number (categoryTotal c goals))
    else None.
Proof.
  intros Hc. unfold savingsByCategory. rewrite (groupGoal_fold _ _ _ Hc), lookup_empty.
  reflexivity.
Qed.

Lemma savingsByCategory_lookup_witness :
  savingsByCategory (savingsGoals Household.threeGoals) !! "emergency"%string
  = Some (Number (ofZ 250)) /\
  savingsByCategory (savingsGoals Household.threeGoals) !! "other"%string = None.
Proof.
  split.
  - rewrite savingsByCategory_lookup by reflexivity.
    change (existsb (countsFor "emergency") (savingsGoals Household.threeGoals))
      with true.
    apply (f_equal Some), (f_equal Number), Qc_is_canon. vm_compute. reflexivity.
  - rewrite savingsByCategory_lookup by reflexivity. reflexivity.
Defined.

(** Every number stored is positive, at every step of the loop. *)
Lemma groupGoal_positive (goals : list SavingsGoal) (m : gmap string Stored) :
  (forall c q, m !! c = Some (Number q) -> 0 < q) ->
  forall c q, fold_left groupGoal goals m !! c = Some (Number q) -> 0 < q.
Proof.
  revert m. induction goals as [|g l IH]; intros m Hm; [exact Hm|].
  cbn [fold_left]. apply IH. intros c q.
  unfold groupGoal. fold (amountValue (amount g)).
  destruct (gtb (amountValue (amount g)) 0) eqn:Epos; [|apply Hm].
  apply gtb_lt in Epos. unfold assign.
  destruct (String.eqb (category g) "__proto__"); [apply Hm|].
  destruct (decide (category g = c)) as [<-|Hne].
  - rewrite lookup_insert_eq. unfold plus.
    destruct (m !! category g) as [[q0|]|] eqn:E0.
    + rewrite (or0_value (Some q0)). intros H. injection H as <-.
      pose proof (Hm _ _ E0) as H0.
      revert Epos H0. generalize (amountValue (amount g)). intros a. qc_order.
    + discriminate.
    + destruct (isInherited (category g)); [discriminate|].
      intros H. injection H as <-.
      revert Epos. generalize (amountValue (amount g)). intros a. qc_order.
  - rewrite lookup_insert_ne by exact Hne. apply Hm.
Qed.

(** X12. Every number in [savingsByCategory] is positive. *)
Theorem savingsByCategory_positive (goals : list SavingsGoal) (c : string) (v : Qc) :
  savingsByCategory goals !! c = Some (Number v) -> 0 < v.
Proof.
  unfold savingsByCategory. apply groupGoal_positive.
  intros c' q. rewrite lookup_empty. discriminate.
Qed.

Lemma savingsByCategory_positive_witness :
  exists v,
    savingsByCategory (savingsGoals Household.threeGoals) !! "emergency"%string
    = Some (Number v) /\ 0 < v.
Proof.
  destruct (savingsByCategory (savingsGoals Household.threeGoals)
              !! "emergency"%string) as [[v|]|] eqn:E;
    [|vm_compute in E; discriminate..].
  exists v. split; [reflexivity|].
  apply (savingsByCategory_positive _ _ _ E).
Defined.

(** A category named as an inherited property never holds a number, and
    nothing is ever stored under [__proto__]. *)
Example savingsByCategory_inherited :
  savingsByCategory
    [{| id := "a1"; name := "Rainy day"; amount := "200";
        category := "constructor" |};
     {| id := "b2"; name := "Trip"; amount := "150"; category := "__proto__" |}]
  = {[ "constructor"%string := Text ]}.
Proof. vm_compute. reflexivity. Qed.

(** ** Loading the state *)
Import Storage.

Lemma month_bounds (t : Z) :
  let y := getFullYear t in
  let m := getMonth1 t in
  validateDate y m 1 = true /\
  validateDate y m (days_in_month y m) = true /\
  (startOfMonth t <= t <= endOfMonth t)%Z /\
  (endOfMonth t - startOfMonth t + 1 = days_in_month y m)%Z /\
  getFullYear (startOfMonth t) = y /\ getFullYear (endOfMonth t) = y.
Proof.
  unfold startOfMonth, endOfMonth, getFullYear, getMonth1.
  pose proof (days_from_civil_from_days t) as H.
  destruct (civil_from_days t) as [[y m] d]. cbn [fst snd].
  destruct H as [Hv Ht].
  pose proof (validateDate_bounds y m d Hv) as (Hm & Hd & _).
  assert (V1 : validateDate y m 1 = true).
  { unfold validateDate. rewrite !andb_true_iff, !Z.leb_le. lia. }
  assert (V2 : validateDate y m (days_in_month y m) = true).
  { unfold validateDate. rewrite !andb_true_iff, !Z.leb_le. lia. }
  rewrite (civil_from_days_from_civil _ _ _ V1).
  rewrite (civil_from_days_from_civil _ _ _ V2). cbn [fst].
  repeat split; try assumption; try reflexivity;
    rewrite <- ?Ht; unfold days_from_civil; lia.
Qed.

Lemma month_in_range (t : Z) :
  (day_0001_01_01 <= t <= day_9999_12_31)%Z ->
  (day_0001_01_01 <= startOfMonth t)%Z /\ (endOfMonth t <= day_9999_12_31)%Z.
Proof.
  intros [Hlo Hhi]. destruct (month_bounds t) as (_ & _ & _ & _ & Hs & He).
  split.
  - apply getFullYear_lower. rewrite Hs. apply getFullYear_lower. exact Hlo.
  - apply getFullYear_upper. rewrite He. apply getFullYear_upper. exact Hhi.
Qed.

(** X15. With nothing stored, and today in the years 1 to 9999, the planner
    starts with the calendar month of today: the range runs from its
    first to its last day, holds today, is valid, and has as many
    days as the month. *)
Theorem fresh_start_covers_month (today : Z) (newId : string) :
  (day_0001_01_01 <= today <= day_9999_12_31)%Z ->
  let state := initialState None today newId in
  rangeOf state
  = Some (midnight (startOfMonth today), midnight (endOfMonth today)) /\
  (startOfMonth today <= today <= endOfMonth today)%Z /\
  isValidRange (calculations state today) = true /\
  daysCount (calculations state today)
  = days_in_month (getFullYear today) (getMonth1 today).
Proof.
  intros Hrange state.
  destruct (month_bounds today) as (_ & _ & Hin & Hlen & _).
  destruct (month_in_range today Hrange) as [Hlo Hhi].
  assert (Hr : rangeOf state
               = Some (midnight (startOfMonth today), midnight (endOfMonth today))).
  { unfold rangeOf, state.
    cbn [initialState startDate endDate getDefaultDates fst snd].
    rewrite !parseISO_format by lia.
    destruct (Z.leb_spec (midnight (startOfMonth today))
                         (midnight (endOfMonth today))) as [_|Hgt];
      [reflexivity|].
    unfold midnight, msPerDay in Hgt. lia. }
  split; [exact Hr|]. split; [exact Hin|].
  destruct (calculations_valid state today _ _ Hr) as (Hle & Hv & Hc & _).
  split; [exact Hv|]. rewrite Hc, (differenceInDays_full _ _ Hle).
  destruct (dayOf_midnight (startOfMonth today)) as [-> ->].
  destruct (dayOf_midnight (endOfMonth today)) as [-> ->].
  rewrite Z.ltb_irrefl. lia.
Qed.

Lemma fresh_start_covers_month_witness :
  rangeOf (initialState None Household.march2 "g1")
  = Some (midnight 19783, midnight 19813) /\
  daysCount (calculations (initialState None Household.march2 "g1") Household.march2)
  = 31%Z.
Proof.
  destruct (fresh_start_covers_month Household.march2 "g1") as (Hr & _ & _ & Hc).
  - vm_compute. split; discriminate.
  - split; [rewrite Hr; vm_compute; reflexivity|rewrite Hc; vm_compute; reflexivity].
Defined.

Lemma append_nonempty (a b : string) :
  b <> EmptyString -> String.append a b <> EmptyString.
Proof. destruct a; [intros H; exact H|discriminate]. Qed.

Lemma format_yyyy_MM_dd_nonempty (t : Z) : format_yyyy_MM_dd t <> EmptyString.
Proof.
  unfold format_yyyy_MM_dd. cbn [String.concat].
  apply append_nonempty. discriminate.
Qed.

Lemma orDefault_nonempty (x : option string) (d : string) :
  d <> EmptyString -> orDefault x d <> EmptyString.
Proof.
  intros Hd. unfold orDefault. destruct x as [s|]; [|exact Hd].
  destruct (String.eqb_spec s EmptyString); assumption.
Qed.

(** X16. Whatever is stored, the state the planner starts with has a start
    and an end date, at least one savings goal, and a category on
    every goal. *)
Theorem loaded_state_wellFormed (saved : option Saved) (today : Z) (newId : string) :
  wellFormed (initialState saved today newId).
Proof.
  unfold wellFormed.
  destruct saved as [parsed|];
    cbn [initialState startDate endDate savingsGoals getDefaultDates fst snd].
  - split; [apply orDefault_nonempty, format_yyyy_MM_dd_nonempty|].
    split; [apply orDefault_nonempty, format_yyyy_MM_dd_nonempty|].
    destruct (saved_savingsGoals parsed) as [[|g l]|];
      cbn [map length Nat.ltb Nat.leb].
    + split; [discriminate|]. repeat constructor. discriminate.
    + split; [discriminate|]. apply Forall_forall. intros x Hx.
      rewrite list_elem_of_In in Hx.
      change (In x (map (fun goal => {| id := saved_id goal;
                                        name := saved_name goal;
                                        amount := saved_amount goal;
                                        category :=
                                          orDefault (saved_category goal) "other" |})
                        (g :: l))) in Hx.
      apply in_map_iff in Hx as (y & <- & _). cbn [category].
      apply orDefault_nonempty. discriminate.
    + split; [discriminate|]. repeat constructor. discriminate.
  - split; [apply format_yyyy_MM_dd_nonempty|].
    split; [apply format_yyyy_MM_dd_nonempty|].
    split; [discriminate|]. repeat constructor. discriminate.
Qed.

(** X17. A state with both dates, at least one goal and a category on every
    goal is loaded back as it was stored. *)
Theorem stored_state_loads_back (state : PlannerState) (today : Z) (newId : string) :
  wellFormed state ->
  initialState (Some (stored state)) today newId = state.
Proof.
  intros (Hs & He & Hg & Hc). destruct state as [total sd ed exps goals].
  cbn [startDate endDate savingsGoals] in *.
  cbn [initialState stored saved_totalAmount saved_startDate saved_endDate
       saved_expenses saved_savingsGoals totalAmount startDate endDate expenses
       savingsGoals orDefault].
  assert (Hgoals :
    map (fun goal => {| id := saved_id goal; name := saved_name goal;
                        amount := saved_amount goal;
                        category := orDefault (saved_category goal) "other" |})
        (map (fun goal => {| saved_id := id goal; saved_name := name goal;
                             saved_amount := amount goal;
                             saved_category := Some (category goal) |}) goals)
    = goals).
  { rewrite map_map. clear Hg. induction goals as [|g l IH]; [reflexivity|].
    apply Forall_cons in Hc as [Hgc Hl]. cbn [map]. rewrite (IH Hl). f_equal.
    destruct g as [i n a c]. cbn [id name amount category saved_id saved_name
                                   saved_amount saved_category orDefault] in *.
    destruct (String.eqb_spec c EmptyString); [contradiction|reflexivity]. }
  rewrite Hgoals.
  destruct (String.eqb_spec total EmptyString) as [->|_];
  destruct (String.eqb_spec sd EmptyString); try contradiction;
  destruct (String.eqb_spec ed EmptyString); try contradiction;
  (destruct goals; [contradiction|reflexivity]).
Qed.

Lemma stored_state_loads_back_witness :
  initialState (Some (stored Household.threeGoals)) Household.march2 "g9"
  = Household.threeGoals.
Proof.
  apply stored_state_loads_back. unfold wellFormed.
  split; [discriminate|]. split; [discriminate|]. split; [discriminate|].
  repeat constructor; discriminate.
Defined.

(** X18. Loading keeps the total saved: it is the sum of the values of the
    stored goal amounts, and 0 when no goal is stored. *)
Theorem loading_keeps_total_saved (parsed : Saved) (today : Z) (newId : string) :
  totalSavings (savingsGoals (initialState (Some parsed) today newId))
  = Qsum (map (fun goal => amountValue (saved_amount goal))
              (match saved_savingsGoals parsed with Some l => l | None => [] end)).
Proof.
  cbn [initialState savingsGoals].
  destruct (saved_savingsGoals parsed) as [[|g l]|]; cbn [map length Nat.ltb Nat.leb].
  - rewrite (totalSavings_sum [_]). cbn [map Qsum generalSavings amount].
    rewrite amountValue_0. ring.
  - rewrite totalSavings_sum. cbn [map Qsum amount]. rewrite map_map. reflexivity.
  - rewrite (totalSavings_sum [_]). cbn [map Qsum generalSavings amount].
    rewrite amountValue_0. ring.
Qed.

(** ** The CSV export *)
Import Csv.

Lemma count_char_append (c : ascii) (a b : string) :
  count_char c (String.append a b) = (count_char c a + count_char c b)%nat.
Proof.
  induction a as [|x a IH]; [reflexivity|].
  change (String.append (String x a) b) with (String x (String.append a b)).
  cbn [count_char]. rewrite IH. lia.
Qed.

Lemma count_char_uint (c : ascii) (u : Decimal.uint) :
  is_digit c = false -> count_char c (NilZero.string_of_uint u) = O.
Proof.
  intros Hc.
  assert (H : forall u, count_char c (NilEmpty.string_of_uint u) = O).
  { induction u0; cbn [NilEmpty.string_of_uint count_char]; rewrite ?IHu0;
      try reflexivity;
      match goal with
      | |- ((if Ascii.eqb ?d c then _ else _) + _)%nat = _ =>
          destruct (Ascii.eqb_spec d c) as [E|E]; [subst c; discriminate Hc|reflexivity]
      end. }
  unfold NilZero.string_of_uint. destruct u; try apply H.
  cbn [count_char]. destruct (Ascii.eqb_spec "0" c) as [E|E]; [|reflexivity].
  subst c. discriminate Hc.
Qed.

Lemma count_char_to_string (c : ascii) (n : Z) :
  is_digit c = false -> count_char c (to_string n) = O.
Proof. intros H. apply count_char_uint. exact H. Qed.

Lemma count_char_zeros (c : ascii) (k : nat) :
  is_digit c = false -> count_char c (zeros k) = O.
Proof.
  intros H. induction k as [|k IH]; [reflexivity|]. cbn [zeros count_char].
  rewrite IH. destruct (Ascii.eqb_spec "0" c) as [E|E]; [|reflexivity].
  subst c. discriminate H.
Qed.

Lemma count_char_addLeadingZeros (c : ascii) (n : Z) (w : nat) :
  is_digit c = false -> c <> "-"%char -> count_char c (addLeadingZeros n w) = O.
Proof.
  intros H Hm. unfold addLeadingZeros. rewrite !count_char_append.
  rewrite count_char_zeros, count_char_to_string by exact H.
  destruct (n <? 0)%Z; [|reflexivity].
  cbn [count_char]. destruct (Ascii.eqb_spec "-" c) as [E|E]; [|reflexivity].
  subst c. contradiction.
Qed.

(** The two characters that shape a CSV text. *)
Lemma count_char_names (c : ascii) (n : Z) :
  c = ","%char \/ c = ascii_of_N 10 ->
  count_char c (month_name n) = O /\ count_char c (weekday_name n) = O.
Proof.
  unfold month_name, weekday_name. intros Hc.
  generalize (Z.to_nat (n - 1)) (Z.to_nat n). intros k k'. split.
  - do 12 (destruct k as [|k]; [destruct Hc as [-> | ->]; reflexivity|]).
    destruct k; reflexivity.
  - do 7 (destruct k' as [|k']; [destruct Hc as [-> | ->]; reflexivity|]).
    destruct k'; reflexivity.
Qed.

Lemma count_char_concat (c : ascii) (sep : string) (l : list string) :
  count_char c (String.concat sep l)
  = (list_sum (map (count_char c) l) + pred (length l) * count_char c sep)%nat.
Proof.
  induction l as [|x l IH]; [reflexivity|].
  destruct l as [|y l].
  - cbn [String.concat map list_sum fold_right length pred]. lia.
  - change (String.concat sep (x :: y :: l))
      with (String.append x (String.append sep (String.concat sep (y :: l)))).
    rewrite !count_char_append, IH. cbn [map list_sum fold_right length pred]. lia.
Qed.

Lemma count_char_formattedDate (t : Z) :
  count_char "," (format_MMMM_d_yyyy t) = 1%nat /\
  count_char (ascii_of_N 10) (format_MMMM_d_yyyy t) = O.
Proof.
  unfold format_MMMM_d_yyyy. rewrite !count_char_concat.
  cbn [map list_sum fold_right length pred count_char].
  destruct (count_char_names "," (getMonth1 t) (or_introl eq_refl)) as [-> _].
  destruct (count_char_names (ascii_of_N 10) (getMonth1 t) (or_intror eq_refl))
    as [-> _].
  rewrite !count_char_to_string, !count_char_addLeadingZeros
    by (reflexivity || discriminate).
  split; reflexivity.
Qed.

Lemma count_char_toFixed2 (c : ascii) (x : Qc) :
  c = ","%char \/ c = ascii_of_N 10 -> count_char c (toFixed2 x) = O.
Proof.
  intros Hc. unfold toFixed2. rewrite !count_char_append.
  rewrite count_char_to_string, count_char_addLeadingZeros
    by (destruct Hc as [-> | ->]; (reflexivity || discriminate)).
  destruct (gtb 0 x); destruct Hc as [-> | ->]; reflexivity.
Qed.

(** The texts of an emitted day are the formats of its date. *)
Lemma days_texts (state : PlannerState) (today : Z) (e : DayEntry) :
  In e (days (calculations state today)) ->
  formattedDate e = format_MMMM_d_yyyy (date e) /\ dayName e = format_EEEE (date e).
Proof.
  intros Hin. destruct (isValidRange (calculations state today)) eqn:Hv.
  - rewrite <- list_elem_of_In in Hin. apply list_elem_of_lookup_1 in Hin as [i Hi].
    destruct (days_entry state today i e Hv Hi) as (c & ->). split; reflexivity.
  - destruct (rangeOf state) as [[s d]|] eqn:Hr.
    + destruct (calculations_valid state today s d Hr) as (_ & Hv' & _).
      rewrite Hv in Hv'. discriminate.
    + rewrite (calculations_invalid state today Hr) in Hin. destruct Hin.
Qed.

Lemma row_counts (state : PlannerState) (today : Z) (row : list string) :
  In row (rows (calculations state today)) ->
  count_char "," (String.concat "," row) = 5%nat /\
  count_char (ascii_of_N 10) (String.concat "," row) = O.
Proof.
  unfold rows. intros Hin. apply in_map_iff in Hin as (e & <- & He).
  destruct (days_texts state today e He) as [-> ->].
  rewrite !count_char_concat. cbn [map list_sum fold_right length pred count_char].
  destruct (count_char_formattedDate (date e)) as [-> ->].
  unfold format_EEEE.
  destruct (count_char_names "," (getDay (date e)) (or_introl eq_refl)) as [_ ->].
  destruct (count_char_names (ascii_of_N 10) (getDay (date e)) (or_intror eq_refl))
    as [_ ->].
  rewrite !(count_char_toFixed2 ",") by (left; reflexivity).
  rewrite !(count_char_toFixed2 (ascii_of_N 10)) by (right; reflexivity).
  split; reflexivity.
Qed.

(** X19. The CSV text has the header line and one line for every emitted
    day: as many line breaks as days. *)
Theorem csv_one_line_per_day (state : PlannerState) (today : Z) :
  count_char (ascii_of_N 10) (csvContent (calculations state today))
  = length (days (calculations state today)).
Proof.
  unfold csvContent. rewrite count_char_concat.
  cbn [map length pred]. rewrite length_map.
  match goal with
  | |- context [list_sum (?a :: ?l)] =>
      change (list_sum (a :: l)) with (a + list_sum l)%nat
  end.
  assert (H : list_sum (map (count_char (ascii_of_N 10))
                 (map (String.concat ",") (rows (calculations state today)))) = O).
  { pose proof (row_counts state today) as Hrow.
    induction (rows (calculations state today)) as [|r l IH]; [reflexivity|].
    cbn [map].
    match goal with
    | |- context [list_sum (?a :: ?l)] =>
        change (list_sum (a :: l)) with (a + list_sum l)%nat
    end.
    destruct (Hrow r (or_introl eq_refl)) as [_ ->].
    apply IH. intros row Hin. apply Hrow. right. exact Hin. }
  rewrite H. unfold rows. rewrite length_map.
  change (count_char (ascii_of_N 10) (String.concat "," headers)) with O.
  change (count_char (ascii_of_N 10) newline) with 1%nat. lia.
Qed.

(** X20. Every data row of the CSV has the five fields of the header, but its
    line has one comma more than the header line: the date is
    written with a comma and is not quoted. *)
Theorem csv_row_has_extra_comma (state : PlannerState) (today : Z)
    (row : list string) :
  In row (rows (calculations state today)) ->
  length row = length headers /\
  count_char "," (String.concat "," row)
  = S (count_char "," (String.concat "," headers)).
Proof.
  intros Hin. split.
  - unfold rows in Hin. apply in_map_iff in Hin as (e & <- & _). reflexivity.
  - destruct (row_counts state today row Hin) as [-> _]. reflexivity.
Qed.

Lemma csv_row_has_extra_comma_witness :
  exists row,
    rows (calculations Samples.twoDays Samples.march1) !! 0%nat = Some row /\
    length row = 5%nat /\ count_char "," (String.concat "," row) = 5%nat.
Proof.
  destruct (rows (calculations Samples.twoDays Samples.march1) !! 0%nat)
    as [row|] eqn:E; [|vm_compute in E; discriminate].
  exists row. split; [reflexivity|].
  apply (csv_row_has_extra_comma Samples.twoDays Samples.march1 row).
  apply list_elem_of_In. apply (list_elem_of_lookup_2 _ _ _ E).
Defined.

(** ** The earlier planner *)

Lemma entriesFrom_texts (exps : gmap string string) (b c : Qc) (l : list Z) :
  map Earlier.textsLater (entriesFrom exps b c l)
  = map (fun d => (d, format_MMMM_d_yyyy d, format_EEEE d)) l.
Proof.
  revert c. induction l as [|d l IH]; intros c; [reflexivity|].
  cbn [entriesFrom map]. rewrite IH. reflexivity.
Qed.

(** X22. The later planner, given the desired saving as its one goal and no
    expense, agrees with the earlier planner on the validity of the
    range, the day count, the available amount and the daily
    allowance, on the days and their texts, and on the amount of the
    first day. *)
Theorem later_planner_extends_earlier (state : Earlier.PlannerState)
    (goalId : string) (today : Z) :
  let P := Earlier.calculations state in
  let L := calculations (Earlier.asLater state goalId) today in
  isValidRange L = Earlier.isValidRange P /\
  daysCount L = Earlier.daysCount P /\
  available L = Earlier.available P /\
  dailyAllowance L = Earlier.dailyAllowance P /\
  map Earlier.textsLater (days L) = map Earlier.texts (Earlier.days P) /\
  option_map allowance (days L !! 0%nat)
  = option_map Earlier.amount (Earlier.days P !! 0%nat).
Proof.
  unfold calculations, calculationsWith, Earlier.calculations.
  cbn [Earlier.asLater totalAmount startDate endDate expenses savingsGoals].
  assert (Hs : totalSavings
                 [{| id := goalId; name := "General Savings";
                     amount := Earlier.desiredSaving state; category := "other" |}]
               = or0 (parseFloat (Earlier.desiredSaving state))).
  { unfold totalSavings. cbn [fold_left amount]. ring. }
  rewrite Hs.
  destruct (parseISO (Earlier.startDate state)) as [s|];
    [|repeat split; reflexivity].
  destruct (parseISO (Earlier.endDate state)) as [e|];
    [|repeat split; reflexivity].
  destruct (s >? e)%Z; [repeat split; reflexivity|].
  cbv zeta.
  cbn [isValidRange daysCount available dailyAllowance days Earlier.isValidRange
       Earlier.daysCount Earlier.available Earlier.dailyAllowance Earlier.days].
  rewrite forEach_entries. cbn [app].
  split; [reflexivity|]. split; [reflexivity|]. split; [reflexivity|].
  split; [reflexivity|]. split.
  - rewrite entriesFrom_texts, map_map. reflexivity.
  - destruct (eachDayOfInterval s e) as [|d l]; [reflexivity|].
    cbn [entriesFrom map]. cbn. apply (f_equal Some). ring.
Qed.

(** ** What is shown, and the goal ids *)

Lemma isValidRange_rangeOf (state : PlannerState) (today : Z) :
  isValidRange (calculations state today)
  = match rangeOf state with Some _ => true | None => false end.
Proof.
  destruct (rangeOf state) as [[s e]|] eqn:Hr.
  - destruct (calculations_valid state today s e Hr) as (_ & Hv & _). exact Hv.
  - rewrite (calculations_invalid state today Hr). reflexivity.
Qed.

(** X23. Whether the summary is shown depends on the total and the two dates
    only: not on the expenses, the goals or the current day. *)
Theorem summary_shown_by_total_and_dates (state : PlannerState)
    (exps : gmap string string) (goals : list SavingsGoal) (today today' : Z) :
  hasValidInput (withGoals (withExpenses state exps) goals) today'
  = hasValidInput state today.
Proof.
  unfold hasValidInput. rewrite !isValidRange_rangeOf. reflexivity.
Qed.

(** X24. Goal ids that are all different stay so: after adding a goal with a
    new id, after editing a goal, which keeps every id, and after
    removing a goal. *)
Theorem goal_ids_stay_distinct (state : PlannerState) (newId goalId value : string)
    (field : GoalField) :
  NoDup (map id (savingsGoals state)) ->
  (~ In newId (map id (savingsGoals state)) ->
   NoDup (map id (savingsGoals (addSavingsGoal newId state)))) /\
  map id (savingsGoals (updateSavingsGoal goalId field value state))
  = map id (savingsGoals state) /\
  NoDup (map id (savingsGoals (fst (removeSavingsGoal goalId state)))).
Proof.
  intros Hnd. split; [|split].
  - intros Hfresh. cbn [addSavingsGoal withGoals savingsGoals].
    rewrite map_app. cbn [map id]. apply NoDup_app. split; [exact Hnd|]. split.
    + intros x Hx Hx'. apply list_elem_of_In in Hx.
      apply list_elem_of_singleton in Hx'. subst x. contradiction.
    + apply NoDup_singleton.
  - cbn [updateSavingsGoal withGoals savingsGoals]. rewrite map_map.
    apply map_ext. intros g. destruct (String.eqb (id g) goalId); [|reflexivity].
    destruct field; reflexivity.
  - unfold removeSavingsGoal.
    destruct (length (savingsGoals state) <=? 1)%nat; [exact Hnd|].
    cbn [fst withGoals savingsGoals].
    induction (savingsGoals state) as [|g l IH]; [constructor|].
    cbn [map] in Hnd. apply NoDup_cons in Hnd as [Hg Hl]. cbn [List.filter].
    destruct (negb (String.eqb (id g) goalId)); [|apply IH; exact Hl].
    cbn [map]. apply NoDup_cons. split; [|apply IH; exact Hl].
    intros Hin. apply Hg. apply list_elem_of_In in Hin. apply list_elem_of_In.
    apply in_map_iff in Hin as (x & Hx & Hin). apply filter_In in Hin as [Hin _].
    apply in_map_iff. exists x. split; assumption.
Qed.

Lemma goal_ids_stay_distinct_witness :
  NoDup (map id (savingsGoals (addSavingsGoal "d4" Household.threeGoals))) /\
  NoDup (map id (savingsGoals (fst (removeSavingsGoal "a1" Household.threeGoals)))).
Proof.
  destruct (goal_ids_stay_distinct Household.threeGoals "d4" "a1" EmptyString
              FieldName threeGoals_ids) as (Hadd & _ & Hrem).
  split; [apply Hadd|exact Hrem].
  cbn. intros [H|[H|[H|[]]]]; discriminate H.
Defined.
